(** * Live session orchestration and history queries of speicher-dashboard

    Shallow embedding of the socket handlers of [server.js], of the
    [ChatService] of [db/services/chat-service.ts], of the retry wrapper
    [MongoDBManager.withRetry] and of the [/api/chat-messages] and
    [/api/chat-sessions] route handlers.

    The two MongoDB collections [chatSessions] and [chatMessages] are the
    shared store.  [chatSessions] carries a unique index on [id]
    ([session_id_unique]), so it is a finite map from id to document;
    [chatMessages] carries a unique index on [id] ([message_id_unique]) and
    is kept in insertion order.  Timestamps produced by
    [new Date().toISOString()] are modelled by the milliseconds they denote:
    these strings are fixed-width UTC, so their string order is time order
    and [$dateFromString] maps them back to those milliseconds. *)

From Stdlib Require Import ZArith QArith Qround Lia Sorted.
From stdpp Require Import base gmap strings list.

Open Scope string_scope.

(* ------------------------------------------------------------------ *)
(** ** Data model (types/types.ts) *)

Inductive Status := Waiting | Active | Closed.

Definition status_eqb (a b : Status) : bool :=
  match a, b with
  | Waiting, Waiting | Active, Active | Closed, Closed => true
  | _, _ => false
  end.

(** The string stored in the [status] field. *)
Definition status_str (s : Status) : string :=
  match s with Waiting => "waiting" | Active => "active" | Closed => "closed" end.

Record ChatSession := mkSession {
  id : string;
  userId : string;
  userEmail : string;
  userName : string;
  status : Status;
  agentId : option string;
  agentName : option string;
  createdAt : Z;
  updatedAt : Z;
  initialMessage : string;
}.

Record ChatMessage := mkMessage {
  msg_id : string;          (* [id] *)
  sessionId : string;
  sender : string;
  message : string;
  msg_createdAt : Z;        (* [createdAt] *)
}.

Record Db := mkDb {
  chatSessions : gmap string ChatSession;
  chatMessages : list ChatMessage;
}.

(** JavaScript truthiness of an optional string / number field. *)
Definition truthy_str (o : option string) : bool :=
  match o with Some s => negb (String.eqb s "") | None => false end.
Definition truthy_num (o : option Z) : bool :=
  match o with Some n => negb (n =? 0)%Z | None => false end.

(** [$set] on a session document, field by field. *)
Definition set_claim (aid aname : string) (now : Z) (s : ChatSession) : ChatSession :=
  mkSession (id s) (userId s) (userEmail s) (userName s) Active
    (Some aid) (Some aname) (createdAt s) now (initialMessage s).

Definition set_closed (now : Z) (s : ChatSession) : ChatSession :=
  mkSession (id s) (userId s) (userEmail s) (userName s) Closed
    (agentId s) (agentName s) (createdAt s) now (initialMessage s).

Definition set_updatedAt (now : Z) (s : ChatSession) : ChatSession :=
  mkSession (id s) (userId s) (userEmail s) (userName s) (status s)
    (agentId s) (agentName s) (createdAt s) now (initialMessage s).

(* ------------------------------------------------------------------ *)
(** ** Store primitives (MongoDB driver calls) *)

(** [collection('chatSessions').findOne({ id })]. *)
Definition find_session (sid : string) (db : Db) : option ChatSession :=
  chatSessions db !! sid.

(** [collection('chatSessions').updateOne({ id: key, ...guard }, { $set })]:
    one atomic step of the store; returns [matchedCount]. *)
Definition update_one (key : string) (guard : ChatSession -> bool)
    (upd : ChatSession -> ChatSession) (db : Db) : nat * Db :=
  match chatSessions db !! key with
  | Some s =>
      if guard s
      then (1%nat, mkDb (<[key := upd s]> (chatSessions db)) (chatMessages db))
      else (0%nat, db)
  | None => (0%nat, db)
  end.

(** [collection('chatMessages').findOne({ id })]. *)
Definition find_message (mid : string) (db : Db) : option ChatMessage :=
  find (fun m => String.eqb (msg_id m) mid) (chatMessages db).

(** [collection('chatMessages').insertOne(doc)] under the unique index
    [message_id_unique]: a second document with the same [id] is refused
    with the duplicate key error E11000. *)
Definition insert_message (m : ChatMessage) (db : Db) : option Db :=
  match find_message (msg_id m) db with
  | Some _ => None
  | None => Some (mkDb (chatSessions db) (chatMessages db ++ [m]))
  end.

(* ------------------------------------------------------------------ *)
(** ** [agent-join-session] (server.js), as two atomic store steps

    The handler validates its payload, reads the session
    ([findOne], lines 352-364) and then issues the conditional update
    [updateOne({ id, status: 'waiting' }, ...)] (lines 366-380).  Another
    handler may run between these two awaits, so each is one step of a
    thread.  The later [findOne] and the emits do not write the store. *)

Inductive Ack := AckOk | AckFail (error : string).

Inductive ClaimPc := ClaimStart | ClaimUpdate | ClaimDone (r : Ack).

Record ClaimThread := mkClaim {
  ct_sessionId : string;
  ct_agentId : string;
  ct_agentName : string;
  ct_pc : ClaimPc;
}.

Definition with_pc (t : ClaimThread) (pc : ClaimPc) : ClaimThread :=
  mkClaim (ct_sessionId t) (ct_agentId t) (ct_agentName t) pc.

(** Validation and pre-read checks (lines 346-364). *)
Definition claim_read (db : Db) (t : ClaimThread) : ClaimPc :=
  if String.eqb (ct_sessionId t) "" || String.eqb (ct_agentId t) ""
     || String.eqb (ct_agentName t) ""
  then ClaimDone (AckFail "Invalid agent join data: missing required fields")
  else match find_session (ct_sessionId t) db with
       | None => ClaimDone (AckFail "Session not found")
       | Some s =>
           match status s with
           | Active => ClaimDone (AckFail "Session is already active with another agent")
           | Closed => ClaimDone (AckFail "Session is already closed")
           | Waiting => ClaimUpdate
           end
       end.

(** The conditional update (lines 366-380). *)
Definition claim_write (now : Z) (db : Db) (t : ClaimThread) : ClaimPc * Db :=
  let '(matched, db') :=
    update_one (ct_sessionId t) (fun s => status_eqb (status s) Waiting)
      (set_claim (ct_agentId t) (ct_agentName t) now) db in
  if (matched =? 0)%nat
  then (ClaimDone (AckFail "Session not available for joining (may already be active)"), db')
  else (ClaimDone AckOk, db').

Definition claim_step (now : Z) (db : Db) (t : ClaimThread) : Db * ClaimThread :=
  match ct_pc t with
  | ClaimStart => (db, with_pc t (claim_read db t))
  | ClaimUpdate => let '(pc, db') := claim_write now db t in (db', with_pc t pc)
  | ClaimDone _ => (db, t)
  end.

(** Concurrent claims: any pending thread may take its next step. *)
Record Sys := mkSys { sys_db : Db; sys_threads : list ClaimThread }.

Inductive sys_step : Sys -> Sys -> Prop :=
  | sys_step_claim (i : nat) (now : Z) (db db' : Db) (ts : list ClaimThread) (t t' : ClaimThread) :
      ts !! i = Some t ->
      claim_step now db t = (db', t') ->
      sys_step (mkSys db ts) (mkSys db' (<[i := t']> ts)).

Definition is_ok (t : ClaimThread) : bool :=
  match ct_pc t with ClaimDone AckOk => true | _ => false end.

Definition is_done (t : ClaimThread) : bool :=
  match ct_pc t with ClaimDone _ => true | _ => false end.

Fixpoint count_ok (ts : list ClaimThread) : nat :=
  match ts with [] => 0 | t :: r => (if is_ok t then 1 else 0) + count_ok r end.

(* ------------------------------------------------------------------ *)
(** ** Effects of a handler

    A handler runs against a world holding the store, an oracle of store
    faults (the next store call fails with a network error when the head
    of [w_faults] is [true]), the server clock read by
    [new Date()], and the trace of observable events: acknowledged
    message inserts, room emits, backoff sleeps and retry log lines. *)

Inductive Exn :=
  | JsError (msg : string)
  | ValidationError (msg : string)
  | NotFoundError (msg : string)
  | ConflictError (msg : string)
  | MongoServerError (code : Z) (msg : string)
  | MongoNetworkError
  | Undefined.

Inductive Outbound :=
  | OutNewSession (s : ChatSession)
  | OutNewMessage (m : ChatMessage)
  | OutSessionClosed (sid : string)
  | OutSessionError (event msg : string).

Inductive Event :=
  | EvStored (m : ChatMessage)
  | EvEmit (room : string) (o : Outbound)
  | EvSleep (ms : Z)
  | EvRetryFailed (attempt maxRetries : Z) (e : Exn).

Record World := mkWorld {
  w_db : Db;
  w_faults : list bool;
  w_clock : Z;
  w_trace : list Event;
}.

Inductive res (A : Type) := Ok (a : A) | Throw (e : Exn).
Arguments Ok {A} a.
Arguments Throw {A} e.

Definition M (A : Type) : Type := World -> res A * World.

Definition ret {A} (a : A) : M A := fun w => (Ok a, w).
Definition bind {A B} (c : M A) (k : A -> M B) : M B :=
  fun w => match c w with
           | (Ok a, w') => k a w'
           | (Throw e, w') => (Throw e, w')
           end.
Definition throw {A} (e : Exn) : M A := fun w => (Throw e, w).
Definition catch {A} (c : M A) (h : Exn -> M A) : M A :=
  fun w => match c w with
           | (Throw e, w') => h e w'
           | r => r
           end.

Notation "'let*' x ':=' c 'in' k" := (bind c (fun x => k))
  (at level 200, x name, c at level 100, k at level 200).

Definition log (ev : Event) : M unit :=
  fun w => (Ok tt, mkWorld (w_db w) (w_faults w) (w_clock w) (w_trace w ++ [ev])).

Definition emit (room : string) (o : Outbound) : M unit := log (EvEmit room o).

(** [new Date()]: the clock advances by at least a millisecond per read. *)
Definition now : M Z :=
  fun w => (Ok (w_clock w), mkWorld (w_db w) (w_faults w) (w_clock w + 1) (w_trace w)).

(** A store call: fails with a network error when the fault oracle says
    so, otherwise runs [f] atomically on the store. *)
Definition db_call {A} (f : Db -> A * Db) : M A :=
  fun w => match w_faults w with
           | true :: fs => (Throw MongoNetworkError, mkWorld (w_db w) fs (w_clock w) (w_trace w))
           | fs => let '(a, d) := f (w_db w) in
                   (Ok a, mkWorld d (tail fs) (w_clock w) (w_trace w))
           end.

Definition duplicate_key : Exn := MongoServerError 11000 "E11000 duplicate key error".

(** [collection('chatMessages').insertOne(doc)]. *)
Definition db_insert_message (m : ChatMessage) : M unit :=
  fun w => match w_faults w with
           | true :: fs => (Throw MongoNetworkError, mkWorld (w_db w) fs (w_clock w) (w_trace w))
           | fs => match insert_message m (w_db w) with
                   | None => (Throw duplicate_key, mkWorld (w_db w) (tail fs) (w_clock w) (w_trace w))
                   | Some d => (Ok tt, mkWorld d (tail fs) (w_clock w) (w_trace w ++ [EvStored m]))
                   end
           end.

(** [collection('chatSessions').insertOne(doc)] under [session_id_unique]. *)
Definition db_insert_session (s : ChatSession) : M unit :=
  fun w => match w_faults w with
           | true :: fs => (Throw MongoNetworkError, mkWorld (w_db w) fs (w_clock w) (w_trace w))
           | fs => match chatSessions (w_db w) !! id s with
                   | Some _ => (Throw duplicate_key, mkWorld (w_db w) (tail fs) (w_clock w) (w_trace w))
                   | None => (Ok tt, mkWorld (mkDb (<[id s := s]> (chatSessions (w_db w)))
                                                  (chatMessages (w_db w)))
                                             (tail fs) (w_clock w) (w_trace w))
                   end
           end.

Definition exn_message (e : Exn) : string :=
  match e with
  | JsError m | ValidationError m | NotFoundError m | ConflictError m
  | MongoServerError _ m => m
  | MongoNetworkError => "connection closed"
  | Undefined => "An unexpected error occurred"
  end.

(* ------------------------------------------------------------------ *)
(** ** [MongoDBManager.withRetry] (db/mongodb-enhanced.ts) *)

(** [throw lastError!]: [undefined] when no attempt ran. *)
Definition throw_last {A} (last : option Exn) : M A :=
  match last with Some e => throw e | None => throw Undefined end.

(** The [for (attempt = 1; attempt <= maxRetries; attempt++)] loop; [fuel]
    bounds the iterations still to run. *)
Fixpoint retry_loop {A} (op : M A) (attempt maxRetries delay : Z)
    (lastError : option Exn) (fuel : nat) : M A :=
  match fuel with
  | O => throw_last lastError
  | S fuel' =>
      if (attempt <=? maxRetries)%Z then
        fun w => match op w with
                 | (Ok a, w1) => (Ok a, w1)
                 | (Throw e, w1) =>
                     (let* _ := log (EvRetryFailed attempt maxRetries e) in
                      if (attempt =? maxRetries)%Z then throw_last (Some e)
                      else
                        let* _ := log (EvSleep (delay * 2 ^ (attempt - 1))) in
                        retry_loop op (attempt + 1) maxRetries delay (Some e) fuel') w1
                 end
      else throw_last lastError
  end.

Definition withRetry {A} (op : M A) (maxRetries delay : Z) : M A :=
  retry_loop op 1 maxRetries delay None (Z.to_nat maxRetries).

(** The defaults [maxRetries = 3], [delay = 1000] used by every
    [ChatService] method. *)
Definition with_retry_default {A} (op : M A) : M A := withRetry op 3 1000.

(* ------------------------------------------------------------------ *)
(** ** Socket handlers of server.js

    Each handler reports to its acknowledgment callback; a failure is
    [{ success: false, error }].  Room membership ([socket.join]) is not
    part of the store and is left out. *)

Record SessionData := mkSessionData {
  sd_id : string;
  sd_userId : string;
  sd_userEmail : string;
  sd_userName : string;
  sd_status : Status;
  sd_agentId : option string;
  sd_agentName : option string;
  sd_initialMessage : string;
}.

Inductive CreateAck := CreateOk (s : ChatSession) | CreateErr (error : string).

(** [create-session] (lines 185-249): the document is [{ ...sessionData,
    createdAt, updatedAt }], each timestamp its own [new Date()]. *)
Definition create_session (sd : SessionData) : M CreateAck :=
  catch
    (if String.eqb (sd_id sd) "" || String.eqb (sd_userEmail sd) ""
     then throw (JsError "Invalid session data: missing required fields")
     else
       let* existing := db_call (fun db => (find_session (sd_id sd) db, db)) in
       match existing with
       | Some _ => throw (JsError "Session already exists")
       | None =>
           let* c := now in
           let* u := now in
           let doc := mkSession (sd_id sd) (sd_userId sd) (sd_userEmail sd) (sd_userName sd)
                        (sd_status sd) (sd_agentId sd) (sd_agentName sd) c u
                        (sd_initialMessage sd) in
           let* _ := db_insert_session doc in
           let* _ := emit "dashboard-clients" (OutNewSession doc) in
           ret (CreateOk doc)
       end)
    (fun e => ret (CreateErr (exn_message e))).

Record MessageData := mkMessageData {
  md_id : string;
  md_sessionId : string;
  md_sender : string;
  md_message : string;
}.

Inductive SendAck := SendOk (m : ChatMessage) (duplicate : bool) | SendErr (error : string).

(** Lines 289-325: persist, broadcast, bump [updatedAt], acknowledge. *)
Definition persist_and_broadcast (md : MessageData) : M SendAck :=
  let* ts := now in
  let doc := mkMessage (md_id md) (md_sessionId md) (md_sender md) (md_message md) ts in
  let* _ := db_insert_message doc in
  let* _ := emit (md_sessionId md) (OutNewMessage doc) in
  let* _ := db_call (fun db => (tt, snd (update_one (md_sessionId md) (fun _ => true)
                                            (set_updatedAt ts) db))) in
  ret (SendOk doc false).

(** [send-message] (lines 252-341). *)
Definition send_message (md : MessageData) : M SendAck :=
  catch
    (if String.eqb (md_sessionId md) "" || String.eqb (md_message md) ""
        || String.eqb (md_sender md) ""
     then throw (JsError "Invalid message data: missing required fields")
     else
       let* session := db_call (fun db => (find_session (md_sessionId md) db, db)) in
       match session with
       | None => throw (JsError "Session not found")
       | Some s =>
           if status_eqb (status s) Closed
           then throw (JsError "Cannot send message to closed session")
           else if negb (String.eqb (md_id md) "") then
             let* existing := db_call (fun db => (find_message (md_id md) db, db)) in
             match existing with
             | Some m => ret (SendOk m true)
             | None => persist_and_broadcast md
             end
           else persist_and_broadcast md
       end)
    (fun e => ret (SendErr (exn_message e))).

(** [close-session] (lines 435-468); errors go to [handleSocketError],
    which emits [session-error] to the caller's socket. *)
Definition close_session (caller sid : string) : M unit :=
  catch
    (if String.eqb sid "" then throw (JsError "Invalid session ID")
     else
       let* ts := now in
       let* matched := db_call (update_one sid (fun _ => true) (set_closed ts)) in
       if (matched =? 0)%nat then throw (JsError "Session not found")
       else emit sid (OutSessionClosed sid))
    (fun e => emit caller (OutSessionError "close-session" (exn_message e))).

(* ------------------------------------------------------------------ *)
(** ** ChatService (db/services/chat-service.ts) *)

Open Scope Z_scope.

Definition getSessionById (sid : string) : M (option ChatSession) :=
  with_retry_default (db_call (fun db => (find_session sid db, db))).

(** [createMessage]: [{ ...messageData, createdAt: new Date() }] inserted;
    the timestamp is taken inside the retried operation. *)
Definition createMessage (mid sid snd txt : string) : M ChatMessage :=
  with_retry_default
    (let* ts := now in
     let doc := mkMessage mid sid snd txt ts in
     let* _ := db_insert_message doc in
     ret doc).

(** [Partial<ChatSession>] as sent by [PUT /api/chat-sessions]. *)
Record SessionUpdate := mkSessionUpdate {
  ud_status : option Status;
  ud_agentId : option string;
  ud_agentName : option string;
}.

Definition apply_update (u : SessionUpdate) (ts : Z) (s : ChatSession) : ChatSession :=
  mkSession (id s) (userId s) (userEmail s) (userName s)
    (default (status s) (ud_status u))
    (match ud_agentId u with Some a => Some a | None => agentId s end)
    (match ud_agentName u with Some a => Some a | None => agentName s end)
    (createdAt s) ts (initialMessage s).

(** [findOneAndUpdate({ id }, { $set: { ...updateData, updatedAt } },
    { returnDocument: 'after' })]. *)
Definition find_one_and_update (sid : string) (upd : ChatSession -> ChatSession) (db : Db)
    : option ChatSession * Db :=
  match chatSessions db !! sid with
  | Some s => (Some (upd s), mkDb (<[sid := upd s]> (chatSessions db)) (chatMessages db))
  | None => (None, db)
  end.

Definition updateSession (sid : string) (u : SessionUpdate) : M (option ChatSession) :=
  with_retry_default
    (let* ts := now in
     db_call (find_one_and_update sid (apply_update u ts))).

(** [.sort({ createdAt: 1 })]: the store leaves the order of equal
    [createdAt] values open; this sort puts them in reverse store order. *)
Fixpoint insert_by_createdAt (m : ChatMessage) (l : list ChatMessage) : list ChatMessage :=
  match l with
  | [] => [m]
  | x :: r => if (msg_createdAt m <? msg_createdAt x)%Z then m :: x :: r
              else x :: insert_by_createdAt m r
  end.

Fixpoint sort_by_createdAt (l : list ChatMessage) : list ChatMessage :=
  match l with
  | [] => []
  | x :: r => insert_by_createdAt x (sort_by_createdAt r)
  end.

(** [.skip(n)] and [.limit(n)] of a cursor ([limit(0)] means no limit). *)
Definition mongo_skip {A} (n : Z) (l : list A) : list A := drop (Z.to_nat n) l.
Definition mongo_limit {A} (n : Z) (l : list A) : list A :=
  if (n =? 0)%Z then l else take (Z.abs_nat n) l.

Definition session_messages (sid : string) (db : Db) : list ChatMessage :=
  filter (fun m => String.eqb (sessionId m) sid) (chatMessages db).

(** [Math.ceil(total / limit)] for a positive [limit]. *)
Definition ceil_div (total limit : Z) : Z :=
  if (total mod limit =? 0)%Z then total / limit else total / limit + 1.

Record Pagination := mkPagination {
  pg_page : Z;
  pg_limit : Z;
  pg_total : Z;
  pg_totalPages : Z;
  pg_hasNext : bool;
  pg_hasPrev : bool;
}.

Record PaginatedResult (A : Type) := mkPaginated { data : list A; pagination : Pagination }.
Arguments mkPaginated {A} data pagination.
Arguments data {A} p.
Arguments pagination {A} p.

Definition make_pagination (page limit total : Z) : Pagination :=
  let totalPages := ceil_div total limit in
  mkPagination page limit total totalPages (page <? totalPages)%Z (1 <? page)%Z.

(** [options.x || d] on an optional number. *)
Definition or_default (o : option Z) (d : Z) : Z :=
  match o with Some n => if (n =? 0)%Z then d else n | None => d end.

Definition getMessages (sid : string) (page_opt limit_opt : option Z)
    : M (PaginatedResult ChatMessage) :=
  with_retry_default
    (db_call (fun db =>
       let page := Z.max 1 (or_default page_opt 1) in
       let limit := Z.min 100 (Z.max 1 (or_default limit_opt 50)) in
       let skip := (page - 1) * limit in
       let msgs := session_messages sid db in
       let rows := mongo_limit limit (mongo_skip skip (sort_by_createdAt msgs)) in
       (mkPaginated rows (make_pagination page limit (Z.of_nat (length msgs))), db))).

Definition getRecentMessages (sid : string) (limit : Z) : M (list ChatMessage) :=
  with_retry_default
    (db_call (fun db =>
       (mongo_limit (Z.min 100 limit) (sort_by_createdAt (session_messages sid db)), db))).

(* ------------------------------------------------------------------ *)
(** ** Route handlers (app/api, lib/middleware.ts, lib/validation.ts)

    [withErrorHandling] turns the thrown error classes into responses.
    The rate limiter of [withMiddleware] runs before the handler and does
    not touch the store; it is left out. *)

Inductive ApiResponse (A : Type) :=
  | ApiSuccess (code : Z) (d : A)
  | ApiError (code : Z) (type : string).
Arguments ApiSuccess {A} code d.
Arguments ApiError {A} code type.

Definition exn_status (e : Exn) : Z * string :=
  match e with
  | ValidationError _ => (400, "validation")
  | NotFoundError _ => (404, "not_found")
  | ConflictError _ => (409, "conflict")
  | _ => (500, "server_error")
  end.

Definition withErrorHandling {A} (code : Z) (c : M A) : M (ApiResponse A) :=
  fun w => match c w with
           | (Ok a, w') => (Ok (ApiSuccess code a), w')
           | (Throw e, w') => (Ok (ApiError (fst (exn_status e)) (snd (exn_status e))), w')
           end.

(** Body accepted by [createChatMessageSchema]. *)
Record CreateMessageBody := mkCreateMessageBody {
  b_id : string;
  b_sessionId : string;
  b_sender : string;
  b_message : string;
}.

Definition valid_create_message (b : CreateMessageBody) : bool :=
  (String.eqb (b_sender b) "user" || String.eqb (b_sender b) "agent")
  && (1 <=? String.length (b_message b))%nat && (String.length (b_message b) <=? 2000)%nat.

(** [POST /api/chat-messages] (route.ts lines 59-86). *)
Definition post_chat_messages (b : CreateMessageBody) : M (ApiResponse ChatMessage) :=
  withErrorHandling 201
    (if negb (valid_create_message b) then throw (ValidationError "Validation failed")
     else
       let* session := getSessionById (b_sessionId b) in
       match session with
       | None => throw (NotFoundError "Session not found")
       | Some s =>
           if status_eqb (status s) Closed
           then throw (ValidationError "Cannot send messages to a closed session")
           else if String.eqb (b_sender b) "agent" && negb (truthy_str (agentId s))
           then throw (ValidationError "No agent assigned to this session")
           else createMessage (b_id b) (b_sessionId b) (b_sender b) (b_message b)
       end).

(** Query of [GET /api/chat-messages], after [z.coerce.number()]. *)
Record MessagesQuery := mkMessagesQuery {
  q_sessionId : string;
  q_page : option Z;
  q_limit : option Z;
}.

(** [paginationSchema]: [page] in 1..1000 (default 1), [limit] in 1..100
    (default 20). *)
Definition validate_pagination (q : MessagesQuery) : option (Z * Z) :=
  let page := default 1 (q_page q) in
  let limit := default 20 (q_limit q) in
  if (1 <=? page) && (page <=? 1000) && (1 <=? limit) && (limit <=? 100)
  then Some (page, limit) else None.

(** [GET /api/chat-messages] (route.ts lines 15-56). *)
Definition get_chat_messages (q : MessagesQuery)
    : M (ApiResponse (PaginatedResult ChatMessage)) :=
  withErrorHandling 200
    (match validate_pagination q with
     | None => throw (ValidationError "Query validation failed")
     | Some (page, limit) =>
         let* session := getSessionById (q_sessionId q) in
         match session with
         | None => throw (NotFoundError "Session not found")
         | Some _ =>
             if (page =? 1) && (limit <=? 50) then
               let* messages := getRecentMessages (q_sessionId q) limit in
               ret (mkPaginated messages
                      (mkPagination 1 limit (Z.of_nat (length messages)) 1 false false))
             else getMessages (q_sessionId q) (Some page) (Some limit)
         end
     end).

(** [updateChatSessionSchema] (validation.ts lines 46-62) on the fields
    besides [sessionId]: [agentName] at most 100 characters. *)
Definition valid_update_fields (u : SessionUpdate) : bool :=
  match ud_agentName u with Some n => (String.length n <=? 100)%nat | None => true end.

(** [PUT /api/chat-sessions] (chat-sessions/route.ts): [updateChatSessionSchema]
    checks the fields and requires one field besides [sessionId]. *)
Definition put_chat_sessions (sid : string) (u : SessionUpdate) : M (ApiResponse ChatSession) :=
  withErrorHandling 200
    (if negb (valid_update_fields u) then throw (ValidationError "Validation failed")
     else
     match u with
     | mkSessionUpdate None None None =>
         throw (ValidationError "At least one field to update must be provided")
     | _ =>
         let* updated := updateSession sid u in
         match updated with
         | None => throw (NotFoundError "Session not found")
         | Some s => ret s
         end
     end).

(* ------------------------------------------------------------------ *)
(** ** [ChatService.getSessions] (chat-service.ts lines 46-251) *)

Inductive StatusFilter := StatusOne (s : string) | StatusIn (l : list string).

Record SessionFilters := mkFilters {
  f_status : option StatusFilter;
  f_agentId : option string;
  f_userEmail : option string;
  f_dateFrom : option Z;
  f_dateTo : option Z;
  f_searchTerm : option string;
  f_minDuration : option Z;
  f_maxDuration : option Z;
  f_minMessageCount : option Z;
  f_maxMessageCount : option Z;
}.

Record PaginationOptions := mkOptions {
  o_page : option Z;
  o_limit : option Z;
  o_sortBy : option string;
  o_sortOrder : option string;
}.

(** A result document: a plain session (simple path) or a session with the
    fields added by [$addFields] (aggregation path). *)
Inductive SessionOut :=
  | Plain (s : ChatSession)
  | Derived (s : ChatSession) (messageCount duration : Z).

Section GetSessions.

(** The store's [$regex] matcher with [$options: 'i']. *)
Variable regex_i : string -> string -> bool.
(** The store's [$sort: { [sortBy]: sortOrder }] stage. *)
Variable mongo_sort : string -> Z -> list SessionOut -> list SessionOut.

Definition regex_opt (pat : string) (o : option string) : bool :=
  match o with Some v => regex_i pat v | None => false end.

(** The [query] object built in lines 53-90, as a predicate. *)
Definition base_match (f : SessionFilters) (s : ChatSession) : bool :=
  match f_status f with
  | Some (StatusIn l) => existsb (String.eqb (status_str (status s))) l
  | Some (StatusOne x) => if String.eqb x "" then true else String.eqb (status_str (status s)) x
  | None => true
  end
  && (if truthy_str (f_agentId f) then bool_decide (agentId s = f_agentId f) else true)
  && (match f_userEmail f with
      | Some e => if String.eqb e "" then true else regex_i e (userEmail s)
      | None => true
      end)
  && (match f_dateFrom f with Some d => d <=? createdAt s | None => true end)
  && (match f_dateTo f with Some d => createdAt s <=? d | None => true end)
  && (match f_searchTerm f with
      | Some t =>
          if String.eqb t "" then true
          else regex_i t (userName s) || regex_i t (userEmail s)
               || regex_opt t (agentName s) || regex_i t (initialMessage s)
      | None => true
      end).

(** [$lookup] from [chatMessages] on [sessionId], then [$size]. *)
Definition message_count (db : Db) (s : ChatSession) : Z :=
  Z.of_nat (length (session_messages (id s) db)).

(** [$subtract] of the parsed [updatedAt] and [createdAt]. *)
Definition duration (s : ChatSession) : Z := updatedAt s - createdAt s.

Definition add_fields (db : Db) (s : ChatSession) : SessionOut :=
  Derived s (message_count db s) (duration s).

Definition needs_aggregation (f : SessionFilters) : bool :=
  truthy_num (f_minDuration f) || truthy_num (f_maxDuration f)
  || truthy_num (f_minMessageCount f) || truthy_num (f_maxMessageCount f).

(** [Object.keys(durationMatch).length > 0] (line 161). *)
Definition has_duration_match (f : SessionFilters) : bool :=
  truthy_num (f_minDuration f) || truthy_num (f_maxDuration f)
  || truthy_num (f_minMessageCount f) || truthy_num (f_maxMessageCount f).

(** The [durationMatch] stage (lines 137-159). *)
Definition bound_ok (lo hi : option Z) (v : Z) : bool :=
  (match lo with Some n => if truthy_num lo then n <=? v else true | None => true end)
  && (match hi with Some n => if truthy_num hi then v <=? n else true | None => true end).

Definition duration_match (f : SessionFilters) (o : SessionOut) : bool :=
  match o with
  | Derived _ mc d =>
      bound_ok (f_minDuration f) (f_maxDuration f) d
      && bound_ok (f_minMessageCount f) (f_maxMessageCount f) mc
  | Plain _ => false
  end.

Definition all_sessions (db : Db) : list ChatSession := map snd (map_to_list (chatSessions db)).

(** The count pipeline (lines 181-210) and [totalResult[0]?.total || 0]. *)
Definition count_pipeline (db : Db) (f : SessionFilters) : Z :=
  let joined := map (add_fields db) (filter (base_match f) (all_sessions db)) in
  let matched := if has_duration_match f then filter (duration_match f) joined else joined in
  let counted := if (length matched =? 0)%nat then [] else [Z.of_nat (length matched)] in
  match head counted with Some t => or_default (Some t) 0 | None => 0 end.

(** The sessions the data pipeline keeps before sorting and paging. *)
Definition session_selected (db : Db) (f : SessionFilters) (s : ChatSession) : bool :=
  base_match f s && (if needs_aggregation f then duration_match f (add_fields db s) else true).

Definition getSessions_body (db : Db) (f : SessionFilters) (o : PaginationOptions)
    : PaginatedResult SessionOut :=
  let base := filter (base_match f) (all_sessions db) in
  let page := Z.max 1 (or_default (o_page o) 1) in
  let limit := Z.min 100 (Z.max 1 (or_default (o_limit o) 20)) in
  let skip := (page - 1) * limit in
  let sortBy := match o_sortBy o with
                | Some x => if String.eqb x "" then "updatedAt" else x
                | None => "updatedAt" end in
  let sortOrder := match o_sortOrder o with Some "asc" => 1 | _ => -1 end in
  if needs_aggregation f then
    let joined := map (add_fields db) base in
    let matched := if has_duration_match f then filter (duration_match f) joined else joined in
    let rows := mongo_limit limit (mongo_skip skip (mongo_sort sortBy sortOrder matched)) in
    mkPaginated rows (make_pagination page limit (count_pipeline db f))
  else
    let rows := mongo_limit limit (mongo_skip skip (mongo_sort sortBy sortOrder (map Plain base))) in
    mkPaginated rows (make_pagination page limit (Z.of_nat (length base))).

Definition getSessions (f : SessionFilters) (o : PaginationOptions)
    : M (PaginatedResult SessionOut) :=
  with_retry_default (db_call (fun db => (getSessions_body db f o, db))).

End GetSessions.

(* ------------------------------------------------------------------ *)
(** ** Sample data and schedules *)

(** Runs the claim threads in the order of a schedule of
    [(thread index, clock)] pairs. *)
Fixpoint run_schedule (st : Sys) (sched : list (nat * Z)) : Sys :=
  match sched with
  | [] => st
  | (i, tnow) :: r =>
      match sys_threads st !! i with
      | Some t =>
          let '(db', t') := claim_step tnow (sys_db st) t in
          run_schedule (mkSys db' (<[i := t']> (sys_threads st))) r
      | None => run_schedule st r
      end
  end.

Definition sample_session (sid : string) (st : Status) (aid : option string) (c u : Z)
    : ChatSession :=
  mkSession sid "u1" "user@example.com" "User" st aid
    (match aid with Some _ => Some "Agent" | None => None end) c u "I need help".

Definition s1_waiting : ChatSession := sample_session "s1" Waiting None 0 0.

Definition db_s1_waiting : Db := mkDb {[ "s1" := s1_waiting ]} [].

(** Agents A and B race for "s1": both read, then A updates, then B. *)
Definition race_threads : list ClaimThread :=
  [mkClaim "s1" "A" "Alice" ClaimStart; mkClaim "s1" "B" "Bob" ClaimStart].

Definition race_final : Sys :=
  run_schedule (mkSys db_s1_waiting race_threads) [(0%nat, 5); (1%nat, 6); (0%nat, 7); (1%nat, 8)].

Definition db_s1_closed : Db :=
  mkDb {[ "s1" := sample_session "s1" Closed (Some "A") 0 100 ]} [].

Definition reopen : SessionUpdate := mkSessionUpdate (Some Active) None None.

(* ------------------------------------------------------------------ *)
(** ** Sequences of subsystem operations

    Any interleaving of whole handler runs ([create-session],
    [send-message], [close-session], [POST /api/chat-messages]) with the
    store steps of concurrent [agent-join-session] calls. *)

(** The agent fields of a session document, by status. *)
Definition agent_ok (s : ChatSession) : Prop :=
  (status s = Active -> exists a, agentId s = Some a /\ a <> "") /\
  (status s = Waiting -> agentId s = None \/ agentId s = Some "").

Definition sessions_ok (db : Db) : Prop :=
  map_Forall (fun _ s => agent_ok s) (chatSessions db).

(** A claim thread past its pre-read carries a non-empty agent id. *)
Definition threads_ok (ts : list ClaimThread) : Prop :=
  Forall (fun t => ct_pc t = ClaimUpdate -> ct_agentId t <> "") ts.

(** A [create-session] payload whose [status] and [agentId] agree; the
    handler itself stores whatever the payload carries. *)
Definition payload_ok (sd : SessionData) : bool :=
  match sd_status sd with
  | Waiting => negb (truthy_str (sd_agentId sd))
  | Active => truthy_str (sd_agentId sd)
  | Closed => true
  end.

Inductive Op :=
  | OpCreate (sd : SessionData)
  | OpJoin (sid aid aname : string)
  | OpClaimStep (i : nat)
  | OpClose (caller sid : string)
  | OpSend (md : MessageData)
  | OpPost (b : CreateMessageBody).

Definition op_allowed (o : Op) : bool :=
  match o with OpCreate sd => payload_ok sd | _ => true end.

(** [OpJoin] starts an [agent-join-session] call; [OpClaimStep i] lets
    the [i]-th call take its next store step. *)
Definition op_apply (st : World * list ClaimThread) (o : Op) : World * list ClaimThread :=
  let '(w, ts) := st in
  match o with
  | OpCreate sd => (snd (create_session sd w), ts)
  | OpJoin sid aid an => (w, (ts ++ [mkClaim sid aid an ClaimStart])%list)
  | OpClaimStep i =>
      match ts !! i with
      | Some t =>
          let '(d', t') := claim_step (w_clock w) (w_db w) t in
          (mkWorld d' (w_faults w) (w_clock w + 1) (w_trace w), <[i := t']> ts)
      | None => (w, ts)
      end
  | OpClose caller sid => (snd (close_session caller sid w), ts)
  | OpSend md => (snd (send_message md w), ts)
  | OpPost b => (snd (post_chat_messages b w), ts)
  end.

Definition run_ops (st : World * list ClaimThread) (ops : list Op) : World * list ClaimThread :=
  fold_left op_apply ops st.

(** [c] keeps the property [P] of the world, whatever the store answers. *)
Definition preserves {A} (P : World -> Prop) (c : M A) : Prop :=
  forall w, P w -> P (snd (c w)).

(** A property of the store and the event trace only. *)
Definition on_store (Q : Db -> list Event -> Prop) (w : World) : Prop :=
  Q (w_db w) (w_trace w).

Abbreviation sessions_inv := (on_store (fun db _ => sessions_ok db)).

(** Every [new-message] broadcast in the trace comes after the
    acknowledged insert of that very message, and every acknowledged
    message is in [chatMessages]. *)
Definition announced_stored (db : Db) (tr : list Event) : Prop :=
  (forall j room m, tr !! j = Some (EvEmit room (OutNewMessage m)) ->
     exists i, (i < j)%nat /\ tr !! i = Some (EvStored m)) /\
  (forall i m, tr !! i = Some (EvStored m) -> m ∈ chatMessages db).

Abbreviation announced := (on_store announced_stored).

Definition w_empty : World := mkWorld (mkDb ∅ []) [] 0 [].

Definition sd_s1 : SessionData :=
  mkSessionData "s1" "u1" "user@example.com" "User" Waiting None None "I need help".

(** Create "s1", let agent A claim it, then close it. *)
Definition claim_then_close : list Op :=
  [OpCreate sd_s1; OpJoin "s1" "A" "Alice"; OpClaimStep 0; OpClaimStep 0; OpClose "dash" "s1"].

Definition db_s1_active : Db :=
  mkDb {[ "s1" := sample_session "s1" Active (Some "A") 0 0 ]} [].

Definition w_s1_active : World := mkWorld db_s1_active [] 10 [].

Definition body_m1 : CreateMessageBody := mkCreateMessageBody "m1" "s1" "user" "hello".

(** The same [POST /api/chat-messages] body submitted twice. *)
Definition post_twice : res (ApiResponse ChatMessage) * World :=
  post_chat_messages body_m1 (snd (post_chat_messages body_m1 w_s1_active)).

Definition md_m1 : MessageData := mkMessageData "m1" "s1" "user" "hello".

(** The same [send-message] payload emitted twice. *)
Definition send_twice : res SendAck * World :=
  send_message md_m1 (snd (send_message md_m1 w_s1_active)).

Definition md_agent_m2 : MessageData := mkMessageData "m2" "s1" "agent" "hi".

(** Payloads without a message id. *)
Definition md_noid (txt : string) : MessageData := mkMessageData "" "s1" "user" txt.

Definition body_agent_m2 : CreateMessageBody := mkCreateMessageBody "m2" "s1" "agent" "hi".

Definition w_s1_waiting : World := mkWorld db_s1_waiting [] 10 [].

(** Two sessions of 2024-01-01 (1704067200000 ms): one created half a
    second after midnight, one at noon, and the day's bounds as the query
    strings [new Date] reads. *)
Definition db_day : Db :=
  mkDb {[ "d1" := sample_session "d1" Closed (Some "A") 1704067200500 1704067260500;
          "d2" := sample_session "d2" Waiting None 1704110400000 1704110430000 ]} [].

Definition w_day : World := mkWorld db_day [] 1704153600000 [].

Definition day_ms (d : string) : option Z :=
  if String.eqb d "2024-01-01T00:00:00Z" then Some 1704067200000
  else if String.eqb d "2024-01-02T00:00:00Z" then Some 1704153600000
  else None.

(** Filters of the dashboard's session list. *)
Definition count_filter (lo hi : Z) : SessionFilters :=
  mkFilters None None None None None None None None (Some lo) (Some hi).

Definition active_duration_filter (lo hi : option Z) : SessionFilters :=
  mkFilters (Some (StatusOne "active")) None None None None None lo hi None None.

Fixpoint messages_for (sid : string) (n : nat) : list ChatMessage :=
  match n with
  | O => []
  | S k => mkMessage (sid ++ "-" ++ String.string_of_list_ascii [Ascii.ascii_of_nat (48 + k)])
                     sid "user" "hi" (Z.of_nat k) :: messages_for sid k
  end.

(** "s12": active for 10 minutes, with 12 messages. *)
Definition s12 : ChatSession := sample_session "s12" Active (Some "A") 0 600000.

Definition db_s12 : Db := mkDb {[ "s12" := s12 ]} (messages_for "s12" 12).

(** Appends events to the trace. *)
Definition add_events (w : World) (evs : list Event) : World :=
  mkWorld (w_db w) (w_faults w) (w_clock w) (w_trace w ++ evs).

(** The retry policy in the words of the specification, unrolled: at most
    three attempts, a backoff of 1000 ms and then 2000 ms between them,
    and the last error thrown to the caller; any error is retried. *)
Definition three_attempts {A} (op : M A) : M A :=
  fun w0 =>
    match op w0 with
    | (Ok a, w1) => (Ok a, w1)
    | (Throw e1, w1) =>
        match op (add_events w1 [EvRetryFailed 1 3 e1; EvSleep 1000]) with
        | (Ok a, w2) => (Ok a, w2)
        | (Throw e2, w2) =>
            match op (add_events w2 [EvRetryFailed 2 3 e2; EvSleep 2000]) with
            | (Ok a, w3) => (Ok a, w3)
            | (Throw e3, w3) => (Throw e3, add_events w3 [EvRetryFailed 3 3 e3])
            end
        end
    end.

(* ------------------------------------------------------------------ *)
(** ** Further operations of the same modules *)

(** *** [ChatService.createSession] and [POST /api/chat-sessions] *)

(** [createSession] (chat-service.ts lines 262-282): the document is
    [{ ...sessionData, createdAt: now, updatedAt: now }] with one
    [new Date()] read inside the retried operation. *)
Definition createSession (sd : SessionData) : M ChatSession :=
  with_retry_default
    (let* ts := now in
     let doc := mkSession (sd_id sd) (sd_userId sd) (sd_userEmail sd) (sd_userName sd)
                  (sd_status sd) (sd_agentId sd) (sd_agentName sd) ts ts
                  (sd_initialMessage sd) in
     let* _ := db_insert_session doc in
     ret doc).

(** Body accepted by [createChatSessionSchema] (validation.ts lines 16-44):
    the session fields and the required [value]; [value] and the optional
    [questionAnswerPairs] are copied into the stored document, whose other
    fields are the ones of [ChatSession]. *)
Record CreateSessionBody := mkCreateSessionBody {
  cs_session : SessionData;
  cs_value : string;
}.

Definition valid_create_session (b : CreateSessionBody) : bool :=
  let sd := cs_session b in
  (1 <=? String.length (sd_userId sd))%nat
  && (1 <=? String.length (sd_userName sd))%nat && (String.length (sd_userName sd) <=? 100)%nat
  && (match sd_agentName sd with Some n => (String.length n <=? 100)%nat | None => true end)
  && (1 <=? String.length (sd_initialMessage sd))%nat
  && (String.length (sd_initialMessage sd) <=? 1000)%nat
  && (1 <=? String.length (cs_value b))%nat.

(** [POST /api/chat-sessions] (chat-sessions/route.ts lines 67-94). *)
Definition post_chat_sessions (b : CreateSessionBody) : M (ApiResponse ChatSession) :=
  withErrorHandling 201
    (if negb (valid_create_session b) then throw (ValidationError "Validation failed")
     else
       let* existing := getSessionById (sd_id (cs_session b)) in
       match existing with
       | Some _ => throw (ConflictError "Session already exists")
       | None => createSession (cs_session b)
       end).

(** *** [ChatService.createMessages] (chat-service.ts lines 385-404) *)

(** [insertMany(docs)], ordered (the driver's default): the documents are
    inserted one after the other; the first one refused by
    [message_id_unique] stops the batch with the duplicate key error, and
    the ones inserted before it stay.  Returns the store, the inserted
    documents and the error. *)
Fixpoint insert_many (ms : list ChatMessage) (db : Db) : Db * list ChatMessage * option Exn :=
  match ms with
  | [] => (db, [], None)
  | m :: r =>
      match insert_message m db with
      | None => (db, [], Some duplicate_key)
      | Some db' => let '(d, ins, err) := insert_many r db' in (d, m :: ins, err)
      end
  end.

(** The ordered bulk write of a non-empty batch, one store call. *)
Definition db_insert_many_batch (ms : list ChatMessage) : M unit :=
  fun w => match w_faults w with
           | true :: fs => (Throw MongoNetworkError, mkWorld (w_db w) fs (w_clock w) (w_trace w))
           | fs => let '(d, ins, err) := insert_many ms (w_db w) in
                   let w' := mkWorld d (tail fs) (w_clock w) (w_trace w ++ map EvStored ins)%list in
                   match err with
                   | Some e => (Throw e, w')
                   | None => (Ok tt, w')
                   end
           end.

(** [collection.insertMany(docs)]: the driver refuses an empty batch
    before any store call, rejecting with [Invalid BulkOperation, Batch
    cannot be empty]. *)
Definition empty_batch : Exn := JsError "Invalid BulkOperation, Batch cannot be empty".

Definition db_insert_many (ms : list ChatMessage) : M unit :=
  match ms with
  | [] => throw empty_batch
  | _ :: _ => db_insert_many_batch ms
  end.

(** [messages.map((msg) => ({ ...msg, createdAt: now }))]: every document
    of the batch gets the same [createdAt]. *)
Definition message_docs (ts : Z) (batch : list MessageData) : list ChatMessage :=
  map (fun md => mkMessage (md_id md) (md_sessionId md) (md_sender md) (md_message md) ts) batch.

Definition createMessages (batch : list MessageData) : M (list ChatMessage) :=
  with_retry_default
    (let* ts := now in
     let docs := message_docs ts batch in
     let* _ := db_insert_many docs in
     ret docs).

(** *** [ChatService.getSessionStats] and [GET /api/analytics/sessions] *)

(** [Date.prototype.toISOString] of a time in milliseconds:
    [YYYY-MM-DDTHH:mm:ss.sssZ], the year as [+YYYYYY] or [-YYYYYY]
    outside 0..9999.  Every [createdAt] and [updatedAt] the code stores
    is such a string; the days are split into a civil date by the
    proleptic Gregorian calendar. *)
Definition ascii_digit (d : Z) : Ascii.ascii := Ascii.ascii_of_nat (48 + Z.to_nat d).

(** The last [k] decimal digits of [n >= 0], padded with zeros. *)
Fixpoint pad (k : nat) (n : Z) : string :=
  match k with
  | O => ""
  | S k' => pad k' (n / 10) ++ String (ascii_digit (n mod 10)) ""
  end.

(** Year, month (1..12) and day (1..31) of a day count from 1970-01-01. *)
Definition civil_from_days (days : Z) : Z * Z * Z :=
  let z := days + 719468 in
  let era := z / 146097 in
  let doe := z - era * 146097 in
  let yoe := (doe - doe / 1460 + doe / 36524 - doe / 146096) / 365 in
  let doy := doe - (365 * yoe + yoe / 4 - yoe / 100) in
  let mp := (5 * doy + 2) / 153 in
  let d := doy - (153 * mp + 2) / 5 + 1 in
  let m := if mp <? 10 then mp + 3 else mp - 9 in
  let y := yoe + era * 400 + (if m <=? 2 then 1 else 0) in
  (y, m, d).

Definition toISOString (ms : Z) : string :=
  let days := ms / 86400000 in
  let t := ms mod 86400000 in
  let '(y, m, d) := civil_from_days days in
  let year := if (0 <=? y) && (y <=? 9999) then pad 4 y
              else (if y <? 0 then "-" else "+") ++ pad 6 (Z.abs y) in
  year ++ "-" ++ pad 2 m ++ "-" ++ pad 2 d ++ "T" ++
  pad 2 (t / 3600000) ++ ":" ++ pad 2 (t / 60000 mod 60) ++ ":" ++ pad 2 (t / 1000 mod 60) ++
  "." ++ pad 3 (t mod 1000) ++ "Z".

(** The [$match] stage on [createdAt] (lines 457-462): the stored ISO
    string is compared with the query's strings, as strings; a bound is
    set only when its string is truthy, and with neither there is no
    [$match] stage, which keeps every session. *)
Definition in_date_range (dateFrom dateTo : option string) (s : ChatSession) : bool :=
  (if truthy_str dateFrom then String.leb (default "" dateFrom) (toISOString (createdAt s)) else true)
  && (if truthy_str dateTo then String.leb (toISOString (createdAt s)) (default "" dateTo) else true).

(** The [$group] stage by [status]: per group the number of sessions
    ([$sum: 1]) and the sum of the durations averaged by [$avg]; the
    durations come from [$dateFromString] of the stored strings, that is
    from the times they render. *)
Definition group_add (acc : gmap string (Z * Z)) (s : ChatSession) : gmap string (Z * Z) :=
  let k := status_str (status s) in
  match acc !! k with
  | Some (c, t) => <[k := (c + 1, t + duration s)]> acc
  | None => <[k := (1, duration s)]> acc
  end.

Record SessionStat := mkSessionStat {
  st_id : string;
  st_count : Z;
  st_avgDuration : Q;
}.

(** The group documents, in the order of the map (the store gives no
    order for [$group]); [$avg] is taken exactly. *)
Definition getSessionStats_body (dateFrom dateTo : option string) (db : Db) : list SessionStat :=
  map (fun '(k, (c, t)) => mkSessionStat k c (inject_Z t / inject_Z c)%Q)
    (map_to_list (fold_left group_add (filter (in_date_range dateFrom dateTo) (all_sessions db)) ∅)).

Definition getSessionStats (dateFrom dateTo : option string) : M (list SessionStat) :=
  with_retry_default (db_call (fun db => (getSessionStats_body dateFrom dateTo db, db))).

(** Query of [GET /api/analytics/sessions]: the parameters as given. *)
Record AnalyticsQuery := mkAnalyticsQuery {
  aq_dateFrom : option string;
  aq_dateTo : option string;
  aq_groupBy : option string;
}.

(** [summary]: [total] and [byStatus] (count, rounded average duration). *)
Record StatsSummary := mkStatsSummary {
  sm_total : Z;
  sm_byStatus : gmap string (Z * Z);
}.

(** [Math.round(x)]: the nearest integer, halves rounded up. *)
Definition js_round (x : Q) : Z := Qfloor (x + (1 # 2))%Q.

Definition analytics_max_range : Z := 365 * 24 * 60 * 60 * 1000.

Section Analytics.

(** [z.string().datetime()] of zod, and [new Date(s).getTime()] of a
    string ([None] for an invalid date, whose comparisons are all false). *)
Variable is_datetime : string -> bool.
Variable date_ms : string -> option Z.

Definition date_ok (d : option string) : bool :=
  match d with Some s => is_datetime s | None => true end.

(** [GET /api/analytics/sessions] (analytics/sessions/route.ts lines
    17-64); the answer carries [summary] and [period]. *)
Definition get_analytics_sessions (q : AnalyticsQuery)
    : M (ApiResponse (StatsSummary * (option string * option string * string))) :=
  withErrorHandling 200
    (let groupBy := default "day" (aq_groupBy q) in
     if negb (date_ok (aq_dateFrom q) && date_ok (aq_dateTo q)
              && existsb (String.eqb groupBy) ["day"; "week"; "month"])
     then throw (ValidationError "Query validation failed")
     else
       let range_error :=
         if truthy_str (aq_dateFrom q) && truthy_str (aq_dateTo q) then
           match date_ms (default "" (aq_dateFrom q)), date_ms (default "" (aq_dateTo q)) with
           | Some f, Some t =>
               if t <=? f then Some "dateFrom must be before dateTo"
               else if analytics_max_range <? t - f then Some "Date range cannot exceed 1 year"
               else None
           | _, _ => None
           end
         else None in
       match range_error with
       | Some msg => throw (ValidationError msg)
       | None =>
           let* stats := getSessionStats (aq_dateFrom q) (aq_dateTo q) in
           ret (mkStatsSummary
                  (fold_left (fun acc st => acc + st_count st) stats 0)
                  (fold_left (fun acc st => <[st_id st := (st_count st, js_round (st_avgDuration st))]> acc)
                     stats ∅),
                (aq_dateFrom q, aq_dateTo q, groupBy))
       end).

End Analytics.

(** *** [ChatService.searchSessions] (chat-service.ts lines 406-450) *)

Section SearchSessions.

Variable regex_i : string -> string -> bool.
Variable mongo_sort : string -> Z -> list SessionOut -> list SessionOut.

(** The [$or] query of lines 414-420. *)
Definition search_match (t : string) (s : ChatSession) : bool :=
  regex_i t (userName s) || regex_i t (userEmail s) || regex_i t (initialMessage s).

(** The sort is fixed to [{ updatedAt: -1 }]: [sortBy] and [sortOrder]
    of the options are not read. *)
Definition searchSessions_body (db : Db) (t : string) (o : PaginationOptions)
    : PaginatedResult SessionOut :=
  let base := filter (search_match t) (all_sessions db) in
  let page := Z.max 1 (or_default (o_page o) 1) in
  let limit := Z.min 100 (Z.max 1 (or_default (o_limit o) 20)) in
  let skip := (page - 1) * limit in
  let rows := mongo_limit limit (mongo_skip skip (mongo_sort "updatedAt" (-1) (map Plain base))) in
  mkPaginated rows (make_pagination page limit (Z.of_nat (length base))).

Definition searchSessions (t : string) (o : PaginationOptions) : M (PaginatedResult SessionOut) :=
  with_retry_default (db_call (fun db => (searchSessions_body db t o, db))).

End SearchSessions.

(** The filters [getSessions] receives for [searchTerm = t] alone. *)
Definition search_term_filter (t : string) : SessionFilters :=
  mkFilters None None None None None (Some t) None None None None.

(** *** Rate limiting (lib/middleware.ts lines 191-266) *)

Record RateLimitConfig := mkRateLimitConfig { windowMs : Z; maxRequests : Z }.

(** [{ ...defaultRateLimitConfig, ...config }] for a route's [maxRequests]. *)
Definition route_rate_config (maxReq : Z) : RateLimitConfig :=
  mkRateLimitConfig (15 * 60 * 1000) maxReq.

Record RateEntry := mkRateEntry { re_count : Z; re_resetTime : Z }.

Inductive RateDecision := RateAllow | RateReject (retryAfter : Z).

(** [rateLimit(config)(request)] for the client key [key] at
    [Date.now() = tnow], on the module's [rateLimitStore]: expired entries
    are deleted, then the key's window is opened, counted or refused with
    [429] and [retryAfter = Math.ceil((resetTime - now) / 1000)]. *)
Definition rateLimit (cfg : RateLimitConfig) (key : string) (tnow : Z)
    (store : gmap string RateEntry) : RateDecision * gmap string RateEntry :=
  let store1 := filter (fun kv => tnow <= re_resetTime kv.2) store in
  match store1 !! key with
  | Some cur =>
      if re_resetTime cur <? tnow
      then (RateAllow, <[key := mkRateEntry 1 (tnow + windowMs cfg)]> store1)
      else if maxRequests cfg <=? re_count cur
      then (RateReject (ceil_div (re_resetTime cur - tnow) 1000), store1)
      else (RateAllow, <[key := mkRateEntry (re_count cur + 1) (re_resetTime cur)]> store1)
  | None => (RateAllow, <[key := mkRateEntry 1 (tnow + windowMs cfg)]> store1)
  end.

(** A run of requests [(client key, Date.now())] under one configuration. *)
Fixpoint run_rate_limit (cfg : RateLimitConfig) (reqs : list (string * Z))
    (store : gmap string RateEntry) : list (string * RateDecision) * gmap string RateEntry :=
  match reqs with
  | [] => ([], store)
  | (k, t) :: r =>
      let '(d, st1) := rateLimit cfg k t store in
      let '(ds, st2) := run_rate_limit cfg r st1 in
      ((k, d) :: ds, st2)
  end.

Definition is_allow (d : RateDecision) : bool :=
  match d with RateAllow => true | RateReject _ => false end.

(** The requests of client [k] that were let through. *)
Definition allowed_for (k : string) (ds : list (string * RateDecision)) : nat :=
  length (filter (fun kd => String.eqb kd.1 k && is_allow kd.2) ds).

Definition requests_of (k : string) (reqs : list (string * Z)) : nat :=
  length (filter (fun kt => String.eqb kt.1 k) reqs).

(** *** The older chat-messages handlers (chat-messages/route.ts lines 87-137) *)

Inductive LegacyResponse (A : Type) := LegacyOk (d : A) | LegacyError (code : Z) (error : string).
Arguments LegacyOk {A} d.
Arguments LegacyError {A} code error.

(** [GET]: every message of the session, [.sort({ createdAt: 1 })], no
    limit. *)
Definition legacy_get_chat_messages (sid : option string) : M (LegacyResponse (list ChatMessage)) :=
  catch
    (match sid with
     | None => ret (LegacyError 400 "Session ID is required")
     | Some s =>
         if String.eqb s "" then ret (LegacyError 400 "Session ID is required")
         else
           let* msgs := db_call (fun db => (sort_by_createdAt (session_messages s db), db)) in
           ret (LegacyOk msgs)
     end)
    (fun _ => ret (LegacyError 500 "Failed to fetch messages")).

(** [POST]: inserts [{ ...messageData, createdAt }] and answers
    [{ _id, ...messageData }]. *)
Definition legacy_post_chat_messages (md : MessageData) : M (LegacyResponse MessageData) :=
  catch
    (let* ts := now in
     let* _ := db_insert_message (mkMessage (md_id md) (md_sessionId md) (md_sender md)
                                    (md_message md) ts) in
     ret (LegacyOk md))
    (fun _ => ret (LegacyError 500 "Failed to create message")).

(** Retry events of the attempts [first], [first + 1], ... that failed
    with [e] and were followed by a backoff. *)
Fixpoint backoff_events (first : Z) (k : nat) (maxRetries delay : Z) (e : Exn) : list Event :=
  match k with
  | O => []
  | S k' => EvRetryFailed first maxRetries e :: EvSleep (delay * 2 ^ (first - 1))
            :: backoff_events (first + 1) k' maxRetries delay e
  end.

(* ------------------------------------------------------------------ *)
(** Order of the recent-messages sort: ascending [createdAt]. *)
Definition by_createdAt (a b : ChatMessage) : Prop := msg_createdAt a <= msg_createdAt b.

(** ** Properties *)

(** *** Claims racing on one session *)

(** The invariant of a run of claim threads on session [X]. *)
Definition claim_inv (X : string) (st : Sys) : Prop :=
  X <> "" /\ sys_threads st <> [] /\
  Forall (fun t => ct_sessionId t = X /\ ct_agentId t <> "" /\ ct_agentName t <> "")
    (sys_threads st) /\
  exists s, chatSessions (sys_db st) !! X = Some s /\
    ((status s = Waiting /\
      Forall (fun t => ct_pc t = ClaimStart \/ ct_pc t = ClaimUpdate) (sys_threads st)) \/
     (status s = Active /\ count_ok (sys_threads st) = 1%nat /\
      exists w, w ∈ sys_threads st /\ ct_pc w = ClaimDone AckOk /\
        agentId s = Some (ct_agentId w) /\ agentName s = Some (ct_agentName w))).

Lemma count_ok_insert (ts : list ClaimThread) (i : nat) (t t' : ClaimThread) :
  ts !! i = Some t ->
  (count_ok (<[i := t']> ts) + (if is_ok t then 1 else 0) =
   count_ok ts + (if is_ok t' then 1 else 0))%nat.
Proof.
  revert i. induction ts as [|x ts IH]; intros [|i] Hi; simpl in *; try discriminate.
  - injection Hi as ->. lia.
  - specialize (IH i Hi). lia.
Qed.

Lemma count_ok_pending (ts : list ClaimThread) :
  Forall (fun t => ct_pc t = ClaimStart \/ ct_pc t = ClaimUpdate) ts -> count_ok ts = 0%nat.
Proof.
  induction 1 as [|t ts [Hp|Hp] _ IH]; simpl; unfold is_ok; rewrite ?Hp; auto.
Qed.

Lemma elem_of_insert_other (ts : list ClaimThread) (i : nat) (t t' w : ClaimThread) :
  ts !! i = Some t -> w ∈ ts -> w <> t -> w ∈ <[i := t']> ts.
Proof.
  intros Hi Hw Hne. apply list_elem_of_lookup in Hw as [j Hj].
  apply list_elem_of_lookup. exists j.
  rewrite list_lookup_insert_ne; [done|]. intros ->. congruence.
Qed.

Lemma Forall_pending_done (ts : list ClaimThread) :
  ts <> [] ->
  Forall (fun t => ct_pc t = ClaimStart \/ ct_pc t = ClaimUpdate) ts ->
  Forall (fun t => is_done t = true) ts -> False.
Proof.
  destruct ts as [|t ts]; [done|]. intros _ H1 H2.
  inversion H1 as [|? ? [Hp|Hp] _]; inversion H2 as [|? ? Hd _];
    subst; unfold is_done in Hd; rewrite Hp in Hd; discriminate.
Qed.

Ltac claim_unfold :=
  unfold claim_step, claim_read, claim_write, update_one, find_session, with_pc in *.

Lemma claim_inv_step (X : string) (st st' : Sys) :
  claim_inv X st -> sys_step st st' -> claim_inv X st'.
Proof.
  intros Hinv Hstep.
  destruct Hstep as [i tnow db db' ts t t' Hi Hcs].
  destruct Hinv as (HX & Hne & Hstat & s & Hs & Hbr); simpl in *.
  pose proof (proj1 (Forall_lookup _ ts) Hstat i t Hi) as (Ht_sid & Ht_aid & Ht_an).
  destruct t as [tsid taid tan tpc]; simpl in *; subst tsid.
  assert (Hstat' : forall pc, Forall (fun t0 => ct_sessionId t0 = X /\ ct_agentId t0 <> ""
                                           /\ ct_agentName t0 <> "")
                      (<[i := mkClaim X taid tan pc]> ts)).
  { intros pc. apply Forall_insert; [done|]. simpl; auto. }
  assert (Hne' : forall x, <[i := x]> ts <> []).
  { intros x Hnil. apply (f_equal length) in Hnil. rewrite length_insert in Hnil.
    destruct ts; simpl in *; [done|discriminate]. }
  assert (Hval : (String.eqb X "" || String.eqb taid "" || String.eqb tan "") = false).
  { repeat rewrite orb_false_iff; repeat split; apply String.eqb_neq; auto. }
  destruct Hbr as [[Hw Hpend] | (Ha & Hcnt & win & Hwin & Hwpc & Hwa & Hwn)].
  - pose proof (proj1 (Forall_lookup _ ts) Hpend i _ Hi) as Hpc; simpl in Hpc.
    destruct Hpc as [->| ->]; claim_unfold; simpl in Hcs.
    + rewrite Hval, Hs, Hw in Hcs. injection Hcs as <- <-.
      split; [done|]. split; [apply Hne'|]. split; [apply (Hstat' ClaimUpdate)|].
      exists s. split; [done|]. left. split; [done|].
      apply Forall_insert; [done|]. simpl; auto.
    + rewrite Hs, Hw in Hcs. simpl in Hcs. injection Hcs as <- <-.
      split; [done|]. split; [apply Hne'|]. split; [apply (Hstat' (ClaimDone AckOk))|].
      eexists. simpl. rewrite lookup_insert_eq. split; [done|]. right.
      split; [done|]. split.
      * pose proof (count_ok_insert ts i _ (mkClaim X taid tan (ClaimDone AckOk)) Hi) as Hc.
        rewrite (count_ok_pending ts Hpend) in Hc. unfold is_ok in Hc; simpl in Hc. lia.
      * exists (mkClaim X taid tan (ClaimDone AckOk)). split; [|simpl; auto].
        apply list_elem_of_lookup. exists i. apply list_lookup_insert_eq.
        eapply lookup_lt_Some; eauto.
  - assert (Hkeep : forall pc, (tpc = ClaimStart \/ tpc = ClaimUpdate) ->
              pc <> ClaimDone AckOk ->
              claim_inv X (mkSys db (<[i := mkClaim X taid tan pc]> ts))).
    { intros pc Htpc Hpc. split; [done|]. split; [apply Hne'|]. split; [apply Hstat'|].
      exists s. split; [done|]. right. split; [done|]. split.
      - pose proof (count_ok_insert ts i _ (mkClaim X taid tan pc) Hi) as Hc.
        unfold is_ok in Hc; simpl in Hc.
        simpl. destruct Htpc as [-> | ->]; destruct pc as [| |[|]]; simpl in Hc; try congruence; lia.
      - exists win. split; [|auto]. eapply elem_of_insert_other; eauto.
        intros ->. simpl in Hwpc. destruct Htpc; congruence. }
    destruct tpc as [| |r]; claim_unfold; simpl in Hcs.
    + rewrite Hval, Hs, Ha in Hcs. injection Hcs as <- <-.
      apply Hkeep; [auto|discriminate].
    + rewrite Hs, Ha in Hcs. simpl in Hcs. injection Hcs as <- <-.
      apply Hkeep; [auto|discriminate].
    + injection Hcs as <- <-. rewrite list_insert_id by done.
      split; [done|]. split; [done|]. split; [done|].
      exists s. split; [done|]. right. eauto 10.
Qed.

Lemma claim_inv_rtc (X : string) (st st' : Sys) :
  claim_inv X st -> rtc sys_step st st' -> claim_inv X st'.
Proof.
  intros H Hr. revert H. induction Hr as [|x y z Hxy _ IH]; [done|].
  intros H. apply IH. eapply claim_inv_step; eauto.
Qed.

Lemma claim_write_cas (tnow : Z) (db : Db) (t : ClaimThread) :
  ct_pc t = ClaimUpdate ->
  let '(db', t') := claim_step tnow db t in
  (ct_pc t' = ClaimDone AckOk <->
     exists s, find_session (ct_sessionId t) db = Some s /\ status s = Waiting) /\
  (ct_pc t' <> ClaimDone AckOk -> db' = db /\ exists e, ct_pc t' = ClaimDone (AckFail e)).
Proof.
  intros Hpc. claim_unfold. rewrite Hpc.
  destruct (chatSessions db !! ct_sessionId t) as [s|] eqn:E; simpl.
  - destruct (status s) eqn:Es; simpl.
    + split; [split; [eauto|done]|done].
    + split; [split; [done|intros (s' & Hs' & Hw); congruence]|eauto].
    + split; [split; [done|intros (s' & Hs' & Hw); congruence]|eauto].
  - split; [split; [done|intros (s' & Hs' & _); congruence]|eauto].
Qed.

(** C1: the claim of a waiting session is one atomic conditional update
    matching [id = X] and [status = waiting]: a claim thread at that update
    succeeds exactly when a waiting session [X] is there, and otherwise
    fails with [success: false] and leaves the store unchanged.  For any
    interleaving of concurrent claims on one waiting session that runs to
    completion, exactly one claim succeeds, every other one fails, and the
    session ends [active] with the winner's [agentId] and [agentName]. *)
Theorem agent_claim_atomic_single_winner :
  (forall (tnow : Z) (db : Db) (t : ClaimThread),
     ct_pc t = ClaimUpdate ->
     let '(db', t') := claim_step tnow db t in
     (ct_pc t' = ClaimDone AckOk <->
        exists s, find_session (ct_sessionId t) db = Some s /\ status s = Waiting) /\
     (ct_pc t' <> ClaimDone AckOk -> db' = db /\ exists e, ct_pc t' = ClaimDone (AckFail e))) /\
  (forall (X : string) (s0 : ChatSession) (db0 : Db) (ts0 : list ClaimThread) (fin : Sys),
     X <> "" -> chatSessions db0 !! X = Some s0 -> status s0 = Waiting -> ts0 <> [] ->
     Forall (fun t => ct_sessionId t = X /\ ct_agentId t <> "" /\ ct_agentName t <> ""
                      /\ ct_pc t = ClaimStart) ts0 ->
     rtc sys_step (mkSys db0 ts0) fin ->
     Forall (fun t => is_done t = true) (sys_threads fin) ->
     count_ok (sys_threads fin) = 1%nat /\
     (forall t, t ∈ sys_threads fin -> is_ok t = false ->
        exists e, ct_pc t = ClaimDone (AckFail e)) /\
     exists w s, w ∈ sys_threads fin /\ ct_pc w = ClaimDone AckOk /\
       chatSessions (sys_db fin) !! X = Some s /\ status s = Active /\
       agentId s = Some (ct_agentId w) /\ agentName s = Some (ct_agentName w)).
Proof.
  split; [exact claim_write_cas|].
  intros X s0 db0 ts0 fin HX Hs0 Hw0 Hne0 Hall Hrun Hdone.
  assert (Hinv : claim_inv X (mkSys db0 ts0)).
  { split; [done|]. split; [done|]. split.
    - eapply Forall_impl; [exact Hall|]. intros t (? & ? & ? & _); auto.
    - exists s0. split; [done|]. left. split; [done|].
      eapply Forall_impl; [exact Hall|]. intros t (_ & _ & _ & ->); auto. }
  destruct (claim_inv_rtc X _ _ Hinv Hrun) as (_ & Hne & _ & s & Hs & Hbr).
  destruct Hbr as [[_ Hpend] | (Ha & Hcnt & w & Hw & Hwpc & Hwa & Hwn)].
  - exfalso. eapply Forall_pending_done; eauto.
  - split; [done|]. split.
    + intros t Ht Hok. pose proof (proj1 (Forall_forall _ _) Hdone t Ht) as Hd.
      unfold is_done, is_ok in *. destruct (ct_pc t) as [| |[|e]]; try discriminate. eauto.
    + exists w, s. repeat split; auto.
Qed.

Lemma run_schedule_rtc (st : Sys) (sched : list (nat * Z)) :
  rtc sys_step st (run_schedule st sched).
Proof.
  revert st. induction sched as [|[i tnow] r IH]; intros [db ts]; simpl; [done|].
  destruct (ts !! i) as [t|] eqn:Hi; [|apply IH].
  destruct (claim_step tnow db t) as [db' t'] eqn:Hs.
  eapply rtc_l; [|apply IH]. econstructor; eauto.
Qed.

Lemma agent_claim_atomic_single_winner_witness :
  Forall (fun t => is_done t = true) (sys_threads race_final) /\
  count_ok (sys_threads race_final) = 1%nat.
Proof.
  assert (Hdone : Forall (fun t => is_done t = true) (sys_threads race_final)).
  { vm_compute. repeat constructor. }
  split; [exact Hdone|].
  exact (proj1 (proj2 agent_claim_atomic_single_winner "s1" s1_waiting db_s1_waiting
    race_threads race_final ltac:(discriminate) ltac:(reflexivity) eq_refl ltac:(discriminate)
    ltac:(repeat constructor; discriminate)
    (run_schedule_rtc _ _) Hdone)).
Defined.

(** *** Closed sessions *)

Ltac run_m :=
  unfold catch, bind, ret, throw, now, db_call, emit, log, update_one, find_session in *;
  simpl in *.

Lemma claim_step_closed (X : string) (db : Db) (s : ChatSession) (tnow : Z) (t : ClaimThread) :
  chatSessions db !! X = Some s -> status s = Closed -> ct_sessionId t = X ->
  let '(db', t') := claim_step tnow db t in
  db' = db /\ (ct_pc t <> ClaimDone AckOk -> is_ok t' = false).
Proof.
  intros Hs Hc Ht. destruct t as [sid aid an pc]; simpl in Ht; subst sid.
  claim_unfold; unfold is_ok; destruct pc as [| |r]; simpl.
  - destruct (String.eqb X "" || String.eqb aid "" || String.eqb an ""); simpl; [done|].
    rewrite Hs, Hc. done.
  - rewrite Hs, Hc. simpl. done.
  - split; [done|]. destruct r; done.
Qed.

Lemma close_session_closed (caller X : string) (w : World) (s : ChatSession) :
  chatSessions (w_db w) !! X = Some s -> status s = Closed ->
  let '(r, w') := close_session caller X w in
  exists s', chatSessions (w_db w') !! X = Some s' /\ status s' = Closed.
Proof.
  intros Hs Hc. unfold close_session. run_m.
  destruct (String.eqb X "") eqn:EX; simpl; [exists s; auto|].
  destruct (w_faults w) as [|[|] fs]; simpl; try rewrite Hs; simpl;
    first [eexists; split; [apply lookup_insert_eq|done] | exists s; split; done].
Qed.

Lemma close_session_closed_ok (caller X : string) (w : World) (s : ChatSession) :
  X <> "" -> chatSessions (w_db w) !! X = Some s -> status s = Closed -> w_faults w = [] ->
  let '(r, w') := close_session caller X w in
  r = Ok tt /\ chatSessions (w_db w') !! X = Some (set_closed (w_clock w) s) /\
  w_trace w' = (w_trace w ++ [EvEmit X (OutSessionClosed X)])%list.
Proof.
  intros HX Hs Hc Hf. unfold close_session. run_m.
  apply String.eqb_neq in HX. rewrite HX, Hf; simpl. rewrite Hs. simpl.
  split; [done|]. split; [apply lookup_insert_eq|done].
Qed.

Lemma updateSession_no_fault (X : string) (u : SessionUpdate) (w : World) (s : ChatSession) :
  chatSessions (w_db w) !! X = Some s -> w_faults w = [] ->
  let '(r, w') := updateSession X u w in
  r = Ok (Some (apply_update u (w_clock w) s)) /\
  chatSessions (w_db w') !! X = Some (apply_update u (w_clock w) s).
Proof.
  intros Hs Hf. unfold updateSession, with_retry_default, withRetry. simpl.
  run_m. unfold find_one_and_update. rewrite Hf, Hs. simpl.
  split; [done|apply lookup_insert_eq].
Qed.

(** C2 (counterexample): [PUT /api/chat-sessions] with [status: 'active']
    on the closed session "s1" succeeds and moves it back to [active]. *)
Lemma closed_session_reopened_by_update :
  match put_chat_sessions "s1" reopen (mkWorld db_s1_closed [] 200 []) with
  | (Ok (ApiSuccess 200 s), w') =>
      status s = Active /\
      option_map status (chatSessions (w_db w') !! "s1") = Some Active
  | _ => False
  end.
Proof. vm_compute. split; reflexivity. Qed.

(** C2 (amended): for a closed session [X], an agent claim (either of its
    two store steps) leaves the store unchanged and does not succeed;
    [close-session] keeps [X] closed whatever the store does, and when the
    store answers it succeeds, broadcasts [session-closed] and only
    re-stamps [updatedAt]; [updateSession] (the update endpoint) has no
    status guard and leaves [X] with exactly the status the request
    supplies, or [closed] when it supplies none. *)
Theorem closed_session_status_under_operations (X : string) (s : ChatSession) :
  status s = Closed ->
  (forall (db : Db) (tnow : Z) (t : ClaimThread),
     chatSessions db !! X = Some s -> ct_sessionId t = X ->
     let '(db', t') := claim_step tnow db t in
     db' = db /\ (ct_pc t <> ClaimDone AckOk -> is_ok t' = false)) /\
  (forall (caller : string) (w : World),
     chatSessions (w_db w) !! X = Some s ->
     let '(r, w') := close_session caller X w in
     exists s', chatSessions (w_db w') !! X = Some s' /\ status s' = Closed) /\
  (forall (caller : string) (w : World),
     X <> "" -> chatSessions (w_db w) !! X = Some s -> w_faults w = [] ->
     let '(r, w') := close_session caller X w in
     r = Ok tt /\ chatSessions (w_db w') !! X = Some (set_closed (w_clock w) s) /\
     w_trace w' = (w_trace w ++ [EvEmit X (OutSessionClosed X)])%list) /\
  (forall (u : SessionUpdate) (w : World),
     chatSessions (w_db w) !! X = Some s -> w_faults w = [] ->
     let '(r, w') := updateSession X u w in
     exists s', chatSessions (w_db w') !! X = Some s' /\
       status s' = default Closed (ud_status u)).
Proof.
  intros Hc. split; [|split; [|split]].
  - intros db tnow t Hs Ht. exact (claim_step_closed X db s tnow t Hs Hc Ht).
  - intros caller w Hs. exact (close_session_closed caller X w s Hs Hc).
  - intros caller w HX Hs Hf. exact (close_session_closed_ok caller X w s HX Hs Hc Hf).
  - intros u w Hs Hf. pose proof (updateSession_no_fault X u w s Hs Hf) as H.
    destruct (updateSession X u w) as [r w']. destruct H as [_ H].
    eexists. split; [exact H|]. simpl. rewrite Hc. done.
Qed.

Lemma closed_session_status_under_operations_witness :
  status (sample_session "s1" Closed (Some "A") 0 100) = Closed /\
  (let '(r, w') := close_session "c" "s1" (mkWorld db_s1_closed [] 200 []) in
   exists s', chatSessions (w_db w') !! "s1" = Some s' /\ status s' = Closed).
Proof.
  split; [reflexivity|].
  exact (proj1 (proj2 (closed_session_status_under_operations "s1"
           (sample_session "s1" Closed (Some "A") 0 100) eq_refl))
           "c" (mkWorld db_s1_closed [] 200 []) ltac:(reflexivity)).
Defined.

(** *** Computations that keep a property of the world *)

Lemma pres_ret {A} (P : World -> Prop) (a : A) : preserves P (ret a).
Proof. intros w H. exact H. Qed.

Lemma pres_throw {A} (P : World -> Prop) (e : Exn) : preserves P (@throw A e).
Proof. intros w H. exact H. Qed.

Lemma pres_throw_last {A} (P : World -> Prop) (l : option Exn) : preserves P (@throw_last A l).
Proof. destruct l; apply pres_throw. Qed.

Lemma pres_bind {A B} (P : World -> Prop) (c : M A) (k : A -> M B) :
  preserves P c -> (forall a, preserves P (k a)) -> preserves P (bind c k).
Proof.
  intros Hc Hk w H. specialize (Hc w H). unfold bind.
  destruct (c w) as [[a|e] w']; simpl in *; [apply Hk|]; exact Hc.
Qed.

Lemma pres_catch {A} (P : World -> Prop) (c : M A) (h : Exn -> M A) :
  preserves P c -> (forall e, preserves P (h e)) -> preserves P (catch c h).
Proof.
  intros Hc Hh w H. specialize (Hc w H). unfold catch.
  destruct (c w) as [[a|e] w']; simpl in *; [|apply Hh]; exact Hc.
Qed.

Lemma pres_withErrorHandling {A} (P : World -> Prop) (code : Z) (c : M A) :
  preserves P c -> preserves P (withErrorHandling code c).
Proof.
  intros Hc w H. specialize (Hc w H). unfold withErrorHandling.
  destruct (c w) as [[a|e] w']; exact Hc.
Qed.

(** The log lines and sleeps of the retry loop. *)
Definition quiet_logs (P : World -> Prop) : Prop :=
  (forall a mx e, preserves P (log (EvRetryFailed a mx e))) /\
  (forall d, preserves P (log (EvSleep d))).

Lemma pres_retry_loop {A} (P : World -> Prop) (op : M A) (attempt maxR delay : Z)
    (last : option Exn) (fuel : nat) :
  quiet_logs P -> preserves P op -> preserves P (retry_loop op attempt maxR delay last fuel).
Proof.
  intros [Hl1 Hl2] Hop. revert attempt last.
  induction fuel as [|fuel IH]; intros attempt last; simpl.
  - apply pres_throw_last.
  - destruct (attempt <=? maxR); [|apply pres_throw_last].
    intros w H. specialize (Hop w H). destruct (op w) as [[a|e] w1]; simpl in *; [exact Hop|].
    revert w1 Hop. fold (preserves P
      (let* _ := log (EvRetryFailed attempt maxR e) in
       if attempt =? maxR then throw_last (Some e)
       else let* _ := log (EvSleep (delay * 2 ^ (attempt - 1))) in
            retry_loop op (attempt + 1) maxR delay (Some e) fuel)).
    apply pres_bind; [apply Hl1|intros _].
    destruct (attempt =? maxR); [intros w2 H2; exact H2|].
    apply pres_bind; [apply Hl2|intros _]. apply IH.
Qed.

Lemma pres_retry_default {A} (P : World -> Prop) (op : M A) :
  quiet_logs P -> preserves P op -> preserves P (with_retry_default op).
Proof. apply pres_retry_loop. Qed.

Lemma pres_now (Q : Db -> list Event -> Prop) : preserves (on_store Q) now.
Proof. intros w H. exact H. Qed.

Lemma pres_read {A} (Q : Db -> list Event -> Prop) (f : Db -> A) :
  preserves (on_store Q) (db_call (fun db => (f db, db))).
Proof.
  intros w H. unfold db_call. destruct (w_faults w) as [|[|] fs]; exact H.
Qed.

(** Handles the control structure; [t] handles the primitives. *)
Ltac pres_with t :=
  repeat match goal with
  | |- preserves _ (ret _) => apply pres_ret
  | |- preserves _ (throw _) => apply pres_throw
  | |- preserves _ (throw_last _) => apply pres_throw_last
  | |- preserves (on_store _) now => apply pres_now
  | |- preserves (on_store _) (db_call (fun db => (@?f db, db))) => apply pres_read
  | |- _ => progress t
  | |- preserves _ (bind _ _) => apply pres_bind; [|intros ?]
  | |- preserves _ (catch _ _) => apply pres_catch; [|intros ?]
  | |- preserves _ (with_retry_default _) => apply pres_retry_default; [split; intros|]
  | |- preserves _ (withErrorHandling _ _) => apply pres_withErrorHandling
  | |- preserves _ (if ?b then _ else _) => destruct b
  | |- preserves _ (match ?x with Some _ => _ | None => _ end) => destruct x
  | |- preserves _ (let _ := _ in _) => cbv zeta
  end.

(** *** Agent fields along operation sequences *)

Lemma keeps_log (ev : Event) : preserves sessions_inv (log ev).
Proof. intros w H. exact H. Qed.

Lemma keeps_emit (room : string) (o : Outbound) : preserves sessions_inv (emit room o).
Proof. apply keeps_log. Qed.

Lemma keeps_db_call {A} (f : Db -> A * Db) :
  (forall db, sessions_ok db -> sessions_ok (snd (f db))) -> preserves sessions_inv (db_call f).
Proof.
  intros Hf w H. unfold db_call.
  destruct (w_faults w) as [|[|] fs]; simpl; try exact H;
    specialize (Hf _ H); destruct (f (w_db w)); exact Hf.
Qed.

Lemma keeps_insert_message (m : ChatMessage) : preserves sessions_inv (db_insert_message m).
Proof.
  intros w H. unfold db_insert_message, insert_message.
  destruct (w_faults w) as [|[|] fs]; simpl; try exact H;
    destruct (find_message (msg_id m) (w_db w)); exact H.
Qed.

Lemma keeps_insert_session (s : ChatSession) : agent_ok s -> preserves sessions_inv (db_insert_session s).
Proof.
  intros Hs w H. unfold db_insert_session.
  destruct (w_faults w) as [|[|] fs]; simpl; try exact H;
    destruct (chatSessions (w_db w) !! id s); try exact H;
    apply map_Forall_insert_2; assumption.
Qed.

Lemma update_one_ok (key : string) (g : ChatSession -> bool) (upd : ChatSession -> ChatSession) (db : Db) :
  (forall s, agent_ok s -> g s = true -> agent_ok (upd s)) ->
  sessions_ok db -> sessions_ok (snd (update_one key g upd db)).
Proof.
  intros Hu H. unfold update_one.
  destruct (chatSessions db !! key) as [s|] eqn:E; [|exact H].
  destruct (g s) eqn:G; [|exact H]. simpl.
  apply map_Forall_insert_2; [|exact H]. apply Hu; [exact (H key s E)|exact G].
Qed.

Ltac keeps_prim :=
  idtac; match goal with
  | |- preserves _ (emit _ _) => apply keeps_emit
  | |- preserves _ (log _) => apply keeps_log
  | |- preserves _ (db_insert_message _) => apply keeps_insert_message
  end.

Ltac keeps := pres_with keeps_prim.

Lemma payload_agent_ok (sd : SessionData) (c u : Z) :
  payload_ok sd = true ->
  agent_ok (mkSession (sd_id sd) (sd_userId sd) (sd_userEmail sd) (sd_userName sd)
              (sd_status sd) (sd_agentId sd) (sd_agentName sd) c u (sd_initialMessage sd)).
Proof.
  unfold payload_ok, agent_ok. simpl.
  destruct (sd_status sd); destruct (sd_agentId sd) as [a|]; simpl; intros Hp;
    split; intros E; try discriminate E; try discriminate Hp; auto.
  - right. destruct (String.eqb a "") eqn:Ea; [|discriminate Hp].
    apply String.eqb_eq in Ea. subst a. reflexivity.
  - exists a. split; [done|]. apply String.eqb_neq. destruct (String.eqb a ""); done.
Qed.

Lemma keeps_create_session (sd : SessionData) :
  payload_ok sd = true -> preserves sessions_inv (create_session sd).
Proof.
  intros Hp. unfold create_session. keeps.
  all: apply keeps_insert_session, payload_agent_ok, Hp.
Qed.

Lemma keeps_send_message (md : MessageData) : preserves sessions_inv (send_message md).
Proof.
  unfold send_message, persist_and_broadcast. keeps.
  all: apply keeps_db_call; intros db H; apply update_one_ok; [|exact H];
    intros s' Hs' _; exact Hs'.
Qed.

Lemma keeps_close_session (caller sid : string) : preserves sessions_inv (close_session caller sid).
Proof.
  unfold close_session. keeps.
  apply keeps_db_call. intros db H. apply update_one_ok; [|exact H].
  intros s _ _. unfold agent_ok. simpl. split; intros E; discriminate E.
Qed.

Lemma keeps_post_chat_messages (b : CreateMessageBody) : preserves sessions_inv (post_chat_messages b).
Proof.
  unfold post_chat_messages, getSessionById, createMessage. keeps.
Qed.

Lemma claim_step_keeps (tnow : Z) (db : Db) (t : ClaimThread) :
  (ct_pc t = ClaimUpdate -> ct_agentId t <> "") -> sessions_ok db ->
  sessions_ok (fst (claim_step tnow db t)) /\
  (ct_pc (snd (claim_step tnow db t)) = ClaimUpdate -> ct_agentId (snd (claim_step tnow db t)) <> "").
Proof.
  destruct t as [sid aid an pc]. intros Ht H. unfold claim_step.
  destruct pc as [| |r]; simpl in *.
  - split; [exact H|]. unfold claim_read. simpl.
    destruct (String.eqb aid "") eqn:Ea.
    + rewrite orb_true_r. simpl. discriminate.
    + intros _. apply String.eqb_neq. exact Ea.
  - specialize (Ht eq_refl). unfold claim_write.
    pose proof (update_one_ok sid (fun s => status_eqb (status s) Waiting)
                  (set_claim aid an tnow) db) as Hu.
    destruct (update_one _ _ _ db) as [m d'] eqn:E. simpl in Hu.
    assert (Hd : sessions_ok d').
    { apply Hu; [|exact H]. intros s _ _. unfold agent_ok. simpl.
      split; [intros _; exists aid; split; [done|exact Ht]|intros E'; discriminate E']. }
    destruct (m =? 0)%nat; simpl; (split; [exact Hd|discriminate]).
  - split; [exact H|]. discriminate.
Qed.

Lemma op_apply_keeps (st : World * list ClaimThread) (o : Op) :
  op_allowed o = true -> sessions_ok (w_db (fst st)) -> threads_ok (snd st) ->
  sessions_ok (w_db (fst (op_apply st o))) /\ threads_ok (snd (op_apply st o)).
Proof.
  destruct st as [w ts]. simpl. intros Ho H Ht.
  destruct o as [sd|sid aid an|i|caller sid|md|b]; simpl.
  - split; [exact (keeps_create_session _ Ho w H)|exact Ht].
  - split; [exact H|]. apply Forall_app; split; [exact Ht|].
    constructor; [simpl; discriminate|constructor].
  - destruct (ts !! i) as [t|] eqn:Ei; [|split; assumption].
    pose proof (claim_step_keeps (w_clock w) (w_db w) t) as K.
    destruct (claim_step (w_clock w) (w_db w) t) as [d' t'] eqn:E. simpl in K.
    assert (Hti : ct_pc t = ClaimUpdate -> ct_agentId t <> "")
      by exact (Forall_lookup_1 _ _ _ _ Ht Ei).
    destruct (K Hti H) as [K1 K2]. split; [exact K1|].
    apply Forall_insert; [exact Ht|exact K2].
  - split; [exact (keeps_close_session _ _ w H)|exact Ht].
  - split; [exact (keeps_send_message _ w H)|exact Ht].
  - split; [exact (keeps_post_chat_messages _ w H)|exact Ht].
Qed.

Lemma run_ops_keeps (st : World * list ClaimThread) (ops : list Op) :
  Forall (fun o => op_allowed o = true) ops ->
  sessions_ok (w_db (fst st)) -> threads_ok (snd st) ->
  sessions_ok (w_db (fst (run_ops st ops))) /\ threads_ok (snd (run_ops st ops)).
Proof.
  unfold run_ops. revert st. induction ops as [|o ops IH]; intros st Hops H Ht; simpl.
  - split; assumption.
  - inversion Hops as [|? ? Ho Hrest]; subst.
    destruct (op_apply_keeps st o Ho H Ht) as [H1 H2].
    apply IH; assumption.
Qed.

(** C3 (counterexample): create "s1" as waiting, let agent A claim it and
    close it; the closed session still carries [agentId = "A"]. *)
Lemma closed_session_keeps_agentId :
  option_map (fun s => (status s, agentId s))
    (chatSessions (w_db (fst (run_ops (w_empty, []) claim_then_close))) !! "s1")
  = Some (Closed, Some "A").
Proof. vm_compute. reflexivity. Qed.

(** C3 (amended): starting from a store whose sessions obey the rule, after
    any interleaving of [create-session] (with a payload whose [status]
    and [agentId] agree), [agent-join-session] calls, [close-session],
    [send-message] and [POST /api/chat-messages], every active session
    has a non-empty [agentId] and every waiting session has none (unset or
    empty); a closed session keeps the [agentId] it had. *)
Theorem agentId_set_iff_active_when_open (w0 : World) (ops : list Op) :
  sessions_ok (w_db w0) ->
  Forall (fun o => op_allowed o = true) ops ->
  forall sid s,
    chatSessions (w_db (fst (run_ops (w0, []) ops))) !! sid = Some s ->
    (status s = Active -> exists a, agentId s = Some a /\ a <> "") /\
    (status s = Waiting -> agentId s = None \/ agentId s = Some "").
Proof.
  intros H0 Hops sid s Hs.
  destruct (run_ops_keeps (w0, []) ops Hops H0 ltac:(constructor)) as [H _].
  exact (H sid s Hs).
Qed.

Lemma agentId_set_iff_active_when_open_witness :
  sessions_ok (w_db w_empty) /\
  Forall (fun o => op_allowed o = true) (take 4 claim_then_close) /\
  (forall s,
     chatSessions (w_db (fst (run_ops (w_empty, []) (take 4 claim_then_close)))) !! "s1" = Some s ->
     (status s = Active -> exists a, agentId s = Some a /\ a <> "") /\
     (status s = Waiting -> agentId s = None \/ agentId s = Some "")).
Proof.
  split; [apply map_Forall_empty|]. split; [repeat constructor|].
  exact (agentId_set_iff_active_when_open w_empty (take 4 claim_then_close)
           (map_Forall_empty _) ltac:(repeat constructor) "s1").
Defined.

(** *** Message submission with an id already stored *)

Lemma post_duplicate_id (b : CreateMessageBody) (w : World) (s : ChatSession) (m : ChatMessage) :
  valid_create_message b = true ->
  chatSessions (w_db w) !! b_sessionId b = Some s -> status s <> Closed ->
  (b_sender b = "agent" -> truthy_str (agentId s) = true) ->
  find_message (b_id b) (w_db w) = Some m -> w_faults w = [] ->
  fst (post_chat_messages b w) = Ok (ApiError 500 "server_error") /\
  w_db (snd (post_chat_messages b w)) = w_db w /\
  w_trace (snd (post_chat_messages b w)) =
    (w_trace w ++ [EvRetryFailed 1 3 duplicate_key; EvSleep 1000;
                   EvRetryFailed 2 3 duplicate_key; EvSleep 2000;
                   EvRetryFailed 3 3 duplicate_key])%list.
Proof.
  destruct w as [db fs clk tr]. simpl. intros Hv Hs Hc Ha Hm Hf. subst fs.
  unfold post_chat_messages, withErrorHandling, getSessionById, createMessage,
    with_retry_default, withRetry. rewrite Hv. simpl.
  unfold bind, db_call, find_session, log, now, ret, throw, throw_last,
    db_insert_message, insert_message. simpl.
  rewrite Hs. simpl.
  assert (Hst : status_eqb (status s) Closed = false) by (destruct (status s); simpl; congruence).
  rewrite Hst.
  assert (Hag : (String.eqb (b_sender b) "agent" && negb (truthy_str (agentId s))) = false).
  { destruct (String.eqb (b_sender b) "agent") eqn:E; [|done].
    apply String.eqb_eq in E. rewrite (Ha E). done. }
  rewrite Hag. simpl. rewrite Hm. simpl. rewrite Hm. simpl. rewrite Hm. simpl.
  split; [done|]. split; [done|]. rewrite <- !app_assoc. done.
Qed.

Lemma send_message_duplicate_id (md : MessageData) (w : World) (s : ChatSession) (m : ChatMessage) :
  md_sessionId md <> "" -> md_message md <> "" -> md_sender md <> "" -> md_id md <> "" ->
  chatSessions (w_db w) !! md_sessionId md = Some s -> status s <> Closed ->
  find_message (md_id md) (w_db w) = Some m -> w_faults w = [] ->
  send_message md w = (Ok (SendOk m true), w).
Proof.
  destruct w as [db fs clk tr]. simpl. intros H1 H2 H3 H4 Hs Hc Hm Hf. subst fs.
  unfold send_message, catch, bind, db_call, find_session, ret. simpl.
  apply String.eqb_neq in H1, H2, H3, H4. rewrite H1, H2, H3. simpl.
  rewrite Hs.
  assert (Hst : status_eqb (status s) Closed = false) by (destruct (status s); simpl; congruence).
  rewrite Hst, H4. simpl. rewrite Hm. reflexivity.
Qed.

(** C4: the socket [send-message] handler answers a payload whose [id] is
    already stored with that stored message flagged [duplicate: true] and
    leaves the world unchanged; [POST /api/chat-messages] with such an
    [id] (and everything else valid) inserts nothing either, but answers
    [500 server_error]: the unique index refuses the insert, the retry
    wrapper repeats it three times, and no duplicate flag or stored
    message is returned. *)
Theorem message_id_dedup_socket_only :
  (forall (md : MessageData) (w : World) (s : ChatSession) (m : ChatMessage),
     md_sessionId md <> "" -> md_message md <> "" -> md_sender md <> "" -> md_id md <> "" ->
     chatSessions (w_db w) !! md_sessionId md = Some s -> status s <> Closed ->
     find_message (md_id md) (w_db w) = Some m -> w_faults w = [] ->
     send_message md w = (Ok (SendOk m true), w)) /\
  (forall (b : CreateMessageBody) (w : World) (s : ChatSession) (m : ChatMessage),
     valid_create_message b = true ->
     chatSessions (w_db w) !! b_sessionId b = Some s -> status s <> Closed ->
     (b_sender b = "agent" -> truthy_str (agentId s) = true) ->
     find_message (b_id b) (w_db w) = Some m -> w_faults w = [] ->
     fst (post_chat_messages b w) = Ok (ApiError 500 "server_error") /\
     w_db (snd (post_chat_messages b w)) = w_db w).
Proof.
  split.
  - exact send_message_duplicate_id.
  - intros b w s m Hv Hs Hc Ha Hm Hf.
    destruct (post_duplicate_id b w s m Hv Hs Hc Ha Hm Hf) as [H1 [H2 _]].
    split; assumption.
Qed.

Lemma message_id_dedup_socket_only_witness :
  fst post_twice = Ok (ApiError 500 "server_error") /\
  w_db (snd post_twice) = w_db (snd (post_chat_messages body_m1 w_s1_active)).
Proof.
  exact (proj2 message_id_dedup_socket_only body_m1
           (snd (post_chat_messages body_m1 w_s1_active))
           (sample_session "s1" Active (Some "A") 0 0)
           (mkMessage "m1" "s1" "user" "hello" 10)
           ltac:(reflexivity) ltac:(vm_compute; reflexivity) ltac:(discriminate)
           ltac:(intros E; discriminate E) ltac:(vm_compute; reflexivity)
           ltac:(reflexivity)).
Defined.

(** C4 (failing run): the same body posted twice to [POST /api/chat-messages];
    the second answer is [500 server_error], not the stored message with
    [duplicate: true], while the socket handler replays the stored message
    flagged as a duplicate.  One message "m1" is stored either way. *)
Lemma post_twice_no_duplicate_flag :
  fst post_twice = Ok (ApiError 500 "server_error") /\
  length (filter (fun m => String.eqb (msg_id m) "m1") (chatMessages (w_db (snd post_twice)))) = 1%nat /\
  fst send_twice = Ok (SendOk (mkMessage "m1" "s1" "user" "hello" 10) true) /\
  length (filter (fun m => String.eqb (msg_id m) "m1") (chatMessages (w_db (snd send_twice)))) = 1%nat.
Proof. vm_compute. repeat split. Qed.

(** *** Who may send to a session *)

Lemma send_message_fresh_stored (md : MessageData) (w : World) (s : ChatSession) :
  md_sessionId md <> "" -> md_message md <> "" -> md_sender md <> "" ->
  chatSessions (w_db w) !! md_sessionId md = Some s -> status s <> Closed ->
  find_message (md_id md) (w_db w) = None -> w_faults w = [] ->
  fst (send_message md w) =
    Ok (SendOk (mkMessage (md_id md) (md_sessionId md) (md_sender md) (md_message md) (w_clock w)) false) /\
  chatMessages (w_db (snd (send_message md w))) =
    (chatMessages (w_db w) ++
     [mkMessage (md_id md) (md_sessionId md) (md_sender md) (md_message md) (w_clock w)])%list.
Proof.
  destruct w as [db fs clk tr]. simpl. intros H1 H2 H3 Hs Hc Hm Hf. subst fs.
  unfold send_message, persist_and_broadcast, catch, bind, db_call, find_session, ret, now, emit, log,
    db_insert_message, insert_message, update_one. simpl.
  apply String.eqb_neq in H1, H2, H3. rewrite H1, H2, H3. simpl.
  rewrite Hs.
  assert (Hst : status_eqb (status s) Closed = false) by (destruct (status s); simpl; congruence).
  rewrite Hst.
  destruct (String.eqb (md_id md) "") eqn:Hid; simpl.
  - rewrite Hm. simpl. rewrite Hs. simpl. split; reflexivity.
  - rewrite Hm. simpl. rewrite Hm. simpl. rewrite Hs. simpl. split; reflexivity.
Qed.

Lemma post_agent_unassigned (b : CreateMessageBody) (w : World) (s : ChatSession) :
  valid_create_message b = true -> b_sender b = "agent" ->
  chatSessions (w_db w) !! b_sessionId b = Some s -> status s <> Closed ->
  truthy_str (agentId s) = false -> w_faults w = [] ->
  post_chat_messages b w = (Ok (ApiError 400 "validation"), w).
Proof.
  destruct w as [db fs clk tr]. simpl. intros Hv Hsd Hs Hc Ha Hf. subst fs.
  unfold post_chat_messages, withErrorHandling, getSessionById,
    with_retry_default, withRetry. rewrite Hv. simpl.
  unfold bind, db_call, find_session, ret, throw. simpl.
  rewrite Hs.
  assert (Hst : status_eqb (status s) Closed = false) by (destruct (status s); simpl; congruence).
  rewrite Hst, Hsd, Ha. reflexivity.
Qed.

(** C5: the socket [send-message] handler stores and acknowledges a fresh
    message from sender ["agent"] on any existing session that is not
    closed, whatever its [agentId] (no assigned agent is required), while
    [POST /api/chat-messages] rejects the same submission with a
    [400 validation] error and leaves the world unchanged when the session
    has no agent. *)
Theorem agent_message_check_rest_only :
  (forall (md : MessageData) (w : World) (s : ChatSession),
     md_sessionId md <> "" -> md_message md <> "" -> md_sender md = "agent" ->
     chatSessions (w_db w) !! md_sessionId md = Some s -> status s <> Closed ->
     truthy_str (agentId s) = false ->
     find_message (md_id md) (w_db w) = None -> w_faults w = [] ->
     fst (send_message md w) =
       Ok (SendOk (mkMessage (md_id md) (md_sessionId md) "agent" (md_message md) (w_clock w)) false) /\
     chatMessages (w_db (snd (send_message md w))) =
       (chatMessages (w_db w) ++
        [mkMessage (md_id md) (md_sessionId md) "agent" (md_message md) (w_clock w)])%list) /\
  (forall (b : CreateMessageBody) (w : World) (s : ChatSession),
     valid_create_message b = true -> b_sender b = "agent" ->
     chatSessions (w_db w) !! b_sessionId b = Some s -> status s <> Closed ->
     truthy_str (agentId s) = false -> w_faults w = [] ->
     post_chat_messages b w = (Ok (ApiError 400 "validation"), w)).
Proof.
  split.
  - intros md w s H1 H2 H3 Hs Hc _ Hm Hf.
    assert (H3' : md_sender md <> "") by (rewrite H3; discriminate).
    pose proof (send_message_fresh_stored md w s H1 H2 H3' Hs Hc Hm Hf) as H.
    rewrite H3 in H. exact H.
  - exact post_agent_unassigned.
Qed.

Lemma agent_message_check_rest_only_witness :
  (fst (send_message md_agent_m2 w_s1_waiting) =
     Ok (SendOk (mkMessage "m2" "s1" "agent" "hi" 10) false) /\
   chatMessages (w_db (snd (send_message md_agent_m2 w_s1_waiting))) =
     [mkMessage "m2" "s1" "agent" "hi" 10]) /\
  post_chat_messages body_agent_m2 w_s1_waiting = (Ok (ApiError 400 "validation"), w_s1_waiting).
Proof.
  split.
  - exact (proj1 agent_message_check_rest_only md_agent_m2 w_s1_waiting s1_waiting
             ltac:(discriminate) ltac:(discriminate) ltac:(reflexivity)
             ltac:(vm_compute; reflexivity) ltac:(discriminate) ltac:(reflexivity)
             ltac:(vm_compute; reflexivity) ltac:(reflexivity)).
  - exact (proj2 agent_message_check_rest_only body_agent_m2 w_s1_waiting s1_waiting
             ltac:(reflexivity) ltac:(reflexivity) ltac:(vm_compute; reflexivity)
             ltac:(discriminate) ltac:(reflexivity) ltac:(reflexivity)).
Defined.

(** *** Broadcasts of new messages along operation sequences *)

Lemma ann_log (ev : Event) :
  (forall room m, ev <> EvEmit room (OutNewMessage m)) -> (forall m, ev <> EvStored m) ->
  preserves announced (log ev).
Proof.
  intros Hn Hs w [H1 H2]. unfold on_store, log. simpl. split.
  - intros j room m Hj. apply lookup_snoc_Some in Hj as [[Hlt Hj]|[-> E]].
    + destruct (H1 j room m Hj) as [i [Hi Hi']]. exists i.
      split; [lia|]. apply lookup_app_l_Some. exact Hi'.
    + exfalso. exact (Hn room m E).
  - intros i m Hi. apply lookup_snoc_Some in Hi as [[_ Hi]|[_ E]].
    + exact (H2 i m Hi).
    + exfalso. exact (Hs m E).
Qed.

Lemma ann_emit (room : string) (o : Outbound) :
  (forall m, o <> OutNewMessage m) -> preserves announced (emit room o).
Proof.
  intros Ho. apply ann_log.
  - intros room' m E. injection E as _ E. exact (Ho m E).
  - intros m E. discriminate E.
Qed.

Lemma ann_emit_after (room : string) (m : ChatMessage) (w : World) :
  (exists i, w_trace w !! i = Some (EvStored m)) -> announced w ->
  announced (snd (emit room (OutNewMessage m) w)).
Proof.
  intros [i Hi] [H1 H2]. unfold on_store, emit, log. simpl. split.
  - intros j room' m' Hj. apply lookup_snoc_Some in Hj as [[Hlt Hj]|[-> E]].
    + destruct (H1 j room' m' Hj) as [k [Hk Hk']]. exists k.
      split; [lia|]. apply lookup_app_l_Some. exact Hk'.
    + injection E as _ <-. exists i. split.
      * apply lookup_lt_Some in Hi. exact Hi.
      * apply lookup_app_l_Some. exact Hi.
  - intros k m' Hk. apply lookup_snoc_Some in Hk as [[_ Hk]|[_ E]].
    + exact (H2 k m' Hk).
    + discriminate E.
Qed.

Lemma ann_db_call {A} (f : Db -> A * Db) :
  (forall db, chatMessages (snd (f db)) = chatMessages db) -> preserves announced (db_call f).
Proof.
  intros Hf w [H1 H2]. unfold db_call.
  destruct (w_faults w) as [|[|] fs]; simpl; try (split; assumption);
    pose proof (Hf (w_db w)) as Hm; destruct (f (w_db w)) as [a d]; simpl in Hm;
    unfold on_store; simpl; (split; [exact H1|]); rewrite Hm; exact H2.
Qed.

Lemma ann_insert_message (m : ChatMessage) : preserves announced (db_insert_message m).
Proof.
  intros w [H1 H2]. unfold db_insert_message, insert_message.
  destruct (w_faults w) as [|[|] fs]; simpl; try (split; assumption);
    destruct (find_message (msg_id m) (w_db w)); simpl; try (split; assumption);
    unfold on_store; simpl; split.
  all: try (intros j room m' Hj; apply lookup_snoc_Some in Hj as [[Hlt Hj]|[_ E]];
            [destruct (H1 j room m' Hj) as [i [Hi Hi']]; exists i;
             split; [lia|apply lookup_app_l_Some; exact Hi']
            |discriminate E]).
  all: intros i m' Hi; apply lookup_snoc_Some in Hi as [[_ Hi]|[_ E]];
         apply elem_of_app;
         [left; exact (H2 i m' Hi)|right; injection E as ->; apply list_elem_of_singleton; done].
Qed.

Lemma db_insert_message_trace (m : ChatMessage) (w w1 : World) (u : unit) :
  db_insert_message m w = (Ok u, w1) -> w_trace w1 = (w_trace w ++ [EvStored m])%list.
Proof.
  unfold db_insert_message.
  destruct (w_faults w) as [|[|] fs]; simpl; [| discriminate |];
    destruct (insert_message m (w_db w)); intros E; inversion E; reflexivity.
Qed.

(** Lines 296-306: the insert, then the broadcast of the inserted document. *)
Lemma ann_insert_emit (d : ChatMessage) (room : string) {B} (K : unit -> M B) :
  (forall u, preserves announced (K u)) ->
  preserves announced
    (bind (db_insert_message d) (fun _ => bind (emit room (OutNewMessage d)) K)).
Proof.
  intros HK w Hw. unfold bind at 1.
  destruct (db_insert_message d w) as [[u|e] w1] eqn:E.
  - pose proof (ann_insert_message d w Hw) as H1. rewrite E in H1. simpl in H1.
    change (announced (snd (K tt (snd (emit room (OutNewMessage d) w1))))).
    apply HK, ann_emit_after; [|exact H1].
    exists (length (w_trace w)). rewrite (db_insert_message_trace d w w1 u E).
    apply lookup_snoc_Some. right. split; reflexivity.
  - pose proof (ann_insert_message d w Hw) as H1. rewrite E in H1. exact H1.
Qed.

Lemma ann_insert_session (s : ChatSession) : preserves announced (db_insert_session s).
Proof.
  intros w H. unfold db_insert_session.
  destruct (w_faults w) as [|[|] fs]; simpl; try exact H;
    destruct (chatSessions (w_db w) !! id s); exact H.
Qed.

Lemma update_one_messages (key : string) (g : ChatSession -> bool) (upd : ChatSession -> ChatSession) (db : Db) :
  chatMessages (snd (update_one key g upd db)) = chatMessages db.
Proof.
  unfold update_one. destruct (chatSessions db !! key); [destruct (g c)|]; reflexivity.
Qed.

Ltac ann_prim :=
  idtac; match goal with
  | |- preserves _ (bind (db_insert_message _) (fun _ => bind (emit _ (OutNewMessage _)) _)) =>
      apply ann_insert_emit; intros ?
  | |- preserves _ (emit _ _) => apply ann_emit; intros; discriminate
  | |- preserves _ (log _) => apply ann_log; intros; discriminate
  | |- preserves _ (db_insert_message _) => apply ann_insert_message
  | |- preserves _ (db_insert_session _) => apply ann_insert_session
  | |- preserves _ (db_call _) => apply ann_db_call; intros ?db; apply update_one_messages
  end.

Ltac ann := pres_with ann_prim.

Lemma ann_create_session (sd : SessionData) : preserves announced (create_session sd).
Proof. unfold create_session. ann. Qed.

Lemma ann_send_message (md : MessageData) : preserves announced (send_message md).
Proof. unfold send_message, persist_and_broadcast. ann. Qed.

Lemma ann_close_session (caller sid : string) : preserves announced (close_session caller sid).
Proof. unfold close_session. ann. Qed.

Lemma ann_post_chat_messages (b : CreateMessageBody) : preserves announced (post_chat_messages b).
Proof. unfold post_chat_messages, getSessionById, createMessage. ann. Qed.

Lemma claim_step_messages (tnow : Z) (db : Db) (t : ClaimThread) :
  chatMessages (fst (claim_step tnow db t)) = chatMessages db.
Proof.
  destruct t as [sid aid an pc]. unfold claim_step. destruct pc; simpl; try reflexivity.
  unfold claim_write.
  pose proof (update_one_messages sid (fun s => status_eqb (status s) Waiting)
                (set_claim aid an tnow) db) as Hm.
  destruct (update_one _ _ _ db) as [n d'] eqn:E. simpl in Hm.
  destruct (n =? 0)%nat; exact Hm.
Qed.

Lemma op_apply_announced (st : World * list ClaimThread) (o : Op) :
  announced (fst st) -> announced (fst (op_apply st o)).
Proof.
  destruct st as [w ts]. simpl. intros H.
  destruct o as [sd|sid aid an|i|caller sid|md|b]; simpl.
  - exact (ann_create_session sd w H).
  - exact H.
  - destruct (ts !! i) as [t|]; [|exact H].
    pose proof (claim_step_messages (w_clock w) (w_db w) t) as Hm.
    destruct (claim_step (w_clock w) (w_db w) t) as [d' t']. simpl in Hm.
    destruct H as [H1 H2]. unfold on_store. simpl. split; [exact H1|].
    rewrite Hm. exact H2.
  - exact (ann_close_session caller sid w H).
  - exact (ann_send_message md w H).
  - exact (ann_post_chat_messages b w H).
Qed.

Lemma run_ops_announced (st : World * list ClaimThread) (ops : list Op) :
  announced (fst st) -> announced (fst (run_ops st ops)).
Proof.
  unfold run_ops. revert st. induction ops as [|o ops IH]; intros st H; simpl.
  - exact H.
  - apply IH, op_apply_announced, H.
Qed.

(** C6: starting from a world whose trace obeys the rule (an empty one
    does), after any interleaving of the subsystem's operations, every
    [new-message] broadcast in the trace is preceded by the acknowledged
    insert of that same message, and that message is in the store's
    history. *)
Theorem broadcast_after_persist (w0 : World) (ts0 : list ClaimThread) (ops : list Op) :
  announced_stored (w_db w0) (w_trace w0) ->
  forall j room m,
    w_trace (fst (run_ops (w0, ts0) ops)) !! j = Some (EvEmit room (OutNewMessage m)) ->
    exists i, (i < j)%nat /\
      w_trace (fst (run_ops (w0, ts0) ops)) !! i = Some (EvStored m) /\
      m ∈ chatMessages (w_db (fst (run_ops (w0, ts0) ops))).
Proof.
  intros H0 j room m Hj.
  destruct (run_ops_announced (w0, ts0) ops H0) as [H1 H2].
  destruct (H1 j room m Hj) as [i [Hi Hi']].
  exists i. split; [exact Hi|]. split; [exact Hi'|]. exact (H2 i m Hi').
Qed.

Lemma broadcast_after_persist_witness :
  exists i, (i < 2)%nat /\
    w_trace (fst (run_ops (w_empty, []) [OpCreate sd_s1; OpSend md_m1])) !! i =
      Some (EvStored (mkMessage "m1" "s1" "user" "hello" 2)) /\
    mkMessage "m1" "s1" "user" "hello" 2 ∈
      chatMessages (w_db (fst (run_ops (w_empty, []) [OpCreate sd_s1; OpSend md_m1]))).
Proof.
  apply (broadcast_after_persist w_empty [] [OpCreate sd_s1; OpSend md_m1]
           ltac:(split; intros ? ?; [intros ? E|intros E]; discriminate E) 2 "s1").
  vm_compute. reflexivity.
Defined.

(** *** Pagination of [getSessions] *)

Lemma ceil_div_spec (t l : Z) :
  0 <= t -> 0 < l -> t <= ceil_div t l * l < t + l.
Proof.
  intros Ht Hl. unfold ceil_div.
  pose proof (Z.div_mod t l ltac:(lia)) as Hd. pose proof (Z.mod_pos_bound t l Hl) as Hm.
  destruct (t mod l =? 0) eqn:E; [apply Z.eqb_eq in E|apply Z.eqb_neq in E]; nia.
Qed.

Lemma filter_cons_bool {A} (b : A -> bool) (x : A) (l : list A) :
  filter b (x :: l) = if b x then x :: filter b l else filter b l.
Proof. rewrite filter_cons. destruct (b x); reflexivity. Qed.

Lemma filter_map_length {B C : Type} (p : C -> bool) (g : B -> C) (q : B -> bool) (l : list B) :
  length (filter p (map g (filter q l))) = length (filter (fun x => q x && p (g x)) l).
Proof.
  induction l as [|x l IH]; [reflexivity|].
  rewrite (filter_cons_bool q), (filter_cons_bool (fun x => q x && p (g x))).
  destruct (q x); simpl; [|exact IH].
  rewrite filter_cons_bool. destruct (p (g x)); simpl; rewrite IH; reflexivity.
Qed.

Lemma filter_length_and_true {B : Type} (q : B -> bool) (l : list B) :
  length (filter q l) = length (filter (fun x => q x && true) l).
Proof.
  induction l as [|x l IH]; [reflexivity|].
  rewrite !filter_cons_bool. destruct (q x); simpl; rewrite IH; reflexivity.
Qed.

(** C7: on both paths of [getSessions] the pagination descriptor counts
    exactly the sessions that pass the base match and, on the
    derived-field path, the derived-field predicates (the filters of the
    data pipeline); [limit] lies in 1..100; [totalPages] is the least
    multiple count covering [total] ([Math.ceil(total / limit)]); and
    [hasNext = page < totalPages], [hasPrev = page > 1]. *)
Theorem getSessions_pagination
    (regex_i : string -> string -> bool) (mongo_sort : string -> Z -> list SessionOut -> list SessionOut)
    (db : Db) (f : SessionFilters) (o : PaginationOptions) :
  let p := pagination (getSessions_body regex_i mongo_sort db f o) in
  (pg_total p =
     Z.of_nat (length (filter (session_selected regex_i db f) (all_sessions db)))) /\
  (1 <= pg_limit p <= 100) /\
  (pg_total p <= pg_totalPages p * pg_limit p < pg_total p + pg_limit p) /\
  (pg_hasNext p = (pg_page p <? pg_totalPages p)) /\
  (pg_hasPrev p = (1 <? pg_page p)).
Proof.
  cbv zeta. unfold getSessions_body, session_selected.
  assert (Hl : 1 <= Z.min 100 (Z.max 1 (or_default (o_limit o) 20)) <= 100) by lia.
  destruct (needs_aggregation f) eqn:Hn; simpl.
  - assert (Ht : count_pipeline regex_i db f =
                 Z.of_nat (length (filter (fun s => base_match regex_i f s &&
                                                    duration_match f (add_fields db s))
                                     (all_sessions db)))).
    { unfold count_pipeline. cbv zeta.
      replace (has_duration_match f) with true by (rewrite <- Hn; reflexivity).
      rewrite filter_map_length.
      set (n := length (filter _ (all_sessions db))).
      destruct (n =? 0)%nat eqn:E0; simpl.
      - apply Nat.eqb_eq in E0. rewrite E0. reflexivity.
      - apply Nat.eqb_neq in E0. unfold or_default.
        destruct (Z.of_nat n =? 0) eqn:E1; [apply Z.eqb_eq in E1; lia|reflexivity]. }
    rewrite Ht. split; [reflexivity|]. split; [exact Hl|].
    split; [apply ceil_div_spec; lia|]. split; reflexivity.
  - rewrite <- filter_length_and_true. split; [reflexivity|]. split; [exact Hl|].
    split; [apply ceil_div_spec; lia|]. split; reflexivity.
Qed.

(** C8: a session with exactly 12 messages is kept under the message-count
    range [10, 50] and dropped under [0, 5] (a bound of 0 is not applied);
    an active session with [updatedAt - createdAt = 600000] is kept under
    [status=active&minDuration=300000] and dropped under
    [status=active&maxDuration=60000]. *)
Theorem derived_filters_consistent (regex_i : string -> string -> bool) (db : Db) (s : ChatSession) :
  (message_count db s = 12 ->
     session_selected regex_i db (count_filter 10 50) s = true /\
     session_selected regex_i db (count_filter 0 5) s = false) /\
  (status s = Active -> duration s = 600000 ->
     session_selected regex_i db (active_duration_filter (Some 300000) None) s = true /\
     session_selected regex_i db (active_duration_filter None (Some 60000)) s = false).
Proof.
  split.
  - intros Hc. unfold session_selected, add_fields, duration_match, bound_ok. simpl.
    rewrite Hc. split; reflexivity.
  - intros Hs Hd. unfold session_selected, base_match, add_fields, duration_match, bound_ok. simpl.
    rewrite Hs, Hd. simpl. split; reflexivity.
Qed.

Lemma derived_filters_consistent_witness :
  (session_selected (fun _ _ => false) db_s12 (count_filter 10 50) s12 = true /\
   session_selected (fun _ _ => false) db_s12 (count_filter 0 5) s12 = false) /\
  (session_selected (fun _ _ => false) db_s12 (active_duration_filter (Some 300000) None) s12 = true /\
   session_selected (fun _ _ => false) db_s12 (active_duration_filter None (Some 60000)) s12 = false).
Proof.
  destruct (derived_filters_consistent (fun _ _ => false) db_s12 s12) as [H1 H2].
  split; [apply H1; vm_compute; reflexivity|apply H2; reflexivity].
Defined.

(** *** The retry wrapper *)

Lemma with_retry_default_unrolled {A} (op : M A) (w : World) :
  with_retry_default op w = three_attempts op w.
Proof.
  unfold with_retry_default, withRetry, three_attempts, add_events. simpl.
  destruct (op w) as [[a|e1] w1]; [reflexivity|].
  unfold bind, log. simpl. rewrite <- app_assoc. simpl.
  destruct (op _) as [[a|e2] w2]; [reflexivity|].
  simpl. rewrite <- app_assoc. simpl.
  destruct (op _) as [[a|e3] w3]; reflexivity.
Qed.

Lemma post_session_missing (b : CreateMessageBody) (w : World) :
  valid_create_message b = true -> chatSessions (w_db w) !! b_sessionId b = None ->
  w_faults w = [] ->
  post_chat_messages b w = (Ok (ApiError 404 "not_found"), w).
Proof.
  destruct w as [db fs clk tr]. simpl. intros Hv Hs Hf. subst fs.
  unfold post_chat_messages, withErrorHandling, getSessionById,
    with_retry_default, withRetry. rewrite Hv. simpl.
  unfold bind, db_call, find_session, ret, throw. simpl.
  rewrite Hs. reflexivity.
Qed.

(** C9 (counterexample): [createMessage] with an id already stored fails
    deterministically on the unique index, and the wrapper still makes
    three attempts with backoffs of 1000 and 2000 ms before throwing the
    duplicate key error. *)
Lemma duplicate_key_retried :
  let w1 := snd (post_chat_messages body_m1 w_s1_active) in
  let r := createMessage "m1" "s1" "user" "hello" w1 in
  fst r = Throw duplicate_key /\
  w_db (snd r) = w_db w1 /\
  w_trace (snd r) =
    (w_trace w1 ++ [EvRetryFailed 1 3 duplicate_key; EvSleep 1000;
                    EvRetryFailed 2 3 duplicate_key; EvSleep 2000;
                    EvRetryFailed 3 3 duplicate_key])%list.
Proof. vm_compute. repeat split. Qed.

Lemma post_invalid_body (b : CreateMessageBody) (w : World) :
  valid_create_message b = false -> post_chat_messages b w = (Ok (ApiError 400 "validation"), w).
Proof. intros Hv. unfold post_chat_messages, withErrorHandling. rewrite Hv. reflexivity. Qed.

Lemma post_closed_session (b : CreateMessageBody) (w : World) (s : ChatSession) :
  valid_create_message b = true -> chatSessions (w_db w) !! b_sessionId b = Some s ->
  status s = Closed -> w_faults w = [] ->
  post_chat_messages b w = (Ok (ApiError 400 "validation"), w).
Proof.
  destruct w as [db fs clk tr]. simpl. intros Hv Hs Hc Hf. subst fs.
  unfold post_chat_messages, withErrorHandling, getSessionById,
    with_retry_default, withRetry. rewrite Hv. simpl.
  unfold bind, db_call, find_session, ret, throw. simpl.
  rewrite Hs, Hc. reflexivity.
Qed.

Lemma post_session_invalid_body (b : CreateSessionBody) (w : World) :
  valid_create_session b = false -> post_chat_sessions b w = (Ok (ApiError 400 "validation"), w).
Proof. intros Hv. unfold post_chat_sessions, withErrorHandling. rewrite Hv. reflexivity. Qed.

Lemma post_session_conflict (b : CreateSessionBody) (w : World) :
  valid_create_session b = true -> is_Some (chatSessions (w_db w) !! sd_id (cs_session b)) ->
  w_faults w = [] ->
  post_chat_sessions b w = (Ok (ApiError 409 "conflict"), w).
Proof.
  destruct w as [db fs clk tr]. simpl. intros Hv [s Hs] Hf. subst fs.
  unfold post_chat_sessions, withErrorHandling, getSessionById, with_retry_default, withRetry.
  rewrite Hv. simpl. unfold bind, db_call, find_session, ret, throw. simpl.
  rewrite Hs. reflexivity.
Qed.

Lemma put_invalid_fields (sid : string) (u : SessionUpdate) (w : World) :
  valid_update_fields u = false \/ u = mkSessionUpdate None None None ->
  put_chat_sessions sid u w = (Ok (ApiError 400 "validation"), w).
Proof.
  intros [Hv| ->]; [|reflexivity].
  unfold put_chat_sessions, withErrorHandling. rewrite Hv. reflexivity.
Qed.

Lemma put_session_missing (sid : string) (u : SessionUpdate) (w : World) :
  u <> mkSessionUpdate None None None -> valid_update_fields u = true ->
  chatSessions (w_db w) !! sid = None -> w_faults w = [] ->
  put_chat_sessions sid u w =
    (Ok (ApiError 404 "not_found"), mkWorld (w_db w) [] (w_clock w + 1) (w_trace w)).
Proof.
  destruct w as [db fs clk tr]. simpl. intros Hu Hv Hs Hf. subst fs.
  unfold put_chat_sessions, withErrorHandling. rewrite Hv. simpl.
  assert (E : updateSession sid u (mkWorld db [] clk tr) = (Ok None, mkWorld db [] (clk + 1) tr)).
  { unfold updateSession, with_retry_default, withRetry, bind, now, db_call, find_one_and_update. simpl.
    rewrite Hs. reflexivity. }
  destruct u as [[?|] [?|] [?|]]; try (exfalso; apply Hu; reflexivity);
    unfold bind; rewrite E; reflexivity.
Qed.

Lemma get_messages_invalid_query (q : MessagesQuery) (w : World) :
  validate_pagination q = None -> get_chat_messages q w = (Ok (ApiError 400 "validation"), w).
Proof. intros Hq. unfold get_chat_messages, withErrorHandling. rewrite Hq. reflexivity. Qed.

Lemma get_messages_session_missing (q : MessagesQuery) (w : World) (pl : Z * Z) :
  validate_pagination q = Some pl -> chatSessions (w_db w) !! q_sessionId q = None ->
  w_faults w = [] ->
  get_chat_messages q w = (Ok (ApiError 404 "not_found"), w).
Proof.
  destruct w as [db fs clk tr]. simpl. intros Hq Hs Hf. subst fs. destruct pl as [page limit].
  unfold get_chat_messages, withErrorHandling. rewrite Hq.
  unfold getSessionById, with_retry_default, withRetry. simpl.
  unfold bind, db_call, find_session, ret, throw. simpl. rewrite Hs. reflexivity.
Qed.

(** C9 (amended): a store operation run through [withRetry] with its
    defaults is attempted at most three times, with backoffs of 1000 ms
    and then 2000 ms, and the last error is thrown to the caller; the
    wrapper retries every error alike, deterministic ones (such as a
    duplicate key) included.  The route handlers raise their validation,
    not-found and conflict errors outside the wrapper, so these are not
    retried: when the store answers, each such answer comes back with the
    world as it was (no retry line, no backoff, no write).  This holds
    for [POST /api/chat-messages] on an invalid body ([400]), a missing
    session ([404]), a closed session ([400]) and an agent message to a
    session with no agent ([400]); for [POST /api/chat-sessions] on an
    invalid body ([400]) and an id already taken ([409]); for
    [GET /api/chat-messages] on an invalid query ([400]) and a missing
    session ([404]); and for [PUT /api/chat-sessions] on invalid fields
    ([400]), while its [404] comes after a single run of the retried
    update, with the clock read once and no retry line or backoff. *)
Theorem retry_policy_three_attempts :
  (forall (A : Type) (op : M A) (w : World), with_retry_default op w = three_attempts op w) /\
  (forall (b : CreateMessageBody) (w : World),
     valid_create_message b = false ->
     post_chat_messages b w = (Ok (ApiError 400 "validation"), w)) /\
  (forall (b : CreateMessageBody) (w : World),
     valid_create_message b = true -> chatSessions (w_db w) !! b_sessionId b = None ->
     w_faults w = [] ->
     post_chat_messages b w = (Ok (ApiError 404 "not_found"), w)) /\
  (forall (b : CreateMessageBody) (w : World) (s : ChatSession),
     valid_create_message b = true -> chatSessions (w_db w) !! b_sessionId b = Some s ->
     status s = Closed -> w_faults w = [] ->
     post_chat_messages b w = (Ok (ApiError 400 "validation"), w)) /\
  (forall (b : CreateMessageBody) (w : World) (s : ChatSession),
     valid_create_message b = true -> b_sender b = "agent" ->
     chatSessions (w_db w) !! b_sessionId b = Some s -> status s <> Closed ->
     truthy_str (agentId s) = false -> w_faults w = [] ->
     post_chat_messages b w = (Ok (ApiError 400 "validation"), w)) /\
  (forall (b : CreateSessionBody) (w : World),
     valid_create_session b = false ->
     post_chat_sessions b w = (Ok (ApiError 400 "validation"), w)) /\
  (forall (b : CreateSessionBody) (w : World),
     valid_create_session b = true -> is_Some (chatSessions (w_db w) !! sd_id (cs_session b)) ->
     w_faults w = [] ->
     post_chat_sessions b w = (Ok (ApiError 409 "conflict"), w)) /\
  (forall (q : MessagesQuery) (w : World),
     validate_pagination q = None -> get_chat_messages q w = (Ok (ApiError 400 "validation"), w)) /\
  (forall (q : MessagesQuery) (w : World) (pl : Z * Z),
     validate_pagination q = Some pl -> chatSessions (w_db w) !! q_sessionId q = None ->
     w_faults w = [] ->
     get_chat_messages q w = (Ok (ApiError 404 "not_found"), w)) /\
  (forall (sid : string) (u : SessionUpdate) (w : World),
     valid_update_fields u = false \/ u = mkSessionUpdate None None None ->
     put_chat_sessions sid u w = (Ok (ApiError 400 "validation"), w)) /\
  (forall (sid : string) (u : SessionUpdate) (w : World),
     u <> mkSessionUpdate None None None -> valid_update_fields u = true ->
     chatSessions (w_db w) !! sid = None -> w_faults w = [] ->
     put_chat_sessions sid u w =
       (Ok (ApiError 404 "not_found"), mkWorld (w_db w) [] (w_clock w + 1) (w_trace w))).
Proof.
  split; [|split; [|split; [|split; [|split; [|split; [|split; [|split; [|split; [|split]]]]]]]]].
  - intros A op w. apply with_retry_default_unrolled.
  - exact post_invalid_body.
  - exact post_session_missing.
  - exact post_closed_session.
  - exact post_agent_unassigned.
  - exact post_session_invalid_body.
  - exact post_session_conflict.
  - exact get_messages_invalid_query.
  - exact get_messages_session_missing.
  - exact put_invalid_fields.
  - exact put_session_missing.
Qed.

Lemma retry_policy_three_attempts_witness :
  post_chat_messages (mkCreateMessageBody "m9" "nope" "user" "hello") w_s1_active =
    (Ok (ApiError 404 "not_found"), w_s1_active) /\
  post_chat_messages body_m1 (mkWorld db_s1_closed [] 200 []) =
    (Ok (ApiError 400 "validation"), mkWorld db_s1_closed [] 200 []) /\
  post_chat_messages body_agent_m2 w_s1_waiting = (Ok (ApiError 400 "validation"), w_s1_waiting) /\
  post_chat_sessions (mkCreateSessionBody (mkSessionData "s1" "u2" "ann@example.com" "Ann" Waiting
                                             None None "Hello") "v") w_s1_active =
    (Ok (ApiError 409 "conflict"), w_s1_active) /\
  put_chat_sessions "s9" reopen w_s1_active =
    (Ok (ApiError 404 "not_found"), mkWorld db_s1_active [] 11 []).
Proof.
  split; [|split; [|split; [|split]]].
  - exact (proj1 (proj2 (proj2 retry_policy_three_attempts))
             (mkCreateMessageBody "m9" "nope" "user" "hello") w_s1_active
             ltac:(reflexivity) ltac:(vm_compute; reflexivity) ltac:(reflexivity)).
  - exact (proj1 (proj2 (proj2 (proj2 retry_policy_three_attempts)))
             body_m1 (mkWorld db_s1_closed [] 200 []) (sample_session "s1" Closed (Some "A") 0 100)
             ltac:(reflexivity) ltac:(vm_compute; reflexivity) ltac:(reflexivity) ltac:(reflexivity)).
  - exact (proj1 (proj2 (proj2 (proj2 (proj2 retry_policy_three_attempts))))
             body_agent_m2 w_s1_waiting s1_waiting
             ltac:(reflexivity) ltac:(reflexivity) ltac:(vm_compute; reflexivity) ltac:(discriminate)
             ltac:(reflexivity) ltac:(reflexivity)).
  - exact (proj1 (proj2 (proj2 (proj2 (proj2 (proj2 (proj2 retry_policy_three_attempts))))))
             (mkCreateSessionBody (mkSessionData "s1" "u2" "ann@example.com" "Ann" Waiting
                                     None None "Hello") "v") w_s1_active
             ltac:(reflexivity) ltac:(vm_compute; eexists; reflexivity) ltac:(reflexivity)).
  - exact (proj2 (proj2 (proj2 (proj2 (proj2 (proj2 (proj2 (proj2 (proj2 (proj2
             retry_policy_three_attempts))))))))) "s9" reopen w_s1_active
             ltac:(discriminate) ltac:(reflexivity) ltac:(reflexivity) ltac:(reflexivity)).
Defined.

(** *** The recent-messages shortcut of [GET /api/chat-messages] *)

Lemma insert_by_createdAt_hd (x m : ChatMessage) (l : list ChatMessage) :
  HdRel by_createdAt x l -> by_createdAt x m -> HdRel by_createdAt x (insert_by_createdAt m l).
Proof.
  intros Hh Hxm. destruct l as [|y r]; simpl.
  - constructor. exact Hxm.
  - destruct (msg_createdAt m <? msg_createdAt y); constructor; [exact Hxm|].
    inversion Hh; assumption.
Qed.

Lemma insert_by_createdAt_sorted (m : ChatMessage) (l : list ChatMessage) :
  Sorted by_createdAt l -> Sorted by_createdAt (insert_by_createdAt m l).
Proof.
  induction l as [|x r IH]; intros Hs; simpl.
  - repeat constructor.
  - destruct (msg_createdAt m <? msg_createdAt x) eqn:E.
    + constructor; [exact Hs|]. constructor. unfold by_createdAt. apply Z.ltb_lt in E. lia.
    + apply Sorted_inv in Hs as [Hr Hh]. constructor; [apply IH, Hr|].
      apply insert_by_createdAt_hd; [exact Hh|]. unfold by_createdAt. apply Z.ltb_ge in E. lia.
Qed.

Lemma sort_by_createdAt_sorted (l : list ChatMessage) : Sorted by_createdAt (sort_by_createdAt l).
Proof.
  induction l as [|x r IH]; simpl; [constructor|]. apply insert_by_createdAt_sorted, IH.
Qed.

Lemma insert_by_createdAt_perm (m : ChatMessage) (l : list ChatMessage) :
  insert_by_createdAt m l ≡ₚ m :: l.
Proof.
  induction l as [|x r IH]; simpl; [reflexivity|].
  destruct (msg_createdAt m <? msg_createdAt x); [reflexivity|].
  rewrite IH. apply perm_swap.
Qed.

Lemma sort_by_createdAt_perm (l : list ChatMessage) : sort_by_createdAt l ≡ₚ l.
Proof.
  induction l as [|x r IH]; simpl; [reflexivity|].
  rewrite insert_by_createdAt_perm, IH. reflexivity.
Qed.

(** C10: for a history request with [page = 1] and [limit <= 50] on an
    existing session, the answer is the first [min(limit, total)]
    messages of the session sorted by ascending [createdAt] (the session's
    messages, reordered), with the descriptor [{ page: 1, limit, total:
    number returned, totalPages: 1, hasNext: false, hasPrev: false }],
    whatever the number of messages the session holds. *)
Theorem recent_messages_shortcut (q : MessagesQuery) (w : World) :
  default 1 (q_page q) = 1 ->
  1 <= default 20 (q_limit q) <= 50 ->
  is_Some (chatSessions (w_db w) !! q_sessionId q) ->
  w_faults w = [] ->
  let limit := default 20 (q_limit q) in
  let msgs := sort_by_createdAt (session_messages (q_sessionId q) (w_db w)) in
  get_chat_messages q w =
    (Ok (ApiSuccess 200
           (mkPaginated (take (Z.to_nat limit) msgs)
              (mkPagination 1 limit (Z.of_nat (Nat.min (Z.to_nat limit) (length msgs)))
                 1 false false))), w) /\
  Sorted by_createdAt msgs /\
  msgs ≡ₚ session_messages (q_sessionId q) (w_db w).
Proof.
  destruct q as [sid pg lm]. destruct w as [db fs clk tr]. simpl.
  intros Hp Hl [s Hs] Hf. subst fs.
  split; [|split; [apply sort_by_createdAt_sorted|apply sort_by_createdAt_perm]].
  set (l := default 20 lm) in *.
  unfold get_chat_messages, validate_pagination, withErrorHandling, getSessionById,
    getRecentMessages, with_retry_default, withRetry. simpl.
  fold l. rewrite Hp.
  assert (E1 : (1 <=? l) = true) by (apply Z.leb_le; lia).
  assert (E2 : (l <=? 100) = true) by (apply Z.leb_le; lia).
  assert (E3 : (l <=? 50) = true) by (apply Z.leb_le; lia).
  rewrite E1, E2. simpl.
  unfold bind, db_call, find_session, ret. simpl.
  rewrite Hs. simpl. rewrite E3. simpl.
  unfold mongo_limit.
  replace (Z.min 100 l) with l by lia.
  assert (E4 : (l =? 0) = false) by (apply Z.eqb_neq; lia).
  rewrite E4. replace (Z.abs_nat l) with (Z.to_nat l) by lia.
  rewrite length_take. reflexivity.
Qed.

Lemma recent_messages_shortcut_witness :
  get_chat_messages (mkMessagesQuery "s12" None (Some 5)) (mkWorld db_s12 [] 0 []) =
    (Ok (ApiSuccess 200
           (mkPaginated (take 5 (sort_by_createdAt (session_messages "s12" db_s12)))
              (mkPagination 1 5 5 1 false false))), mkWorld db_s12 [] 0 []).
Proof.
  exact (proj1 (recent_messages_shortcut (mkMessagesQuery "s12" None (Some 5)) (mkWorld db_s12 [] 0 [])
                  ltac:(reflexivity) ltac:(simpl; lia) ltac:(vm_compute; eexists; reflexivity)
                  ltac:(reflexivity))).
Defined.

(* ------------------------------------------------------------------ *)
(** ** Properties of the further operations *)

(** *** The retry wrapper under store faults *)

Lemma retry_loop_transient {B} (f : Db -> B * Db) (k : nat) :
  forall (a n d : Z) (last : option Exn) (fuel : nat) (db : Db) (fs : list bool) (clk : Z)
         (tr : list Event),
  1 <= a -> a + Z.of_nat k < n + 1 -> (k < fuel)%nat -> head fs <> Some true ->
  retry_loop (db_call f) a n d last fuel (mkWorld db (repeat true k ++ fs) clk tr) =
  (Ok (fst (f db)),
   mkWorld (snd (f db)) (tail fs) clk (tr ++ backoff_events a k n d MongoNetworkError)%list).
Proof.
  induction k as [|k IH]; intros a n d last fuel db fs clk tr Ha Hn Hf Hh;
    (destruct fuel as [|fuel]; [lia|]); simpl.
  - replace (a <=? n) with true by (symmetry; apply Z.leb_le; lia).
    unfold db_call. simpl. rewrite app_nil_r.
    destruct fs as [|[|] fs]; simpl in *; [|congruence|];
      destruct (f db); reflexivity.
  - replace (a <=? n) with true by (symmetry; apply Z.leb_le; lia).
    unfold db_call. simpl. unfold bind, log. cbn [w_db w_faults w_clock w_trace].
    replace (a =? n) with false by (symmetry; apply Z.eqb_neq; lia).
    cbn [w_db w_faults w_clock w_trace]. rewrite IH by (lia || exact Hh).
    simpl. rewrite <- !app_assoc. reflexivity.
Qed.

Lemma retry_loop_persistent {B} (f : Db -> B * Db) (j : nat) :
  forall (a n d : Z) (last : option Exn) (fuel : nat) (db : Db) (fs : list bool) (clk : Z)
         (tr : list Event),
  1 <= a -> a + Z.of_nat j = n -> (j < fuel)%nat ->
  retry_loop (db_call f) a n d last fuel (mkWorld db (repeat true (S j) ++ fs) clk tr) =
  (Throw MongoNetworkError,
   mkWorld db fs clk (tr ++ backoff_events a j n d MongoNetworkError
                         ++ [EvRetryFailed n n MongoNetworkError])%list).
Proof.
  induction j as [|j IH]; intros a n d last fuel db fs clk tr Ha Hn Hf;
    (destruct fuel as [|fuel]; [lia|]); simpl.
  - replace (a <=? n) with true by (symmetry; apply Z.leb_le; lia).
    unfold db_call. simpl. unfold bind, log. cbn [w_db w_faults w_clock w_trace].
    replace (a =? n) with true by (symmetry; apply Z.eqb_eq; lia).
    simpl. unfold throw. replace a with n by lia. reflexivity.
  - replace (a <=? n) with true by (symmetry; apply Z.leb_le; lia).
    unfold db_call. simpl. unfold bind, log. cbn [w_db w_faults w_clock w_trace].
    replace (a =? n) with false by (symmetry; apply Z.eqb_neq; lia).
    cbn [w_db w_faults w_clock w_trace].
    change (true :: repeat true j ++ fs)%list with (repeat true (S j) ++ fs)%list.
    rewrite IH by lia. simpl. rewrite <- !app_assoc. reflexivity.
Qed.

(** X1: [withRetry] with [maxRetries <= 0] runs no attempt: the loop body
    never executes and [throw lastError!] throws [undefined], the world
    untouched. *)
Theorem withRetry_no_attempt {A} (op : M A) (maxRetries delay : Z) (w : World) :
  maxRetries <= 0 -> withRetry op maxRetries delay w = (Throw Undefined, w).
Proof.
  intros H. unfold withRetry. replace (Z.to_nat maxRetries) with 0%nat by lia. reflexivity.
Qed.

Lemma withRetry_no_attempt_witness :
  withRetry (db_call (fun db => (find_session "s1" db, db))) 0 1000 w_s1_active =
  (Throw Undefined, w_s1_active).
Proof.
  exact (withRetry_no_attempt (db_call (fun db => (find_session "s1" db, db))) 0 1000 w_s1_active
           ltac:(lia)).
Defined.

(** X2: a store operation wrapped in [withRetry] whose first [k] calls
    fail with a network error, [k < maxRetries], succeeds on attempt
    [k + 1]: it returns the operation's answer on the store as it was,
    applies the operation once, and leaves in the trace exactly [k]
    retry-failure lines, each followed by its backoff of
    [delay * 2^(attempt - 1)] ms. *)
Theorem withRetry_masks_transient_faults {B} (f : Db -> B * Db) (k : nat) (maxRetries delay : Z)
    (db : Db) (fs : list bool) (clk : Z) (tr : list Event) :
  Z.of_nat k < maxRetries -> head fs <> Some true ->
  withRetry (db_call f) maxRetries delay (mkWorld db (repeat true k ++ fs) clk tr) =
  (Ok (fst (f db)),
   mkWorld (snd (f db)) (tail fs) clk
     (tr ++ backoff_events 1 k maxRetries delay MongoNetworkError)%list).
Proof.
  intros Hk Hh. unfold withRetry. apply retry_loop_transient; [lia|lia|lia|exact Hh].
Qed.

Lemma withRetry_masks_transient_faults_witness :
  withRetry (db_call (fun db => (find_session "s1" db, db))) 3 1000
    (mkWorld db_s1_active (repeat true 2 ++ []) 10 []) =
  (Ok (find_session "s1" db_s1_active),
   mkWorld db_s1_active [] 10
     ([] ++ backoff_events 1 2 3 1000 MongoNetworkError)%list).
Proof.
  exact (withRetry_masks_transient_faults (fun db => (find_session "s1" db, db)) 2 3 1000
           db_s1_active [] 10 [] ltac:(lia) ltac:(discriminate)).
Defined.

(** X3: when every one of the [maxRetries >= 1] attempts fails with a
    network error, [withRetry] throws that error after [maxRetries]
    attempts; the store is not written, and the trace holds a
    retry-failure line and a backoff for each attempt but the last, then
    the last attempt's failure line (no sleep after it). *)
Theorem withRetry_persistent_faults {B} (f : Db -> B * Db) (maxRetries delay : Z)
    (db : Db) (fs : list bool) (clk : Z) (tr : list Event) :
  1 <= maxRetries ->
  withRetry (db_call f) maxRetries delay
    (mkWorld db (repeat true (Z.to_nat maxRetries) ++ fs) clk tr) =
  (Throw MongoNetworkError,
   mkWorld db fs clk
     (tr ++ backoff_events 1 (Z.to_nat maxRetries - 1) maxRetries delay MongoNetworkError
         ++ [EvRetryFailed maxRetries maxRetries MongoNetworkError])%list).
Proof.
  intros Hn. unfold withRetry.
  replace (Z.to_nat maxRetries) with (S (Z.to_nat maxRetries - 1)) at 1 2 by lia.
  apply retry_loop_persistent; lia.
Qed.

Lemma withRetry_persistent_faults_witness :
  withRetry (db_call (fun db => (find_session "s1" db, db))) 3 1000
    (mkWorld db_s1_active (repeat true (Z.to_nat 3) ++ []) 10 []) =
  (Throw MongoNetworkError,
   mkWorld db_s1_active [] 10
     ([] ++ backoff_events 1 (Z.to_nat 3 - 1) 3 1000 MongoNetworkError
         ++ [EvRetryFailed 3 3 MongoNetworkError])%list).
Proof.
  exact (withRetry_persistent_faults (fun db => (find_session "s1" db, db)) 3 1000
           db_s1_active [] 10 [] ltac:(lia)).
Defined.

(** *** Paging through a session's history *)

Lemma getMessages_page (sid : string) (page lim : Z) (w : World) :
  1 <= page -> 1 <= lim <= 100 -> w_faults w = [] ->
  getMessages sid (Some page) (Some lim) w =
  (Ok (mkPaginated
         (take (Z.to_nat lim) (drop (Z.to_nat ((page - 1) * lim))
                                 (sort_by_createdAt (session_messages sid (w_db w)))))
         (make_pagination page lim (Z.of_nat (length (session_messages sid (w_db w)))))), w).
Proof.
  destruct w as [db fs clk tr]. simpl. intros Hp Hl Hf. subst fs.
  unfold getMessages, with_retry_default, withRetry, or_default. simpl.
  unfold db_call. simpl.
  replace (page =? 0) with false by (symmetry; apply Z.eqb_neq; lia).
  replace (lim =? 0) with false by (symmetry; apply Z.eqb_neq; lia).
  replace (Z.max 1 page) with page by lia.
  replace (Z.min 100 (Z.max 1 lim)) with lim by lia.
  unfold mongo_limit, mongo_skip.
  replace (lim =? 0) with false by (symmetry; apply Z.eqb_neq; lia).
  replace (Z.abs_nat lim) with (Z.to_nat lim) by lia.
  reflexivity.
Qed.

Lemma concat_pages {A} (l : nat) (xs : list A) (m : nat) :
  concat (map (fun k => take l (drop (k * l) xs)) (seq 0 m)) = take (m * l) xs.
Proof.
  induction m as [|m IH]; [reflexivity|].
  rewrite seq_S, map_app, concat_app, IH. simpl. rewrite app_nil_r.
  rewrite take_take_drop. f_equal. lia.
Qed.

Lemma ceil_div_nonneg (t l : Z) : 0 <= t -> 0 < l -> 0 <= ceil_div t l.
Proof. intros Ht Hl. pose proof (ceil_div_spec t l Ht Hl). nia. Qed.

(** X4: with a fixed [limit] in 1..100 and a store that answers, the
    pages [1 .. totalPages] of [getMessages] all succeed without touching
    the world, each reports [totalPages], and their data, concatenated in
    page order, are exactly the session's messages in ascending
    [createdAt] order, each once; every page past [totalPages] is empty
    and has [hasNext = false]. *)
Theorem getMessages_pages_partition (sid : string) (lim : Z) (w : World) :
  1 <= lim <= 100 -> w_faults w = [] ->
  let msgs := session_messages sid (w_db w) in
  let N := Z.to_nat (ceil_div (Z.of_nat (length msgs)) lim) in
  (exists ps : list (PaginatedResult ChatMessage),
     map (fun k => getMessages sid (Some (Z.of_nat k + 1)) (Some lim) w) (seq 0 N) =
       map (fun p => (Ok p, w)) ps /\
     Forall (fun p => pg_totalPages (pagination p) = Z.of_nat N) ps /\
     concat (map data ps) = sort_by_createdAt msgs) /\
  (forall page, Z.of_nat N < page ->
     exists p, getMessages sid (Some page) (Some lim) w = (Ok p, w) /\
               data p = [] /\ pg_hasNext (pagination p) = false).
Proof.
  intros Hl Hf msgs N.
  set (sorted := sort_by_createdAt msgs).
  set (n := Z.of_nat (length msgs)).
  assert (Hlen : length sorted = length msgs) by apply Permutation_length, sort_by_createdAt_perm.
  pose proof (ceil_div_spec n lim ltac:(lia) ltac:(lia)) as Hc.
  pose proof (ceil_div_nonneg n lim ltac:(lia) ltac:(lia)) as Hc0.
  assert (HN : Z.of_nat N = ceil_div n lim) by (unfold N; fold n; lia).
  split.
  - exists (map (fun k => mkPaginated (take (Z.to_nat lim) (drop (k * Z.to_nat lim) sorted))
                           (make_pagination (Z.of_nat k + 1) lim n)) (seq 0 N)).
    split; [|split].
    + rewrite map_map. apply map_ext_in. intros k _.
      rewrite getMessages_page by (lia || exact Hf). fold msgs sorted n.
      replace ((Z.of_nat k + 1 - 1) * lim) with (Z.of_nat k * lim) by ring.
      rewrite Z2Nat.inj_mul, Nat2Z.id by lia. reflexivity.
    + apply Forall_fmap, Forall_forall. intros k _. rewrite HN. reflexivity.
    + rewrite map_map. simpl. rewrite concat_pages. apply take_ge.
      rewrite Hlen. unfold n in Hc. nia.
  - intros page Hp. rewrite getMessages_page by (lia || exact Hf). fold msgs sorted n.
    eexists. split; [reflexivity|]. simpl. split.
    + rewrite drop_ge; [by destruct (Z.to_nat lim)|]. rewrite Hlen. unfold n in Hc. nia.
    + apply Z.ltb_ge. lia.
Qed.

Lemma getMessages_pages_partition_witness :
  let msgs := session_messages "s12" db_s12 in
  let N := Z.to_nat (ceil_div (Z.of_nat (length msgs)) 5) in
  (exists ps : list (PaginatedResult ChatMessage),
     map (fun k => getMessages "s12" (Some (Z.of_nat k + 1)) (Some 5) (mkWorld db_s12 [] 0 []))
       (seq 0 N) = map (fun p => (Ok p, mkWorld db_s12 [] 0 [])) ps /\
     Forall (fun p => pg_totalPages (pagination p) = Z.of_nat N) ps /\
     concat (map data ps) = sort_by_createdAt msgs) /\
  (forall page, Z.of_nat N < page ->
     exists p, getMessages "s12" (Some page) (Some 5) (mkWorld db_s12 [] 0 []) =
                 (Ok p, mkWorld db_s12 [] 0 []) /\
               data p = [] /\ pg_hasNext (pagination p) = false).
Proof.
  exact (getMessages_pages_partition "s12" 5 (mkWorld db_s12 [] 0 []) ltac:(lia) eq_refl).
Defined.

(** *** Batch inserts of [createMessages] *)

Lemma find_message_snoc (i : string) (cs : gmap string ChatSession) (l : list ChatMessage)
    (m : ChatMessage) :
  find_message i (mkDb cs (l ++ [m])) =
  match find_message i (mkDb cs l) with
  | Some y => Some y
  | None => if String.eqb (msg_id m) i then Some m else None
  end.
Proof.
  unfold find_message. simpl. induction l as [|y l IH]; simpl.
  - destruct (String.eqb (msg_id m) i); reflexivity.
  - destruct (String.eqb (msg_id y) i); [reflexivity|exact IH].
Qed.

Lemma find_message_app_some (i : string) (cs cs' : gmap string ChatSession)
    (l l2 : list ChatMessage) (y : ChatMessage) :
  find_message i (mkDb cs l) = Some y -> find_message i (mkDb cs' (l ++ l2)) = Some y.
Proof.
  unfold find_message. simpl. induction l as [|z l IH]; simpl; [discriminate|].
  destruct (String.eqb (msg_id z) i); [exact (fun h => h)|exact IH].
Qed.

Lemma insert_many_fresh (ms : list ChatMessage) :
  forall db, NoDup (map msg_id ms) ->
  Forall (fun m => find_message (msg_id m) db = None) ms ->
  insert_many ms db = (mkDb (chatSessions db) (chatMessages db ++ ms), ms, None).
Proof.
  induction ms as [|m r IH]; intros db Hnd Hf; simpl.
  - rewrite app_nil_r. destruct db; reflexivity.
  - apply NoDup_cons in Hnd as [Hm Hnd]. apply Forall_cons in Hf as [Hfm Hf].
    destruct db as [cs msgs]. unfold insert_message. rewrite Hfm.
    rewrite IH; [simpl; rewrite <- app_assoc; reflexivity|exact Hnd|].
    apply Forall_forall. intros x Hx. simpl. rewrite find_message_snoc.
    rewrite (proj1 (Forall_forall _ _) Hf x Hx).
    destruct (String.eqb (msg_id m) (msg_id x)) eqn:E; [|reflexivity].
    apply String.eqb_eq in E. exfalso. apply Hm. rewrite E.
    apply list_elem_of_fmap_2. exact Hx.
Qed.

Lemma insert_many_app (ms1 ms2 : list ChatMessage) :
  forall db d1 ins1, insert_many ms1 db = (d1, ins1, None) ->
  insert_many (ms1 ++ ms2) db =
  let '(d, ins, e) := insert_many ms2 d1 in (d, (ins1 ++ ins)%list, e).
Proof.
  induction ms1 as [|m r IH]; intros db d1 ins1 H; simpl in *.
  - injection H as <- <-. destruct (insert_many ms2 db) as [[d ins] e]; reflexivity.
  - destruct (insert_message m db) as [db'|]; [|discriminate].
    destruct (insert_many r db') as [[d ins] e] eqn:E. injection H as <- <- ->.
    rewrite (IH db' d ins E). destruct (insert_many ms2 d) as [[d2 ins2] e2]. reflexivity.
Qed.

Lemma insert_many_first_dup (m : ChatMessage) (r : list ChatMessage) (db : Db) (y : ChatMessage) :
  find_message (msg_id m) db = Some y -> insert_many (m :: r) db = (db, [], Some duplicate_key).
Proof. intros H. simpl. unfold insert_message. rewrite H. reflexivity. Qed.

Lemma message_docs_ids (ts : Z) (batch : list MessageData) :
  map msg_id (message_docs ts batch) = map md_id batch.
Proof. unfold message_docs. rewrite map_map. reflexivity. Qed.

Lemma message_docs_fresh (ts : Z) (batch : list MessageData) (db : Db) :
  Forall (fun md => find_message (md_id md) db = None) batch ->
  Forall (fun m => find_message (msg_id m) db = None) (message_docs ts batch).
Proof. intros H. unfold message_docs. apply Forall_map. exact H. Qed.

Lemma db_insert_many_nonempty (ms : list ChatMessage) :
  ms <> [] -> db_insert_many ms = db_insert_many_batch ms.
Proof. destruct ms; [congruence|reflexivity]. Qed.

Lemma message_docs_nonempty (ts : Z) (batch : list MessageData) :
  batch <> [] -> message_docs ts batch <> [].
Proof. destruct batch; simpl; congruence. Qed.

(** X5: [createMessages] on a non-empty batch whose ids are distinct and
    not yet stored, with a store that answers, succeeds on its first
    attempt: every document carries the one timestamp read, the
    documents are appended to [chatMessages] in batch order, each insert
    is acknowledged once, and the clock is read once.  On an empty batch
    every attempt is refused by the driver before any store call, and
    after three attempts and their backoffs the call rejects with that
    error, the store unchanged. *)
Theorem createMessages_fresh_batch (batch : list MessageData) (w : World) :
  createMessages [] w =
  (Throw empty_batch,
   mkWorld (w_db w) (w_faults w) (w_clock w + 3)
     (w_trace w ++ [EvRetryFailed 1 3 empty_batch; EvSleep 1000; EvRetryFailed 2 3 empty_batch;
                    EvSleep 2000; EvRetryFailed 3 3 empty_batch])) /\
  (batch <> [] -> w_faults w = [] -> NoDup (map md_id batch) ->
   Forall (fun md => find_message (md_id md) (w_db w) = None) batch ->
   createMessages batch w =
   (Ok (message_docs (w_clock w) batch),
    mkWorld (mkDb (chatSessions (w_db w)) (chatMessages (w_db w) ++ message_docs (w_clock w) batch))
      [] (w_clock w + 1) (w_trace w ++ map EvStored (message_docs (w_clock w) batch)))).
Proof.
  destruct w as [db fs clk tr]. split.
  - unfold createMessages, with_retry_default, withRetry. simpl.
    unfold bind, now, ret, log, throw. simpl. rewrite <- !app_assoc.
    replace (clk + 1 + 1 + 1) with (clk + 3) by lia. reflexivity.
  - simpl. intros Hne Hf Hnd Hfr. subst fs.
    unfold createMessages, with_retry_default, withRetry. simpl.
    unfold bind, now, ret. simpl.
    rewrite (db_insert_many_nonempty _ (message_docs_nonempty clk batch Hne)).
    unfold db_insert_many_batch. simpl.
    rewrite insert_many_fresh; [reflexivity| |apply message_docs_fresh, Hfr].
    rewrite message_docs_ids. exact Hnd.
Qed.

Lemma createMessages_fresh_batch_witness :
  createMessages [md_m1; md_agent_m2] w_s1_active =
  (Ok (message_docs (w_clock w_s1_active) [md_m1; md_agent_m2]),
   mkWorld (mkDb (chatSessions (w_db w_s1_active))
                 (chatMessages (w_db w_s1_active) ++ message_docs (w_clock w_s1_active) [md_m1; md_agent_m2]))
     [] (w_clock w_s1_active + 1)
     (w_trace w_s1_active ++ map EvStored (message_docs (w_clock w_s1_active) [md_m1; md_agent_m2]))).
Proof.
  assert (Hnd : NoDup (map md_id [md_m1; md_agent_m2]))
    by (refine (bool_decide_unpack _ _); vm_compute; exact I).
  exact (proj2 (createMessages_fresh_batch [md_m1; md_agent_m2] w_s1_active) ltac:(discriminate)
           eq_refl Hnd ltac:(repeat constructor)).
Defined.

Lemma find_message_app_none (i : string) (cs : gmap string ChatSession) (l l2 : list ChatMessage) :
  find_message i (mkDb cs l) = None ->
  find_message i (mkDb cs (l ++ l2)) = find_message i (mkDb cs l2).
Proof.
  unfold find_message. simpl. induction l as [|z l IH]; simpl; [reflexivity|].
  destruct (String.eqb (msg_id z) i); [discriminate|exact IH].
Qed.

(** X6: [createMessages] is not atomic.  For a batch [pre ++ x :: post]
    whose prefix [pre] is fresh (distinct ids, none stored) and whose
    document [x] has an id already stored, with a store that answers,
    the ordered [insertMany] stores the documents of [pre] and stops at
    [x]; the retry wrapper then runs two more attempts, each refused at
    its first document, and throws the duplicate key error.  The
    documents of [pre] stay in the store (with the first attempt's
    timestamp) although the call failed. *)
Theorem createMessages_partial_batch (pre : list MessageData) (x : MessageData)
    (post : list MessageData) (w : World) :
  w_faults w = [] -> NoDup (map md_id pre) ->
  Forall (fun md => find_message (md_id md) (w_db w) = None) pre ->
  is_Some (find_message (md_id x) (w_db w)) ->
  createMessages (pre ++ x :: post) w =
  (Throw duplicate_key,
   mkWorld (mkDb (chatSessions (w_db w)) (chatMessages (w_db w) ++ message_docs (w_clock w) pre))
     [] (w_clock w + 3)
     (w_trace w ++ map EvStored (message_docs (w_clock w) pre)
        ++ [EvRetryFailed 1 3 duplicate_key; EvSleep 1000; EvRetryFailed 2 3 duplicate_key;
            EvSleep 2000; EvRetryFailed 3 3 duplicate_key])%list).
Proof.
  destruct w as [[cs msgs] fs clk tr]. simpl. intros Hf Hnd Hfr [y Hy]. subst fs.
  set (db1 := mkDb cs (msgs ++ message_docs clk pre)).
  assert (Hfresh : insert_many (message_docs clk pre) (mkDb cs msgs) = (db1, message_docs clk pre, None)).
  { rewrite insert_many_fresh; [reflexivity| |apply message_docs_fresh, Hfr].
    rewrite message_docs_ids. exact Hnd. }
  assert (Hdup : forall ts, insert_many (message_docs ts (pre ++ x :: post)) db1 =
                            (db1, [], Some duplicate_key)).
  { intros ts. destruct pre as [|p pre'].
    - simpl. eapply insert_many_first_dup. unfold db1. apply (find_message_app_some _ cs cs). exact Hy.
    - simpl. eapply insert_many_first_dup. simpl. unfold db1.
      rewrite find_message_app_none by (apply Forall_cons in Hfr as [Hp _]; exact Hp).
      simpl. unfold find_message. simpl. rewrite String.eqb_refl. reflexivity. }
  assert (Hx : insert_many (message_docs clk (x :: post)) db1 = (db1, [], Some duplicate_key)).
  { eapply insert_many_first_dup. unfold db1. apply (find_message_app_some _ cs cs). exact Hy. }
  unfold createMessages.
  set (op := (let* ts := now in
              let docs := message_docs ts (pre ++ x :: post) in
              let* _ := db_insert_many docs in ret docs) : M (list ChatMessage)).
  assert (Hop1 : op (mkWorld (mkDb cs msgs) [] clk tr) =
    (Throw duplicate_key, mkWorld db1 [] (clk + 1) (tr ++ map EvStored (message_docs clk pre))%list)).
  { unfold op, bind, now, ret. cbn [w_db w_faults w_clock w_trace].
    rewrite db_insert_many_nonempty
      by (apply message_docs_nonempty; destruct pre; simpl; congruence).
    unfold db_insert_many_batch. cbn [w_db w_faults w_clock w_trace].
    unfold message_docs at 1. rewrite map_app.
    fold (message_docs clk pre) (message_docs clk (x :: post)).
    rewrite (insert_many_app _ _ _ _ _ Hfresh), Hx. simpl. rewrite app_nil_r. reflexivity. }
  assert (Hop2 : forall c t, op (mkWorld db1 [] c t) =
                             (Throw duplicate_key, mkWorld db1 [] (c + 1) (t ++ [])%list)).
  { intros c t. unfold op, bind, now, ret. cbn [w_db w_faults w_clock w_trace].
    rewrite db_insert_many_nonempty
      by (apply message_docs_nonempty; destruct pre; simpl; congruence).
    unfold db_insert_many_batch. cbn [w_db w_faults w_clock w_trace].
    rewrite Hdup. reflexivity. }
  rewrite with_retry_default_unrolled. unfold three_attempts, add_events.
  rewrite Hop1. cbn [w_db w_faults w_clock w_trace]. rewrite Hop2.
  cbn [w_db w_faults w_clock w_trace]. rewrite Hop2. cbn [w_db w_faults w_clock w_trace].
  rewrite !app_nil_r, <- !app_assoc. simpl. replace (clk + 1 + 1 + 1) with (clk + 3) by lia. reflexivity.
Qed.

Lemma createMessages_partial_batch_witness :
  let w1 := snd (send_message md_m1 w_s1_active) in
  createMessages ([md_agent_m2] ++ md_m1 :: []) w1 =
  (Throw duplicate_key,
   mkWorld (mkDb (chatSessions (w_db w1)) (chatMessages (w_db w1) ++ message_docs (w_clock w1) [md_agent_m2]))
     [] (w_clock w1 + 3)
     (w_trace w1 ++ map EvStored (message_docs (w_clock w1) [md_agent_m2])
        ++ [EvRetryFailed 1 3 duplicate_key; EvSleep 1000; EvRetryFailed 2 3 duplicate_key;
            EvSleep 2000; EvRetryFailed 3 3 duplicate_key])%list).
Proof.
  exact (createMessages_partial_batch [md_agent_m2] md_m1 [] (snd (send_message md_m1 w_s1_active))
           ltac:(vm_compute; reflexivity)
           ltac:(repeat constructor; vm_compute; intros H; inversion H)
           ltac:(repeat constructor)
           ltac:(vm_compute; eexists; reflexivity)).
Defined.

(** *** Search through [searchSessions] and through [getSessions] *)

Lemma filter_orb_length {B} (a b : B -> bool) (l : list B) :
  length (filter (fun x => a x || b x) l) =
  (length (filter a l) + length (filter (fun x => negb (a x) && b x) l))%nat.
Proof.
  induction l as [|x l IH]; [reflexivity|].
  rewrite !filter_cons_bool. destruct (a x), (b x); simpl; rewrite IH; lia.
Qed.

Lemma filter_ext_bool {B} (p q : B -> bool) (l : list B) :
  (forall x, p x = q x) -> filter p l = filter q l.
Proof.
  intros H. induction l as [|x l IH]; [reflexivity|].
  rewrite !filter_cons_bool, H, IH. reflexivity.
Qed.

Lemma base_match_search_term (regex_i : string -> string -> bool) (t : string) (s : ChatSession) :
  t <> "" ->
  base_match regex_i (search_term_filter t) s =
  search_match regex_i t s || regex_opt regex_i t (agentName s).
Proof.
  intros Ht. unfold base_match, search_term_filter, search_match. simpl.
  apply String.eqb_neq in Ht. rewrite Ht.
  destruct (regex_i t (userName s)), (regex_i t (userEmail s)),
    (regex_opt regex_i t (agentName s)), (regex_i t (initialMessage s)); reflexivity.
Qed.

(** X7: for a non-empty term [t], the total that [getSessions] reports
    for the filter [searchTerm = t] alone exceeds the total of
    [searchSessions t] by exactly the number of sessions matched only
    through [agentName]: [searchSessions] matches [userName],
    [userEmail] and [initialMessage], [getSessions] also [agentName]. *)
Theorem search_totals_differ_by_agentName (regex_i : string -> string -> bool)
    (ms1 ms2 : string -> Z -> list SessionOut -> list SessionOut) (db : Db) (t : string)
    (o : PaginationOptions) :
  t <> "" ->
  pg_total (pagination (getSessions_body regex_i ms1 db (search_term_filter t) o)) =
  pg_total (pagination (searchSessions_body regex_i ms2 db t o)) +
  Z.of_nat (length (filter (fun s => negb (search_match regex_i t s) && regex_opt regex_i t (agentName s))
                      (all_sessions db))).
Proof.
  intros Ht. unfold getSessions_body, searchSessions_body. simpl.
  rewrite (filter_ext_bool _ (fun s => search_match regex_i t s || regex_opt regex_i t (agentName s)))
    by (intros s; apply base_match_search_term, Ht).
  rewrite filter_orb_length. lia.
Qed.

Lemma search_totals_differ_by_agentName_witness :
  pg_total (pagination (getSessions_body String.eqb (fun _ _ l => l) db_s1_active (search_term_filter "Agent")
                          (mkOptions None None None None))) =
  pg_total (pagination (searchSessions_body String.eqb (fun _ _ l => l) db_s1_active "Agent"
                          (mkOptions None None None None))) +
  Z.of_nat (length (filter (fun s => negb (search_match String.eqb "Agent" s)
                                     && regex_opt String.eqb "Agent" (agentName s))
                      (all_sessions db_s1_active))).
Proof.
  exact (search_totals_differ_by_agentName String.eqb (fun _ _ l => l) (fun _ _ l => l) db_s1_active
           "Agent" (mkOptions None None None None) ltac:(discriminate)).
Defined.

(** *** The analytics summary *)

Lemma status_str_eqb (a b : Status) : String.eqb (status_str a) (status_str b) = status_eqb a b.
Proof. destruct a, b; reflexivity. Qed.

(** The sessions of a [$group] key and the sum of their durations. *)
Definition group_of (k : string) (l : list ChatSession) : list ChatSession :=
  filter (fun s => String.eqb (status_str (status s)) k) l.

Definition sum_durations (l : list ChatSession) : Z :=
  fold_right (fun s a => duration s + a) 0 l.

Lemma fold_group_add_lookup (l : list ChatSession) :
  forall (acc : gmap string (Z * Z)) (k : string),
  fold_left group_add l acc !! k =
  match acc !! k with
  | Some (c, t) => Some (c + Z.of_nat (length (group_of k l)), t + sum_durations (group_of k l))
  | None => if (length (group_of k l) =? 0)%nat then None
            else Some (Z.of_nat (length (group_of k l)), sum_durations (group_of k l))
  end.
Proof.
  induction l as [|s l IH]; intros acc k; simpl.
  - destruct (acc !! k) as [[c t]|]; [|reflexivity]. simpl. do 2 f_equal; lia.
  - rewrite IH. unfold group_of. rewrite filter_cons_bool. fold (group_of k l).
    unfold group_add.
    destruct (String.eqb (status_str (status s)) k) eqn:E.
    + apply String.eqb_eq in E. subst k.
      destruct (acc !! status_str (status s)) as [[c t]|]; rewrite lookup_insert_eq;
        simpl; unfold sum_durations; simpl; fold (sum_durations (group_of (status_str (status s)) l));
        do 2 f_equal; lia.
    + apply String.eqb_neq in E.
      destruct (acc !! status_str (status s)) as [[c t]|]; rewrite lookup_insert_ne by exact E;
        reflexivity.
Qed.

Definition sum_counts (l : list (string * (Z * Z))) : Z :=
  fold_right (fun kv a => kv.2.1 + a) 0 l.

Lemma sum_counts_perm (l1 l2 : list (string * (Z * Z))) : l1 ≡ₚ l2 -> sum_counts l1 = sum_counts l2.
Proof. induction 1; simpl; lia. Qed.

Lemma sum_counts_group_add (acc : gmap string (Z * Z)) (s : ChatSession) :
  sum_counts (map_to_list (group_add acc s)) = sum_counts (map_to_list acc) + 1.
Proof.
  unfold group_add. set (k := status_str (status s)).
  destruct (acc !! k) as [[c t]|] eqn:E.
  - rewrite <- insert_delete_eq.
    rewrite (sum_counts_perm _ _ (map_to_list_insert _ _ _ (lookup_delete_eq acc k))).
    rewrite <- (sum_counts_perm _ _ (map_to_list_delete acc k (c, t) E)). simpl. lia.
  - rewrite (sum_counts_perm _ _ (map_to_list_insert _ _ _ E)). simpl. lia.
Qed.

Lemma sum_counts_fold (l : list ChatSession) :
  forall acc, sum_counts (map_to_list (fold_left group_add l acc)) =
              sum_counts (map_to_list acc) + Z.of_nat (length l).
Proof.
  induction l as [|s l IH]; intros acc; simpl; [lia|].
  rewrite IH, sum_counts_group_add. lia.
Qed.

Lemma fold_left_add_Z {B} (g : B -> Z) (l : list B) :
  forall a, fold_left (fun acc x => acc + g x) l a = a + fold_right (fun x acc => g x + acc) 0 l.
Proof. induction l as [|x l IH]; intros a; simpl; [lia|]. rewrite IH. lia. Qed.

Definition stat_of (kv : string * (Z * Z)) : SessionStat :=
  let '(k, (c, t)) := kv in mkSessionStat k c (inject_Z t / inject_Z c)%Q.

Lemma getSessionStats_body_map (dateFrom dateTo : option string) (db : Db) :
  getSessionStats_body dateFrom dateTo db =
  map stat_of (map_to_list (fold_left group_add
                 (filter (in_date_range dateFrom dateTo) (all_sessions db)) ∅)).
Proof. reflexivity. Qed.

Lemma stat_counts (l : list (string * (Z * Z))) :
  fold_right (fun st a => st_count st + a) 0 (map stat_of l) = sum_counts l.
Proof. induction l as [|[k [c t]] l IH]; simpl; [reflexivity|]. rewrite IH. reflexivity. Qed.

Lemma stat_ids (l : list (string * (Z * Z))) : map st_id (map stat_of l) = map fst l.
Proof. induction l as [|[k [c t]] l IH]; simpl; [reflexivity|]. rewrite IH. reflexivity. Qed.

Section ByStatus.

Variable V : SessionStat -> Z * Z.

Definition put_stats (l : list SessionStat) (acc : gmap string (Z * Z)) : gmap string (Z * Z) :=
  fold_left (fun acc st => <[st_id st := V st]> acc) l acc.

Lemma put_stats_notin (l : list SessionStat) :
  forall acc k, k ∉ map st_id l -> put_stats l acc !! k = acc !! k.
Proof.
  unfold put_stats. induction l as [|x l IH]; intros acc k Hk; simpl; [reflexivity|].
  rewrite IH by (intros H; apply Hk; simpl; apply list_elem_of_further, H).
  apply lookup_insert_ne. intros E. apply Hk. rewrite <- E. simpl. apply list_elem_of_here.
Qed.

Lemma put_stats_in (l : list SessionStat) :
  forall acc st, NoDup (map st_id l) -> st ∈ l -> put_stats l acc !! st_id st = Some (V st).
Proof.
  induction l as [|x l IH]; intros acc st Hnd Hin; [by apply elem_of_nil in Hin|].
  simpl in Hnd. apply NoDup_cons in Hnd as [Hx Hnd].
  apply elem_of_cons in Hin as [->|Hin].
  - unfold put_stats. simpl. fold (put_stats l (<[st_id x := V x]> acc)).
    rewrite put_stats_notin by exact Hx. apply lookup_insert_eq.
  - unfold put_stats. simpl. fold (put_stats l (<[st_id x := V x]> acc)).
    apply IH; assumption.
Qed.

End ByStatus.

(** X8: when the query passes validation (each date accepted by
    [z.string().datetime()], [groupBy] one of day, week, month; with both
    dates, [dateFrom] before [dateTo] and a range of at most 365 days)
    and the store answers, [GET /api/analytics/sessions] answers [200]
    without touching the world; [summary.total] is the number of sessions
    whose stored [createdAt] string lies between the [dateFrom] and
    [dateTo] strings in string order, and for each status
    [byStatus[status]] is absent when no such session has that status,
    and otherwise holds their number and their mean duration
    [updatedAt - createdAt] rounded by [Math.round]. *)
Theorem analytics_summary (is_datetime : string -> bool) (date_ms : string -> option Z)
    (q : AnalyticsQuery) (w : World) :
  date_ok is_datetime (aq_dateFrom q) = true -> date_ok is_datetime (aq_dateTo q) = true ->
  existsb (String.eqb (default "day" (aq_groupBy q))) ["day"; "week"; "month"] = true ->
  (forall f t a b, aq_dateFrom q = Some f -> aq_dateTo q = Some t -> f <> "" -> t <> "" ->
     date_ms f = Some a -> date_ms t = Some b -> a < b <= a + analytics_max_range) ->
  w_faults w = [] ->
  let sel := filter (in_date_range (aq_dateFrom q) (aq_dateTo q)) (all_sessions (w_db w)) in
  exists sm : StatsSummary,
    get_analytics_sessions is_datetime date_ms q w =
      (Ok (ApiSuccess 200 (sm, (aq_dateFrom q, aq_dateTo q, default "day" (aq_groupBy q)))), w) /\
    sm_total sm = Z.of_nat (length sel) /\
    forall st : Status,
      let g := filter (fun s => status_eqb (status s) st) sel in
      sm_byStatus sm !! status_str st =
        if (length g =? 0)%nat then None
        else Some (Z.of_nat (length g),
                   js_round (inject_Z (sum_durations g) / inject_Z (Z.of_nat (length g)))%Q).
Proof.
  destruct q as [df dt gb]. destruct w as [db fs clk tr]. intros Hdf Hdt Hg Hr Hf sel.
  cbn [aq_dateFrom aq_dateTo aq_groupBy w_db w_faults w_clock w_trace] in *. subst fs.
  set (G := fold_left group_add sel ∅).
  set (stats := map stat_of (map_to_list G)).
  set (V := fun st => (st_count st, js_round (st_avgDuration st))).
  exists (mkStatsSummary (fold_left (fun acc st => acc + st_count st) stats 0) (put_stats V stats ∅)).
  split; [|split].
  - unfold get_analytics_sessions, withErrorHandling. cbn [aq_groupBy aq_dateFrom aq_dateTo].
    rewrite Hdf, Hdt, Hg. simpl.
    assert (Hre : (if truthy_str df && truthy_str dt then
                     match date_ms (default "" df), date_ms (default "" dt) with
                     | Some f, Some t =>
                         if t <=? f then Some "dateFrom must be before dateTo"
                         else if analytics_max_range <? t - f then Some "Date range cannot exceed 1 year"
                         else None
                     | _, _ => None
                     end
                   else None) = None).
    { destruct df as [f|], dt as [t|]; simpl; rewrite ?andb_false_r; try reflexivity.
      destruct (String.eqb f "") eqn:Ef; [reflexivity|].
      destruct (String.eqb t "") eqn:Et; [reflexivity|]. simpl.
      apply String.eqb_neq in Ef, Et.
      destruct (date_ms f) as [a|] eqn:Ea, (date_ms t) as [b|] eqn:Eb; try reflexivity.
      specialize (Hr f t a b eq_refl eq_refl Ef Et Ea Eb).
      rewrite (proj2 (Z.leb_gt b a)) by lia.
      rewrite (proj2 (Z.ltb_ge analytics_max_range (b - a))) by lia. reflexivity. }
    rewrite Hre. reflexivity.
  - simpl. rewrite fold_left_add_Z. unfold stats. rewrite stat_counts.
    unfold G. rewrite sum_counts_fold, map_to_list_empty. simpl. lia.
  - intros st. set (g := filter (fun s => status_eqb (status s) st) sel). simpl.
    assert (Hg' : group_of (status_str st) sel = g)
      by (apply filter_ext_bool; intros s; apply status_str_eqb).
    pose proof (fold_group_add_lookup sel ∅ (status_str st)) as HG.
    rewrite lookup_empty, Hg' in HG. change (fold_left group_add sel ∅) with G in HG.
    assert (Hnd : NoDup (map st_id stats))
      by (unfold stats; rewrite stat_ids; apply NoDup_fst_map_to_list).
    destruct (length g =? 0)%nat.
    + rewrite put_stats_notin; [apply lookup_empty|].
      unfold stats. rewrite stat_ids. intros Hin.
      apply list_elem_of_fmap in Hin as [[k v] [Hk Hin]]. simpl in Hk. subst k.
      apply elem_of_map_to_list in Hin. congruence.
    + apply elem_of_map_to_list in HG.
      apply (list_elem_of_fmap_2 stat_of) in HG.
      exact (put_stats_in V stats ∅ _ Hnd HG).
Qed.

Lemma analytics_summary_witness :
  let q := mkAnalyticsQuery (Some "2024-01-01T00:00:00Z") (Some "2024-01-02T00:00:00Z") None in
  let sel := filter (in_date_range (aq_dateFrom q) (aq_dateTo q)) (all_sessions (w_db w_day)) in
  exists sm : StatsSummary,
    get_analytics_sessions (fun _ => true) day_ms q w_day =
      (Ok (ApiSuccess 200 (sm, (aq_dateFrom q, aq_dateTo q, default "day" (aq_groupBy q)))), w_day) /\
    sm_total sm = Z.of_nat (length sel) /\
    forall st : Status,
      let g := filter (fun s => status_eqb (status s) st) sel in
      sm_byStatus sm !! status_str st =
        if (length g =? 0)%nat then None
        else Some (Z.of_nat (length g),
                   js_round (inject_Z (sum_durations g) / inject_Z (Z.of_nat (length g)))%Q).
Proof.
  exact (analytics_summary (fun _ => true) day_ms
           (mkAnalyticsQuery (Some "2024-01-01T00:00:00Z") (Some "2024-01-02T00:00:00Z") None) w_day
           eq_refl eq_refl eq_refl
           ltac:(intros f t a b Hf Ht _ _ Ha Hb; injection Hf as <-; injection Ht as <-;
                 vm_compute in Ha, Hb; injection Ha as <-; injection Hb as <-;
                 unfold analytics_max_range; lia)
           eq_refl).
Defined.

(** *** The rate limiter over a window *)

Lemma rateLimit_other (cfg : RateLimitConfig) (k k' : string) (t : Z) (store : gmap string RateEntry) :
  k' <> k ->
  snd (rateLimit cfg k' t store) !! k = filter (fun kv => t <= re_resetTime kv.2) store !! k.
Proof.
  intros Hk. unfold rateLimit.
  destruct (filter (fun kv => t <= re_resetTime kv.2) store !! k') as [cur|].
  - destruct (re_resetTime cur <? t); [|destruct (maxRequests cfg <=? re_count cur)];
      simpl; try apply lookup_insert_ne; congruence.
  - simpl. apply lookup_insert_ne. congruence.
Qed.

Lemma rate_run_window (cfg : RateLimitConfig) (k : string) (tend : Z) (reqs : list (string * Z)) :
  forall (c : Z) (store : gmap string RateEntry),
  1 <= c <= Z.max 1 (maxRequests cfg) ->
  store !! k = Some (mkRateEntry c tend) ->
  Forall (fun kt => kt.2 <= tend) reqs ->
  allowed_for k (fst (run_rate_limit cfg reqs store)) =
    Nat.min (requests_of k reqs) (Z.to_nat (Z.max 1 (maxRequests cfg) - c)) /\
  snd (run_rate_limit cfg reqs store) !! k =
    Some (mkRateEntry (c + Z.of_nat (allowed_for k (fst (run_rate_limit cfg reqs store)))) tend).
Proof.
  induction reqs as [|[k' t] r IH]; intros c store Hc Hs Hf.
  - simpl. unfold allowed_for, requests_of. simpl. split; [lia|]. rewrite Hs. do 2 f_equal. lia.
  - apply Forall_cons in Hf as [Ht Hf]. simpl in Ht.
    assert (H1 : filter (fun kv => t <= re_resetTime kv.2) store !! k = Some (mkRateEntry c tend))
      by (apply map_lookup_filter_Some; split; [exact Hs|simpl; lia]).
    cbn [run_rate_limit]. destruct (rateLimit cfg k' t store) as [d st1] eqn:Er.
    destruct (run_rate_limit cfg r st1) as [ds st2] eqn:Erun. cbn [fst snd].
    unfold allowed_for, requests_of. rewrite !filter_cons_bool. cbn [fst snd].
    fold (allowed_for k ds) (requests_of k r).
    destruct (String.eqb k' k) eqn:Ek.
    + apply String.eqb_eq in Ek. subst k'.
      unfold rateLimit in Er. rewrite H1 in Er. cbn [re_resetTime re_count] in Er.
      replace (tend <? t) with false in Er by (symmetry; apply Z.ltb_ge; lia).
      destruct (maxRequests cfg <=? c) eqn:Em.
      * injection Er as <- <-. cbn [is_allow andb]. apply Z.leb_le in Em.
        destruct (IH c _ Hc H1 Hf) as [IH1 IH2]. rewrite Erun in IH1, IH2. cbn [fst snd] in IH1, IH2.
        unfold allowed_for, requests_of in *. cbn [length].
        split; [rewrite IH1; lia|exact IH2].
      * injection Er as <- <-. cbn [is_allow andb]. apply Z.leb_gt in Em.
        destruct (IH (c + 1) (<[k := mkRateEntry (c + 1) tend]> (filter (fun kv => t <= re_resetTime kv.2) store))
                    ltac:(lia) (lookup_insert_eq _ _ _) Hf) as [IH1 IH2].
        rewrite Erun in IH1, IH2. cbn [fst snd] in IH1, IH2.
        unfold allowed_for, requests_of in *. cbn [length].
        split; [rewrite IH1; lia|]. rewrite IH2. do 2 f_equal. lia.
    + apply String.eqb_neq in Ek. cbn [andb].
      assert (Hs1 : st1 !! k = Some (mkRateEntry c tend)).
      { replace st1 with (snd (rateLimit cfg k' t store)) by (rewrite Er; reflexivity).
        rewrite rateLimit_other by exact Ek. exact H1. }
      destruct (IH c st1 Hc Hs1 Hf) as [IH1 IH2]. rewrite Erun in IH1, IH2. cbn [fst snd] in IH1, IH2.
      unfold allowed_for, requests_of in *.
      split; [exact IH1|exact IH2].
Qed.

Lemma rate_first_request (cfg : RateLimitConfig) (k : string) (t0 : Z) (store : gmap string RateEntry) :
  (forall e, store !! k = Some e -> re_resetTime e < t0) ->
  rateLimit cfg k t0 store =
    (RateAllow, <[k := mkRateEntry 1 (t0 + windowMs cfg)]>
                  (filter (fun kv => t0 <= re_resetTime kv.2) store)).
Proof.
  intros He. unfold rateLimit.
  destruct (filter (fun kv => t0 <= re_resetTime kv.2) store !! k) as [cur|] eqn:E; [|reflexivity].
  apply map_lookup_filter_Some in E as [E1 E2]. apply He in E1. simpl in E2. lia.
Qed.

(** X9: a client whose previous window has expired opens a new window
    with its request at [t0]; of this request and its next requests
    within the window (at times up to [t0 + windowMs]), whatever the
    requests of other clients in between, exactly the first
    [max(1, maxRequests)] are let through and the rest are refused with
    [429]. *)
Theorem rateLimit_window_quota (cfg : RateLimitConfig) (k : string) (t0 : Z)
    (reqs : list (string * Z)) (store : gmap string RateEntry) :
  (forall e, store !! k = Some e -> re_resetTime e < t0) ->
  Forall (fun kt => kt.2 <= t0 + windowMs cfg) reqs ->
  allowed_for k (fst (run_rate_limit cfg ((k, t0) :: reqs) store)) =
    Nat.min (S (requests_of k reqs)) (Z.to_nat (Z.max 1 (maxRequests cfg))).
Proof.
  intros He Hf. cbn [run_rate_limit]. rewrite rate_first_request by exact He.
  destruct (rate_run_window cfg k (t0 + windowMs cfg) reqs 1
              (<[k := mkRateEntry 1 (t0 + windowMs cfg)]>
                 (filter (fun kv => t0 <= re_resetTime kv.2) store))
              ltac:(lia) (lookup_insert_eq _ _ _) Hf) as [H1 _].
  destruct (run_rate_limit cfg reqs _) as [ds st2]. cbn [fst snd] in *.
  unfold allowed_for, requests_of in *. rewrite filter_cons_bool, String.eqb_refl.
  cbn [fst snd andb is_allow length]. rewrite H1. lia.
Qed.

Lemma rateLimit_window_quota_witness :
  allowed_for "1.2.3.4"
    (fst (run_rate_limit (route_rate_config 2) (("1.2.3.4", 0) :: [("1.2.3.4", 5); ("5.6.7.8", 6); ("1.2.3.4", 7)]) ∅)) =
  Nat.min (S (requests_of "1.2.3.4" [("1.2.3.4", 5); ("5.6.7.8", 6); ("1.2.3.4", 7)]))
    (Z.to_nat (Z.max 1 (maxRequests (route_rate_config 2)))).
Proof.
  exact (rateLimit_window_quota (route_rate_config 2) "1.2.3.4" 0
           [("1.2.3.4", 5); ("5.6.7.8", 6); ("1.2.3.4", 7)] ∅
           ltac:(intros e He; rewrite lookup_empty in He; discriminate He) ltac:(repeat constructor; simpl; lia)).
Defined.

(** X10: the limiter's store is shared by every route and keyed by the
    client alone: after [n] requests of a client within one window, all
    let through by a route allowing at least [n], the client's next
    request in that window to a route whose [maxRequests] is at most [n]
    is refused with [429], although that route has not seen the client
    before. *)
Theorem rateLimit_store_shared (cfg1 cfg2 : RateLimitConfig) (k : string) (t0 t : Z)
    (reqs : list (string * Z)) (store : gmap string RateEntry) :
  (forall e, store !! k = Some e -> re_resetTime e < t0) ->
  Forall (fun kt => kt.2 <= t0 + windowMs cfg1) reqs ->
  t <= t0 + windowMs cfg1 ->
  Z.of_nat (S (requests_of k reqs)) <= maxRequests cfg1 ->
  maxRequests cfg2 <= Z.of_nat (S (requests_of k reqs)) ->
  allowed_for k (fst (run_rate_limit cfg1 ((k, t0) :: reqs) store)) = S (requests_of k reqs) /\
  exists retryAfter,
    fst (rateLimit cfg2 k t (snd (run_rate_limit cfg1 ((k, t0) :: reqs) store))) = RateReject retryAfter.
Proof.
  intros He Hf Ht Hm1 Hm2. cbn [run_rate_limit]. rewrite rate_first_request by exact He.
  destruct (rate_run_window cfg1 k (t0 + windowMs cfg1) reqs 1
              (<[k := mkRateEntry 1 (t0 + windowMs cfg1)]>
                 (filter (fun kv => t0 <= re_resetTime kv.2) store))
              ltac:(lia) (lookup_insert_eq _ _ _) Hf) as [H1 H2].
  destruct (run_rate_limit cfg1 reqs _) as [ds st2]. cbn [fst snd] in *.
  assert (Ha : allowed_for k ds = requests_of k reqs) by (rewrite H1; lia).
  split.
  - unfold allowed_for, requests_of in *. rewrite filter_cons_bool, String.eqb_refl.
    cbn [fst snd andb is_allow length]. rewrite Ha. reflexivity.
  - rewrite Ha in H2. unfold rateLimit.
    assert (Hk : filter (fun kv => t <= re_resetTime kv.2) st2 !! k =
                 Some (mkRateEntry (1 + Z.of_nat (requests_of k reqs)) (t0 + windowMs cfg1)))
      by (apply map_lookup_filter_Some; split; [exact H2|simpl; lia]).
    rewrite Hk. cbn [re_resetTime re_count].
    replace (t0 + windowMs cfg1 <? t) with false by (symmetry; apply Z.ltb_ge; lia).
    replace (maxRequests cfg2 <=? 1 + Z.of_nat (requests_of k reqs)) with true
      by (symmetry; apply Z.leb_le; lia).
    eexists. reflexivity.
Qed.

Lemma rateLimit_store_shared_witness :
  allowed_for "1.2.3.4"
    (fst (run_rate_limit (route_rate_config 200) (("1.2.3.4", 0) :: repeat ("1.2.3.4", 10) 49) ∅))
    = S (requests_of "1.2.3.4" (repeat ("1.2.3.4", 10) 49)) /\
  exists retryAfter,
    fst (rateLimit (route_rate_config 50) "1.2.3.4" 20
           (snd (run_rate_limit (route_rate_config 200) (("1.2.3.4", 0) :: repeat ("1.2.3.4", 10) 49) ∅)))
    = RateReject retryAfter.
Proof.
  exact (rateLimit_store_shared (route_rate_config 200) (route_rate_config 50) "1.2.3.4" 0 20
           (repeat ("1.2.3.4", 10) 49) ∅
           ltac:(intros e He; rewrite lookup_empty in He; discriminate He)
           ltac:(apply Forall_forall; intros kt Hkt; apply list_elem_of_In, repeat_spec in Hkt;
                 subst kt; simpl; lia)
           ltac:(simpl; lia) ltac:(vm_compute; discriminate) ltac:(vm_compute; discriminate)).
Defined.

(** *** Creating sessions *)

(** X11: a valid [POST /api/chat-sessions] body, with a store that
    answers, is refused with [409] and no change to the world when its id
    is taken; otherwise the session is stored with [createdAt] and
    [updatedAt] both equal to the one clock read, the answer is [201]
    with that document, and nothing is broadcast (unlike the socket
    handler [create-session]). *)
Theorem post_chat_sessions_conflict_or_create (b : CreateSessionBody) (w : World) :
  valid_create_session b = true -> w_faults w = [] ->
  (is_Some (chatSessions (w_db w) !! sd_id (cs_session b)) ->
     post_chat_sessions b w = (Ok (ApiError 409 "conflict"), w)) /\
  (chatSessions (w_db w) !! sd_id (cs_session b) = None ->
     let sd := cs_session b in
     let doc := mkSession (sd_id sd) (sd_userId sd) (sd_userEmail sd) (sd_userName sd)
                  (sd_status sd) (sd_agentId sd) (sd_agentName sd) (w_clock w) (w_clock w)
                  (sd_initialMessage sd) in
     post_chat_sessions b w =
       (Ok (ApiSuccess 201 doc),
        mkWorld (mkDb (<[sd_id sd := doc]> (chatSessions (w_db w))) (chatMessages (w_db w)))
                [] (w_clock w + 1) (w_trace w))).
Proof.
  destruct w as [[cs msgs] fs clk tr]. cbn [w_db w_faults w_clock w_trace chatSessions chatMessages].
  intros Hv Hf. subst fs.
  unfold post_chat_sessions, withErrorHandling, getSessionById, with_retry_default, withRetry.
  rewrite Hv. simpl. unfold bind, db_call, find_session, ret, throw. simpl.
  split.
  - intros [s Hs]. rewrite Hs. reflexivity.
  - intros Hs. rewrite Hs. unfold createSession, with_retry_default, withRetry.
    simpl. unfold bind, now, db_insert_session, ret. simpl. rewrite Hs. reflexivity.
Qed.

Definition body_s2 : CreateSessionBody :=
  mkCreateSessionBody (mkSessionData "s2" "u2" "ann@example.com" "Ann" Waiting None None "Hello") "v".

Lemma post_chat_sessions_conflict_or_create_witness :
  post_chat_sessions body_s2 w_s1_active =
    (Ok (ApiSuccess 201 (mkSession "s2" "u2" "ann@example.com" "Ann" Waiting None None 10 10 "Hello")),
     mkWorld (mkDb (<["s2" := mkSession "s2" "u2" "ann@example.com" "Ann" Waiting None None 10 10 "Hello"]>
                      (chatSessions db_s1_active)) [])
             [] 11 []).
Proof.
  exact (proj2 (post_chat_sessions_conflict_or_create body_s2 w_s1_active eq_refl eq_refl)
           ltac:(vm_compute; reflexivity)).
Defined.

(** A property of one session key of the store. *)
Definition key_is (k : string) (s : ChatSession) : World -> Prop :=
  on_store (fun db _ => chatSessions db !! k = Some s).

Lemma key_is_insert_session (k : string) (s d : ChatSession) :
  preserves (key_is k s) (db_insert_session d).
Proof.
  intros w H. unfold key_is, on_store in *. unfold db_insert_session.
  destruct (w_faults w) as [|[|] fs]; try exact H;
    destruct (chatSessions (w_db w) !! id d) eqn:E; try exact H; simpl;
    rewrite lookup_insert_ne; [exact H| |exact H|]; congruence.
Qed.

Ltac key_prim :=
  idtac; match goal with
  | |- preserves _ (emit _ _) => let w := fresh "w" in let H := fresh "H" in intros w H; exact H
  | |- preserves _ (log _) => let w := fresh "w" in let H := fresh "H" in intros w H; exact H
  | |- preserves _ (db_insert_session _) => apply key_is_insert_session
  end.

(** X12: none of the three ways of creating a session (the socket
    handler [create-session], [ChatService.createSession] and
    [POST /api/chat-sessions]) ever replaces a stored session: whatever
    the store faults, a session stored under any id is still stored,
    unchanged, afterwards. *)
Theorem create_paths_keep_sessions (k : string) (s : ChatSession) :
  (forall sd, preserves (key_is k s) (create_session sd)) /\
  (forall sd, preserves (key_is k s) (createSession sd)) /\
  (forall b, preserves (key_is k s) (post_chat_sessions b)).
Proof.
  unfold create_session, createSession, post_chat_sessions, getSessionById, createSession.
  unfold key_is. split; [|split]; intros; pres_with key_prim.
Qed.

(** *** Sessions are never deleted *)

Definition key_present (k : string) : World -> Prop :=
  on_store (fun db _ => is_Some (chatSessions db !! k)).

Lemma present_db_call {A} (k : string) (f : Db -> A * Db) :
  (forall db, is_Some (chatSessions db !! k) -> is_Some (chatSessions (snd (f db)) !! k)) ->
  preserves (key_present k) (db_call f).
Proof.
  intros Hf w H. unfold key_present, on_store in *. unfold db_call.
  destruct (w_faults w) as [|[|] fs]; simpl; try exact H;
    specialize (Hf _ H); destruct (f (w_db w)); exact Hf.
Qed.

Lemma present_insert_at (k key : string) {V} (m : gmap string V) (v : V) :
  is_Some (m !! k) -> is_Some (<[key := v]> m !! k).
Proof.
  intros H. destruct (String.eqb key k) eqn:E.
  - apply String.eqb_eq in E. subst. rewrite lookup_insert_eq. eexists; reflexivity.
  - apply String.eqb_neq in E. rewrite lookup_insert_ne by exact E. exact H.
Qed.

Lemma present_update_one (k key : string) (g : ChatSession -> bool) (upd : ChatSession -> ChatSession)
    (db : Db) :
  is_Some (chatSessions db !! k) -> is_Some (chatSessions (snd (update_one key g upd db)) !! k).
Proof.
  intros H. unfold update_one. destruct (chatSessions db !! key); [|exact H].
  destruct (g c); [apply present_insert_at, H|exact H].
Qed.

Lemma present_find_one_and_update (k sid : string) (upd : ChatSession -> ChatSession) (db : Db) :
  is_Some (chatSessions db !! k) ->
  is_Some (chatSessions (snd (find_one_and_update sid upd db)) !! k).
Proof.
  intros H. unfold find_one_and_update. destruct (chatSessions db !! sid); [|exact H].
  apply present_insert_at, H.
Qed.

Lemma present_insert_message (k : string) (m : ChatMessage) :
  preserves (key_present k) (db_insert_message m).
Proof.
  intros w H. unfold key_present, on_store in *. unfold db_insert_message, insert_message.
  destruct (w_faults w) as [|[|] fs]; try exact H;
    destruct (find_message (msg_id m) (w_db w)); exact H.
Qed.

Lemma present_insert_session (k : string) (s : ChatSession) :
  preserves (key_present k) (db_insert_session s).
Proof.
  intros w H. unfold key_present, on_store in *. unfold db_insert_session.
  destruct (w_faults w) as [|[|] fs]; try exact H;
    destruct (chatSessions (w_db w) !! id s); try exact H; apply present_insert_at, H.
Qed.

Lemma insert_many_sessions (ms : list ChatMessage) :
  forall db, chatSessions (insert_many ms db).1.1 = chatSessions db.
Proof.
  induction ms as [|m r IH]; intros db; simpl; [reflexivity|].
  destruct (insert_message m db) as [db'|] eqn:E; [|reflexivity].
  pose proof (IH db') as H. destruct (insert_many r db') as [[d ins] e]. simpl in *.
  rewrite H. unfold insert_message in E. destruct (find_message (msg_id m) db); [discriminate|].
  injection E as <-. reflexivity.
Qed.

Lemma present_insert_many (k : string) (ms : list ChatMessage) :
  preserves (key_present k) (db_insert_many ms).
Proof.
  intros w H. unfold key_present, on_store in *. unfold db_insert_many.
  destruct ms as [|m r]; [exact H|]. unfold db_insert_many_batch. set (ms := m :: r).
  pose proof (insert_many_sessions ms (w_db w)) as Hs.
  destruct (w_faults w) as [|[|] fs]; try exact H;
    destruct (insert_many ms (w_db w)) as [[d ins] [e|]]; simpl in *; rewrite Hs; exact H.
Qed.

Ltac present_prim :=
  idtac; match goal with
  | |- preserves _ (emit _ _) => let w := fresh "w" in let H := fresh "H" in intros w H; exact H
  | |- preserves _ (log _) => let w := fresh "w" in let H := fresh "H" in intros w H; exact H
  | |- preserves _ (db_insert_session _) => apply present_insert_session
  | |- preserves _ (db_insert_message _) => apply present_insert_message
  | |- preserves _ (db_insert_many _) => apply present_insert_many
  | |- preserves _ (db_call (update_one _ _ _)) =>
      apply present_db_call; intros; apply present_update_one; assumption
  | |- preserves _ (db_call (fun db => (tt, snd (update_one _ _ _ db)))) =>
      apply present_db_call; intros; apply present_update_one; assumption
  | |- preserves _ (db_call (find_one_and_update _ _)) =>
      apply present_db_call; intros; apply present_find_one_and_update; assumption
  end.

Lemma present_claim_step (k : string) (tnow : Z) (db : Db) (t : ClaimThread) :
  is_Some (chatSessions db !! k) -> is_Some (chatSessions (fst (claim_step tnow db t)) !! k).
Proof.
  intros H. destruct t as [sid aid an pc]. unfold claim_step. destruct pc as [| |r]; simpl; [exact H| |exact H].
  unfold claim_write. pose proof (present_update_one k sid (fun s => status_eqb (status s) Waiting)
                                    (set_claim aid an tnow) db H) as Hu.
  destruct (update_one _ _ _ db) as [m d']. simpl in Hu.
  destruct (m =? 0)%nat; exact Hu.
Qed.

Lemma present_op_apply (k : string) (st : World * list ClaimThread) (o : Op) :
  key_present k (fst st) -> key_present k (fst (op_apply st o)).
Proof.
  destruct st as [w ts]. simpl. intros H.
  destruct o as [sd|sid aid an|i|caller sid|md|b]; simpl.
  - revert w H. fold (preserves (key_present k) (create_session sd)).
    unfold key_present, create_session. pres_with present_prim.
  - exact H.
  - destruct (ts !! i) as [t|]; [|exact H].
    pose proof (present_claim_step k (w_clock w) (w_db w) t H) as Hc.
    destruct (claim_step (w_clock w) (w_db w) t) as [d' t']. exact Hc.
  - revert w H. fold (preserves (key_present k) (close_session caller sid)).
    unfold key_present, close_session. pres_with present_prim.
  - revert w H. fold (preserves (key_present k) (send_message md)).
    unfold key_present, send_message, persist_and_broadcast. pres_with present_prim.
  - revert w H. fold (preserves (key_present k) (post_chat_messages b)).
    unfold key_present, post_chat_messages, getSessionById, createMessage. pres_with present_prim.
Qed.

(** X13: no operation removes a session: along any interleaving of the
    socket handlers, the agent-claim steps and
    [POST /api/chat-messages], and in [PUT] and [POST /api/chat-sessions],
    [createMessages] and the older [POST /api/chat-messages], whatever
    the store faults, a session id present in the store stays present. *)
Theorem sessions_never_deleted (k : string) :
  (forall (w : World) (ts : list ClaimThread) (ops : list Op),
     is_Some (chatSessions (w_db w) !! k) ->
     is_Some (chatSessions (w_db (fst (run_ops (w, ts) ops))) !! k)) /\
  (forall sid u, preserves (key_present k) (put_chat_sessions sid u)) /\
  (forall b, preserves (key_present k) (post_chat_sessions b)) /\
  (forall batch, preserves (key_present k) (createMessages batch)) /\
  (forall md, preserves (key_present k) (legacy_post_chat_messages md)).
Proof.
  split; [|split; [|split; [|split]]].
  - intros w ts ops. unfold run_ops. revert w ts.
    induction ops as [|o ops IH]; intros w ts H; cbn [fold_left]; [exact H|].
    pose proof (present_op_apply k (w, ts) o H) as H1.
    destruct (op_apply (w, ts) o) as [w' ts']. exact (IH w' ts' H1).
  - intros sid u. unfold key_present, put_chat_sessions, updateSession. pres_with present_prim.
    destruct u as [[?|] [?|] [?|]]; pres_with present_prim.
  - intros b. unfold key_present, post_chat_sessions, getSessionById, createSession.
    pres_with present_prim.
  - intros batch. unfold key_present, createMessages. pres_with present_prim.
  - intros md. unfold key_present, legacy_post_chat_messages. pres_with present_prim.
Qed.

(** *** The socket [send-message] and [close-session] handlers *)

Lemma status_not_closed (s : ChatSession) :
  status s <> Closed -> status_eqb (status s) Closed = false.
Proof. destruct (status s); simpl; congruence. Qed.

(** X14: a fresh message sent through the socket handler to an existing
    session that is not closed is appended to the store with the server
    time, announced once to the session's room, and the session's
    [updatedAt] is set to that same time; the clock is read once. *)
Theorem send_message_fresh_world (md : MessageData) (w : World) (s : ChatSession) :
  md_sessionId md <> "" -> md_message md <> "" -> md_sender md <> "" ->
  chatSessions (w_db w) !! md_sessionId md = Some s -> status s <> Closed ->
  find_message (md_id md) (w_db w) = None -> w_faults w = [] ->
  send_message md w =
    (Ok (SendOk (mkMessage (md_id md) (md_sessionId md) (md_sender md) (md_message md) (w_clock w)) false),
     mkWorld
       (mkDb (<[md_sessionId md := set_updatedAt (w_clock w) s]> (chatSessions (w_db w)))
             (chatMessages (w_db w) ++
              [mkMessage (md_id md) (md_sessionId md) (md_sender md) (md_message md) (w_clock w)]))
       [] (w_clock w + 1)
       (w_trace w ++
        [EvStored (mkMessage (md_id md) (md_sessionId md) (md_sender md) (md_message md) (w_clock w));
         EvEmit (md_sessionId md)
           (OutNewMessage (mkMessage (md_id md) (md_sessionId md) (md_sender md) (md_message md) (w_clock w)))])).
Proof.
  destruct w as [db fs clk tr]. simpl. intros H1 H2 H3 Hs Hc Hm Hf. subst fs.
  unfold send_message, persist_and_broadcast, catch, bind, db_call, find_session, ret, now, emit, log,
    db_insert_message, insert_message, update_one. simpl.
  apply String.eqb_neq in H1, H2, H3. rewrite H1, H2, H3. simpl.
  rewrite Hs, (status_not_closed s Hc).
  destruct (String.eqb (md_id md) "") eqn:Hid; simpl.
  - rewrite Hm. simpl. rewrite Hs. simpl. rewrite <- app_assoc. reflexivity.
  - rewrite Hm. simpl. rewrite Hm. simpl. rewrite Hs. simpl. rewrite <- app_assoc. reflexivity.
Qed.

Lemma send_message_fresh_world_witness :
  send_message md_m1 w_s1_active =
    (Ok (SendOk (mkMessage "m1" "s1" "user" "hello" 10) false),
     mkWorld (mkDb (<["s1" := set_updatedAt 10 (sample_session "s1" Active (Some "A") 0 0)]>
                      (chatSessions db_s1_active))
                   [mkMessage "m1" "s1" "user" "hello" 10])
       [] 11
       [EvStored (mkMessage "m1" "s1" "user" "hello" 10);
        EvEmit "s1" (OutNewMessage (mkMessage "m1" "s1" "user" "hello" 10))]).
Proof.
  exact (send_message_fresh_world md_m1 w_s1_active (sample_session "s1" Active (Some "A") 0 0)
           ltac:(discriminate) ltac:(discriminate) ltac:(discriminate) ltac:(reflexivity)
           ltac:(discriminate) ltac:(reflexivity) ltac:(reflexivity)).
Defined.

(** X15: a message with an empty [id] is not looked up for
    deduplication; once a message with an empty [id] is stored, the
    socket handler answers every further one on a valid session with the
    store's duplicate key error, stores and announces nothing, and only
    the clock moves. *)
Theorem send_message_empty_id_refused (md : MessageData) (w : World) (s : ChatSession) (m : ChatMessage) :
  md_id md = "" -> md_sessionId md <> "" -> md_message md <> "" -> md_sender md <> "" ->
  chatSessions (w_db w) !! md_sessionId md = Some s -> status s <> Closed ->
  find_message "" (w_db w) = Some m -> w_faults w = [] ->
  send_message md w =
    (Ok (SendErr "E11000 duplicate key error"),
     mkWorld (w_db w) [] (w_clock w + 1) (w_trace w)).
Proof.
  destruct w as [db fs clk tr]. simpl. intros H0 H1 H2 H3 Hs Hc Hm Hf. subst fs.
  unfold send_message, persist_and_broadcast, catch, bind, db_call, find_session, ret, now,
    db_insert_message, insert_message. simpl.
  apply String.eqb_neq in H1, H2, H3. rewrite H1, H2, H3. simpl.
  rewrite Hs, (status_not_closed s Hc), H0. simpl. rewrite Hm. reflexivity.
Qed.

Lemma send_message_empty_id_refused_witness :
  send_message (md_noid "again") (snd (send_message (md_noid "first") w_s1_active)) =
    (Ok (SendErr "E11000 duplicate key error"),
     mkWorld (w_db (snd (send_message (md_noid "first") w_s1_active))) [] 12
       (w_trace (snd (send_message (md_noid "first") w_s1_active)))).
Proof.
  exact (send_message_empty_id_refused (md_noid "again") (snd (send_message (md_noid "first") w_s1_active))
           (set_updatedAt 10 (sample_session "s1" Active (Some "A") 0 0))
           (mkMessage "" "s1" "user" "first" 10)
           ltac:(reflexivity) ltac:(discriminate) ltac:(discriminate) ltac:(discriminate)
           ltac:(vm_compute; reflexivity) ltac:(discriminate) ltac:(vm_compute; reflexivity)
           ltac:(reflexivity)).
Defined.

(** X16: [close-session] with an empty id reports [Invalid session ID]
    to the caller without reading the clock or the store; with an id
    that names no session it reads the clock, changes nothing in the
    store and reports [Session not found] to the caller; nothing is sent
    to the session's room in either case. *)
Theorem close_session_errors (caller sid : string) (w : World) :
  close_session caller "" w =
    (Ok tt, mkWorld (w_db w) (w_faults w) (w_clock w)
              (w_trace w ++ [EvEmit caller (OutSessionError "close-session" "Invalid session ID")])) /\
  (sid <> "" -> chatSessions (w_db w) !! sid = None -> w_faults w = [] ->
   close_session caller sid w =
     (Ok tt, mkWorld (w_db w) [] (w_clock w + 1)
               (w_trace w ++ [EvEmit caller (OutSessionError "close-session" "Session not found")]))).
Proof.
  destruct w as [db fs clk tr]. split.
  - reflexivity.
  - simpl. intros H1 Hs Hf. subst fs.
    unfold close_session, catch, bind, db_call, now, emit, log, throw, update_one. simpl.
    apply String.eqb_neq in H1. rewrite H1. simpl. rewrite Hs. reflexivity.
Qed.

Lemma close_session_errors_witness :
  close_session "dash" "s9" w_s1_active =
    (Ok tt, mkWorld db_s1_active [] 11 [EvEmit "dash" (OutSessionError "close-session" "Session not found")]).
Proof.
  exact (proj2 (close_session_errors "dash" "s9" w_s1_active) ltac:(discriminate)
           ltac:(reflexivity) ltac:(reflexivity)).
Defined.

(** *** [PUT /api/chat-sessions] *)

(** X17: [PUT /api/chat-sessions] with no field to update, or with an
    [agentName] longer than 100 characters, answers [400 validation] and
    touches nothing; otherwise it reads the clock once and, on a store
    without faults, either rewrites the named session with the given
    fields and [updatedAt] set to that time and answers it with [200], or,
    when no session has that id, answers [404 not_found] and creates none
    (no upsert). *)
Theorem put_chat_sessions_outcomes (sid : string) (u : SessionUpdate) (w : World) :
  put_chat_sessions sid (mkSessionUpdate None None None) w = (Ok (ApiError 400 "validation"), w) /\
  (valid_update_fields u = false -> put_chat_sessions sid u w = (Ok (ApiError 400 "validation"), w)) /\
  (u <> mkSessionUpdate None None None -> valid_update_fields u = true -> w_faults w = [] ->
   (chatSessions (w_db w) !! sid = None ->
    put_chat_sessions sid u w =
      (Ok (ApiError 404 "not_found"), mkWorld (w_db w) [] (w_clock w + 1) (w_trace w))) /\
   (forall s, chatSessions (w_db w) !! sid = Some s ->
    put_chat_sessions sid u w =
      (Ok (ApiSuccess 200 (apply_update u (w_clock w) s)),
       mkWorld (mkDb (<[sid := apply_update u (w_clock w) s]> (chatSessions (w_db w)))
                     (chatMessages (w_db w)))
               [] (w_clock w + 1) (w_trace w)))).
Proof.
  split; [reflexivity|].
  split.
  { intros Hv. unfold put_chat_sessions, withErrorHandling. rewrite Hv. reflexivity. }
  destruct w as [db fs clk tr]. simpl. intros Hu Hv Hf. subst fs.
  assert (Hput : forall r w',
    updateSession sid u (mkWorld db [] clk tr) = (Ok r, w') ->
    put_chat_sessions sid u (mkWorld db [] clk tr) =
      (Ok (match r with None => ApiError 404 "not_found" | Some s => ApiSuccess 200 s end), w')).
  { intros r w' E. unfold put_chat_sessions, withErrorHandling. rewrite Hv. simpl.
    destruct u as [[?|] [?|] [?|]]; try (exfalso; apply Hu; reflexivity);
      unfold bind; rewrite E; destruct r; reflexivity. }
  split.
  - intros Hs. apply (Hput None).
    unfold updateSession, with_retry_default, withRetry, bind, now, db_call, find_one_and_update. simpl.
    rewrite Hs. reflexivity.
  - intros s Hs. apply (Hput (Some (apply_update u clk s))).
    unfold updateSession, with_retry_default, withRetry, bind, now, db_call, find_one_and_update. simpl.
    rewrite Hs. reflexivity.
Qed.

Lemma put_chat_sessions_outcomes_witness :
  put_chat_sessions "s9" (mkSessionUpdate (Some Closed) None None) w_s1_active =
    (Ok (ApiError 404 "not_found"), mkWorld db_s1_active [] 11 []) /\
  put_chat_sessions "s1" (mkSessionUpdate None None (Some "Bob")) w_s1_active =
    (Ok (ApiSuccess 200 (apply_update (mkSessionUpdate None None (Some "Bob")) 10
                           (sample_session "s1" Active (Some "A") 0 0))),
     mkWorld (mkDb (<["s1" := apply_update (mkSessionUpdate None None (Some "Bob")) 10
                                (sample_session "s1" Active (Some "A") 0 0)]> (chatSessions db_s1_active))
                   (chatMessages db_s1_active)) [] 11 []).
Proof.
  split.
  - exact (proj1 (proj2 (proj2 (put_chat_sessions_outcomes "s9" (mkSessionUpdate (Some Closed) None None)
                                  w_s1_active))
                    ltac:(discriminate) ltac:(reflexivity) ltac:(reflexivity)) ltac:(reflexivity)).
  - exact (proj2 (proj2 (proj2 (put_chat_sessions_outcomes "s1" (mkSessionUpdate None None (Some "Bob"))
                                  w_s1_active))
                    ltac:(discriminate) ltac:(reflexivity) ltac:(reflexivity))
             (sample_session "s1" Active (Some "A") 0 0) ltac:(reflexivity)).
Defined.

(** *** The older chat-messages handlers *)

(** X18: the older [POST /api/chat-messages] stores any body whose [id]
    is not yet taken, stamped with the server time and without checking
    that its session exists or is open, and answers the body as sent; a
    body whose [id] is taken answers [500] and stores nothing.  It has no
    retry: a store fault answers [500] at once. *)
Theorem legacy_post_outcomes (md : MessageData) (w : World) :
  (w_faults w = [] -> find_message (md_id md) (w_db w) = None ->
   legacy_post_chat_messages md w =
     (Ok (LegacyOk md),
      mkWorld (mkDb (chatSessions (w_db w))
                    (chatMessages (w_db w) ++
                     [mkMessage (md_id md) (md_sessionId md) (md_sender md) (md_message md) (w_clock w)]))
              [] (w_clock w + 1)
              (w_trace w ++
               [EvStored (mkMessage (md_id md) (md_sessionId md) (md_sender md) (md_message md) (w_clock w))]))) /\
  (forall m, w_faults w = [] -> find_message (md_id md) (w_db w) = Some m ->
   legacy_post_chat_messages md w =
     (Ok (LegacyError 500 "Failed to create message"), mkWorld (w_db w) [] (w_clock w + 1) (w_trace w))) /\
  (forall fs, w_faults w = true :: fs ->
   legacy_post_chat_messages md w =
     (Ok (LegacyError 500 "Failed to create message"), mkWorld (w_db w) fs (w_clock w + 1) (w_trace w))).
Proof.
  destruct w as [db fs0 clk tr]. simpl. split; [|split].
  - intros Hf Hm. subst fs0.
    unfold legacy_post_chat_messages, catch, bind, now, db_insert_message, insert_message, ret. simpl.
    rewrite Hm. reflexivity.
  - intros m Hf Hm. subst fs0.
    unfold legacy_post_chat_messages, catch, bind, now, db_insert_message, insert_message, ret. simpl.
    rewrite Hm. reflexivity.
  - intros fs Hf. subst fs0. reflexivity.
Qed.

Lemma legacy_post_outcomes_witness :
  legacy_post_chat_messages (mkMessageData "m5" "nowhere" "user" "hi") w_s1_active =
    (Ok (LegacyOk (mkMessageData "m5" "nowhere" "user" "hi")),
     mkWorld (mkDb (chatSessions db_s1_active) [mkMessage "m5" "nowhere" "user" "hi" 10])
             [] 11 [EvStored (mkMessage "m5" "nowhere" "user" "hi" 10)]).
Proof.
  exact (proj1 (legacy_post_outcomes (mkMessageData "m5" "nowhere" "user" "hi") w_s1_active)
           ltac:(reflexivity) ltac:(reflexivity)).
Defined.

(** X19: the older [GET /api/chat-messages] answers [400] without a
    non-empty [sessionId]; otherwise, on a store without faults, it
    answers all messages of the session, none left out and none added,
    in ascending [createdAt] order, and changes nothing.  It has no
    retry: a store fault answers [500] at once. *)
Theorem legacy_get_outcomes (sid : string) (w : World) :
  legacy_get_chat_messages None w = (Ok (LegacyError 400 "Session ID is required"), w) /\
  legacy_get_chat_messages (Some "") w = (Ok (LegacyError 400 "Session ID is required"), w) /\
  (sid <> "" -> w_faults w = [] ->
   exists l, legacy_get_chat_messages (Some sid) w = (Ok (LegacyOk l), w) /\
     Sorted by_createdAt l /\ l ≡ₚ session_messages sid (w_db w)) /\
  (forall fs, sid <> "" -> w_faults w = true :: fs ->
   legacy_get_chat_messages (Some sid) w =
     (Ok (LegacyError 500 "Failed to fetch messages"), mkWorld (w_db w) fs (w_clock w) (w_trace w))).
Proof.
  split; [reflexivity|]. split; [reflexivity|].
  destruct w as [db fs0 clk tr]. simpl. split.
  - intros Hs Hf. subst fs0. apply String.eqb_neq in Hs.
    exists (sort_by_createdAt (session_messages sid db)). split; [|split].
    + unfold legacy_get_chat_messages, catch, bind, db_call, ret. simpl. rewrite Hs. reflexivity.
    + apply sort_by_createdAt_sorted.
    + apply sort_by_createdAt_perm.
  - intros fs Hs Hf. subst fs0. apply String.eqb_neq in Hs.
    unfold legacy_get_chat_messages, catch, bind, db_call, ret. simpl. rewrite Hs. reflexivity.
Qed.

Lemma legacy_get_outcomes_witness :
  exists l, legacy_get_chat_messages (Some "s1") w_s1_active = (Ok (LegacyOk l), w_s1_active) /\
    Sorted by_createdAt l /\ l ≡ₚ session_messages "s1" (w_db w_s1_active).
Proof.
  exact (proj1 (proj2 (proj2 (legacy_get_outcomes "s1" w_s1_active))) ltac:(discriminate) ltac:(reflexivity)).
Defined.

Lemma sessions_never_deleted_witness :
  is_Some (chatSessions (w_db (fst (run_ops (w_s1_active, []) claim_then_close))) !! "s1").
Proof.
  exact (proj1 (sessions_never_deleted "s1") w_s1_active [] claim_then_close
           ltac:(vm_compute; eexists; reflexivity)).
Defined.
